(** * MonitorLLM: terminal activity monitoring, shallow embedding

    The Python sources embedded here are
      - [src/core/activity_monitor.py]      (class TerminalActivityMonitor),
      - [src/core/comprehensive_monitor.py] (ComprehensiveTerminalMonitor,
        ShellHistoryMonitor, ProcessWatcher, EnvironmentMonitor),
      - [src/core/terminal_monitor.py]      (TerminalMonitor,
        ShellHistoryMonitor, ProcessMonitor).

    Conventions.
      - A Python [str] is a [string]; every character stands for the code
        point of the same number, so the model covers code points below 256.
      - A Python [int] is a [Z]; [len] results are [nat].
      - A naive [datetime] is a [Z]: the microseconds since [datetime.min],
        the start of the year 1.
        Formatting and parsing ([isoformat], [strftime], [fromisoformat]) belong
        to the Python library and are parameters, bundled in [PyLib].
      - Dynamically typed values (the dicts stored in the histories, the
        object read by [json.load]) are [pyval]s.
      - A method that mutates [self] and may raise is a function
        [state -> state * result A]: the state survives an exception, as
        the attributes of a Python object do. *)

From Stdlib Require Import ZArith QArith.QArith_base Ascii String DecimalString.
From stdpp Require Import base option list sorting gmap strings.

Local Open Scope Z_scope.

(** ** Python strings *)

(** [str.isspace] on code points below 256; [str.strip], [str.split()] and
    the regular expression class [\s] all use this predicate. *)
Definition is_space (c : ascii) : bool :=
  let n := N_of_ascii c in
  ((9 <=? n) && (n <=? 13) || (28 <=? n) && (n <=? 32) || (n =? 133) || (n =? 160))%N.

Fixpoint lstrip (s : string) : string :=
  match s with
  | EmptyString => EmptyString
  | String c s' => if is_space c then lstrip s' else s
  end.

Fixpoint rstrip (s : string) : string :=
  match s with
  | EmptyString => EmptyString
  | String c s' =>
      match rstrip s' with
      | EmptyString => if is_space c then EmptyString else String c EmptyString
      | r => String c r
      end
  end.

(** [s.strip()] *)
Definition strip (s : string) : string := rstrip (lstrip s).

(** [s.startswith(p)] *)
Definition startswith (s p : string) : bool := String.prefix p s.

(** [p in s] for strings. *)
Fixpoint contains (s p : string) : bool :=
  String.prefix p s ||
  match s with
  | EmptyString => false
  | String _ s' => contains s' p
  end.

(** [s.partition(c)] restricted to a one-character separator: the text
    before and after the first occurrence of [c], if there is one. *)
Fixpoint partition_char (c : ascii) (s : string) : option (string * string) :=
  match s with
  | EmptyString => None
  | String a s' =>
      if Ascii.eqb a c then Some (EmptyString, s')
      else match partition_char c s' with
           | Some (l, r) => Some (String a l, r)
           | None => None
           end
  end.

(** [s.split(c, 1)] *)
Definition split1 (c : ascii) (s : string) : list string :=
  match partition_char c s with
  | Some (l, r) => [l; r]
  | None => [s]
  end.

(** [s.split(c)] for a one-character separator. *)
Fixpoint split_char (c : ascii) (s : string) : list string :=
  match s with
  | EmptyString => [EmptyString]
  | String a s' =>
      if Ascii.eqb a c then EmptyString :: split_char c s'
      else match split_char c s' with
           | h :: t => String a h :: t
           | [] => [String a EmptyString]
           end
  end.

(** [sep.join(l)] *)
Definition join (sep : string) (l : list string) : string := String.concat sep l.

Definition starts_nonspace (s : string) : bool :=
  match s with
  | EmptyString => false
  | String c _ => negb (is_space c)
  end.

(** [s.split()]: the maximal runs of non-whitespace characters. *)
Fixpoint split_ws (s : string) : list string :=
  match s with
  | EmptyString => []
  | String c s' =>
      if is_space c then split_ws s'
      else if starts_nonspace s' then
             match split_ws s' with
             | h :: t => String c h :: t
             | [] => [String c EmptyString]
             end
           else String c EmptyString :: split_ws s'
  end.

(** [s[:n]] *)
Fixpoint str_take (n : nat) (s : string) : string :=
  match n, s with
  | S n', String c s' => String c (str_take n' s')
  | _, _ => EmptyString
  end.

Definition lower_char (c : ascii) : ascii :=
  let n := N_of_ascii c in
  if ((65 <=? n) && (n <=? 90) || (192 <=? n) && (n <=? 222) && negb (n =? 215))%N
  then ascii_of_N (n + 32) else c.

(** [s.lower()] *)
Fixpoint lower (s : string) : string :=
  match s with
  | EmptyString => EmptyString
  | String c s' => String (lower_char c) (lower s')
  end.

(** [str(n)] for an [int]. *)
Definition str_of_Z (z : Z) : string := NilZero.string_of_int (Z.to_int z).

Definition str_of_nat (n : nat) : string := str_of_Z (Z.of_nat n).

Definition newline : ascii := ascii_of_nat 10.
Definition nl : string := String newline EmptyString.

(** [l[-n:]] for a non-negative literal [n]: the last [n] items, and the
    whole list when [n] is 0 (Python reads [-0] as 0). *)
Definition py_last_n {A} (n : nat) (l : list A) : list A :=
  match n with
  | O => l
  | _ => drop (length l - n) l
  end.

(** ** Exceptions and results *)

Inductive exn_class :=
  | KeyError | TypeError | ValueError | IndexError | AttributeError
  | OSError | PermissionError | OverflowError.

Record exn := Exn { exn_cls : exn_class; exn_msg : string }.

Inductive result (A : Type) :=
  | Ok (a : A)
  | Raise (e : exn).
Arguments Ok {A} a.
Arguments Raise {A} e.

#[global] Instance result_ret : MRet result := fun A a => Ok a.
#[global] Instance result_bind : MBind result := fun A B f m =>
  match m with
  | Ok a => f a
  | Raise e => Raise e
  end.

Definition raise {A} (c : exn_class) (msg : string) : result A := Raise (Exn c msg).

(** A method of an object with attributes [S]: the attributes are threaded
    through, and an exception leaves them as they were when it was raised. *)
Definition method (S A : Type) : Type := S -> S * result A.

#[global] Instance method_ret {S} : MRet (method S) := fun A a s => (s, Ok a).
#[global] Instance method_bind {S} : MBind (method S) := fun A B f m s =>
  match m s with
  | (s', Ok a) => f a s'
  | (s', Raise e) => (s', Raise e)
  end.

Definition get_self {S} : method S S := fun s => (s, Ok s).
Definition set_self {S} (f : S -> S) : method S unit := fun s => (f s, Ok tt).
Definition lift {S A} (r : result A) : method S A := fun s => (s, r).

(** ** Python values *)

#[local] Set Warnings "-register-all,-clear-no-such-hyp".

Inductive pyval :=
  | PNone
  | PBool (b : bool)
  | PInt (z : Z)
  | PFloat (q : Q)
  | PStr (s : string)
  | PList (l : list pyval)
  | PDict (d : list (string * pyval)).

(** Insertion-ordered dictionaries with string keys, as association lists
    without repeated keys: an update keeps the position of the key, a new
    key goes to the end. *)
Fixpoint alist_get {V} (k : string) (d : list (string * V)) : option V :=
  match d with
  | [] => None
  | (k', v) :: d' => if String.eqb k' k then Some v else alist_get k d'
  end.

Fixpoint alist_set {V} (k : string) (v : V) (d : list (string * V)) : list (string * V) :=
  match d with
  | [] => [(k, v)]
  | (k', v') :: d' =>
      if String.eqb k' k then (k, v) :: d' else (k', v') :: alist_set k v d'
  end.

(** [v[key]] *)
Definition subscript (v : pyval) (key : string) : result pyval :=
  match v with
  | PDict d =>
      match alist_get key d with
      | Some x => Ok x
      | None => raise KeyError key
      end
  | _ => raise TypeError "object is not subscriptable by a string"
  end.

(** [v.get(key, [])] *)
Definition get_or_empty_list (v : pyval) (key : string) : result pyval :=
  match v with
  | PDict d =>
      match alist_get key d with
      | Some x => Ok x
      | None => Ok (PList [])
      end
  | _ => raise AttributeError "object has no attribute 'get'"
  end.

(** Truth value of [v] in a condition. *)
Definition truthy (v : pyval) : bool :=
  match v with
  | PNone => false
  | PBool b => b
  | PInt z => negb (z =? 0)
  | PFloat q => negb (Qeq_bool q 0)
  | PStr s => negb (String.eqb s EmptyString)
  | PList l => negb (Nat.eqb (length l) 0)
  | PDict d => negb (Nat.eqb (length d) 0)
  end.

(** [len(v)] *)
Definition py_len (v : pyval) : result nat :=
  match v with
  | PStr s => Ok (String.length s)
  | PList l => Ok (length l)
  | PDict d => Ok (length d)
  | _ => raise TypeError "object has no len()"
  end.

(** [for x in v]: the items the loop visits. A string yields its
    characters, a dict its keys. *)
Definition py_iter (v : pyval) : result (list pyval) :=
  match v with
  | PList l => Ok l
  | PStr s => Ok (map (fun c => PStr (String c EmptyString)) (list_ascii_of_string s))
  | PDict d => Ok (map (fun kv => PStr (fst kv)) d)
  | _ => raise TypeError "object is not iterable"
  end.

(** The Python library functions the monitor calls on values it does not
    build itself. [py_format v] is [format(v)] for a [v] that is not a
    [str]; [py_eq] is [==]. *)
Record PyLib := {
  isoformat : Z -> string;
  strftime_HMS : Z -> string;
  fromisoformat : string -> option Z;
  str_timedelta : Z -> string;
  py_format : pyval -> string;
  py_eq : pyval -> pyval -> bool
}.

(** [f"{v}"] *)
Definition fmt (py : PyLib) (v : pyval) : string :=
  match v with
  | PStr s => s
  | _ => py_format py v
  end.

(** ** [collections.deque] with a [maxlen] *)

Record deque (A : Type) := Deque { dq_maxlen : nat; dq_items : list A }.
Arguments Deque {A} dq_maxlen dq_items.
Arguments dq_maxlen {A} d.
Arguments dq_items {A} d.

(** [d.append(x)]: the item goes to the right end, and when the deque is
    then longer than [maxlen] the leftmost item is discarded. *)
Definition deque_append {A} (x : A) (d : deque A) : deque A :=
  let items := dq_items d ++ [x] in
  Deque (dq_maxlen d) (if (dq_maxlen d <? length items)%nat then tail items else items).

Definition deque_clear {A} (d : deque A) : deque A := Deque (dq_maxlen d) [].

Definition deque_extend {A} (xs : list A) (d : deque A) : deque A :=
  fold_left (fun d x => deque_append x d) xs d.

(** ** The process environment *)

Record os_env := {
  getenv : string -> option string;
  getcwd : string;
  getpid : Z
}.

(** [os.getenv(name, 'unknown')] *)
Definition getenv_or (env : os_env) (name default : string) : string :=
  match getenv env name with
  | Some v => v
  | None => default
  end.

(** ** Events of the source monitors *)

(** The dict a history monitor queues for a command. *)
Record cmd_event := {
  ce_timestamp : string;
  ce_command : string;
  ce_source : string
}.

Inductive proc_action := started | terminated.

(** The dict a process monitor queues. A [terminated] event has no
    [cmdline]; [ProcessMonitor] gives it no [name] either. *)
Record proc_event := {
  pe_pid : Z;
  pe_name : option string;
  pe_cmdline : option string;
  pe_timestamp : string;
  pe_action : proc_action
}.

(** ** ComprehensiveTerminalMonitor (comprehensive_monitor.py) *)

Record comp_session := {
  cs_commands : list cmd_event;
  cs_outputs : list pyval;
  cs_processes : list proc_event;
  cs_files_accessed : list pyval
}.

Record comp_monitor := {
  is_monitoring : bool;
  terminal_buffer : deque string;
  comp_session_data : comp_session
}.

(** [ComprehensiveTerminalMonitor.__init__] *)
Definition comp_init : comp_monitor :=
  {| is_monitoring := false;
     terminal_buffer := Deque 2000 [];
     comp_session_data := {| cs_commands := []; cs_outputs := [];
                             cs_processes := []; cs_files_accessed := [] |} |}.

(** [start_monitoring]: nothing when monitoring is on already; otherwise
    the flag is set, the source monitors and the coordination thread are
    started, and [existing], the first non-empty capture of tmux, screen,
    [history] or [last], is put into the buffer. *)
Definition start_monitoring (existing : option string) (cm : comp_monitor) : comp_monitor :=
  if is_monitoring cm then cm
  else
    {| is_monitoring := true;
       terminal_buffer :=
         match existing with
         | Some content =>
             if String.eqb content EmptyString then terminal_buffer cm
             else deque_append ("[EXISTING] " +:+ content) (terminal_buffer cm)
         | None => terminal_buffer cm
         end;
       comp_session_data := comp_session_data cm |}.

Definition action_name (a : proc_action) : string :=
  match a with
  | started => "started"
  | terminated => "terminated"
  end.

(** One item of [_process_monitor_data] for the monitor ['shell_history']. *)
Definition process_history_item (item : cmd_event) (cm : comp_monitor) : comp_monitor :=
  let entry := "[" +:+ ce_timestamp item +:+ "] $ " +:+ ce_command item in
  let sd := comp_session_data cm in
  {| is_monitoring := is_monitoring cm;
     terminal_buffer := deque_append entry (terminal_buffer cm);
     comp_session_data := {| cs_commands := cs_commands sd ++ [item];
                             cs_outputs := cs_outputs sd;
                             cs_processes := cs_processes sd;
                             cs_files_accessed := cs_files_accessed sd |} |}.

(** [_process_monitor_data('shell_history', data)] *)
Definition process_history_data (data : list cmd_event) (cm : comp_monitor) : comp_monitor :=
  fold_left (fun cm item => process_history_item item cm) data cm.

Definition important_vars : list string :=
  ["PATH"; "HOME"; "USER"; "SHELL"; "TERM"; "PWD"; "LANG"].

(** The lines of the ENVIRONMENT block: a variable that is unset or empty
    is left out, a value longer than 100 characters is cut. *)
Definition env_line (env : os_env) (var : string) : list string :=
  match getenv env var with
  | Some value =>
      if String.eqb value EmptyString then []
      else
        let value := if (100 <? String.length value)%nat
                     then str_take 100 value +:+ "..." else value in
        [var +:+ "=" +:+ value]
  | None => []
  end.

(** [get_comprehensive_context(lines)] *)
Definition get_comprehensive_context (env : os_env) (lines : nat) (cm : comp_monitor) : string :=
  let sd := comp_session_data cm in
  join nl
    (["=== SYSTEM CONTEXT ===";
      "User: " +:+ getenv_or env "USER" "unknown";
      "Shell: " +:+ getenv_or env "SHELL" "unknown";
      "PWD: " +:+ getcwd env;
      "Terminal: " +:+ getenv_or env "TERM" "unknown";
      "Session PID: " +:+ str_of_Z (getpid env);
      EmptyString;
      "=== TERMINAL ACTIVITY ==="]
     ++ py_last_n lines (dq_items (terminal_buffer cm))
     ++ [EmptyString;
         "=== SESSION STATISTICS ===";
         "Commands executed: " +:+ str_of_nat (length (cs_commands sd));
         "Processes monitored: " +:+ str_of_nat (length (cs_processes sd));
         "Files accessed: " +:+ str_of_nat (length (cs_files_accessed sd));
         EmptyString;
         "=== ENVIRONMENT ==="]
     ++ concat (map (env_line env) important_vars)).

(** ** TerminalActivityMonitor (activity_monitor.py) *)

Record monitor := {
  max_context_size : Z;
  max_history_items : Z;
  command_history : deque pyval;
  output_history : deque pyval;
  context_buffer : string;
  current_directory : string;
  session_start : Z;
  session_data : pyval;
  comprehensive_monitor : option comp_monitor;
  is_comprehensive_monitoring : bool
}.

Definition set_command_history (f : deque pyval -> deque pyval) (st : monitor) : monitor :=
  {| max_context_size := max_context_size st;
     max_history_items := max_history_items st;
     command_history := f (command_history st);
     output_history := output_history st;
     context_buffer := context_buffer st;
     current_directory := current_directory st;
     session_start := session_start st;
     session_data := session_data st;
     comprehensive_monitor := comprehensive_monitor st;
     is_comprehensive_monitoring := is_comprehensive_monitoring st |}.

Definition set_output_history (f : deque pyval -> deque pyval) (st : monitor) : monitor :=
  {| max_context_size := max_context_size st;
     max_history_items := max_history_items st;
     command_history := command_history st;
     output_history := f (output_history st);
     context_buffer := context_buffer st;
     current_directory := current_directory st;
     session_start := session_start st;
     session_data := session_data st;
     comprehensive_monitor := comprehensive_monitor st;
     is_comprehensive_monitoring := is_comprehensive_monitoring st |}.

Definition set_context_buffer (b : string) (st : monitor) : monitor :=
  {| max_context_size := max_context_size st;
     max_history_items := max_history_items st;
     command_history := command_history st;
     output_history := output_history st;
     context_buffer := b;
     current_directory := current_directory st;
     session_start := session_start st;
     session_data := session_data st;
     comprehensive_monitor := comprehensive_monitor st;
     is_comprehensive_monitoring := is_comprehensive_monitoring st |}.

Definition set_current_directory (d : string) (st : monitor) : monitor :=
  {| max_context_size := max_context_size st;
     max_history_items := max_history_items st;
     command_history := command_history st;
     output_history := output_history st;
     context_buffer := context_buffer st;
     current_directory := d;
     session_start := session_start st;
     session_data := session_data st;
     comprehensive_monitor := comprehensive_monitor st;
     is_comprehensive_monitoring := is_comprehensive_monitoring st |}.

Definition set_session_data (sd : pyval) (st : monitor) : monitor :=
  {| max_context_size := max_context_size st;
     max_history_items := max_history_items st;
     command_history := command_history st;
     output_history := output_history st;
     context_buffer := context_buffer st;
     current_directory := current_directory st;
     session_start := session_start st;
     session_data := sd;
     comprehensive_monitor := comprehensive_monitor st;
     is_comprehensive_monitoring := is_comprehensive_monitoring st |}.

(** The comprehensive monitor is an object of its own, which the monitor
    refers to and which its coordination thread changes between the calls
    of the monitor. [comprehensive_step f] is such a change, as the monitor
    sees it. *)
Definition comprehensive_step (f : comp_monitor -> comp_monitor) (st : monitor) : monitor :=
  {| max_context_size := max_context_size st;
     max_history_items := max_history_items st;
     command_history := command_history st;
     output_history := output_history st;
     context_buffer := context_buffer st;
     current_directory := current_directory st;
     session_start := session_start st;
     session_data := session_data st;
     comprehensive_monitor := f <$> comprehensive_monitor st;
     is_comprehensive_monitoring := is_comprehensive_monitoring st |}.

(** What [_try_start_comprehensive_monitoring] met: the comprehensive
    monitor started, was built but failed to start, or could not be
    imported. *)
Inductive comp_start :=
  | CompStarted (cm : comp_monitor)
  | CompFailed (cm : comp_monitor)
  | CompUnavailable.

(** [TerminalActivityMonitor.__init__]; [deque(maxlen=n)] raises
    [ValueError] for a negative [n]. *)
Definition init (py : PyLib) (now : Z) (cwd : string) (comp : comp_start)
    (max_context_size max_history_items : Z) : result monitor :=
  if max_history_items <? 0 then raise ValueError "maxlen must be non-negative"
  else
    Ok {| max_context_size := max_context_size;
          max_history_items := max_history_items;
          command_history := Deque (Z.to_nat max_history_items) [];
          output_history := Deque (Z.to_nat max_history_items) [];
          context_buffer := EmptyString;
          current_directory := cwd;
          session_start := now;
          session_data :=
            PDict [("start_time", PStr (isoformat py now));
                   ("commands", PList []);
                   ("outputs", PList []);
                   ("directory_changes", PList []);
                   ("file_operations", PList [])];
          comprehensive_monitor :=
            match comp with
            | CompStarted cm | CompFailed cm => Some cm
            | CompUnavailable => None
            end;
          is_comprehensive_monitoring :=
            match comp with
            | CompStarted _ => true
            | _ => false
            end |}.

(** [n > max * 0.8] for a length [n]. Python compares the integer [n]
    with the floating-point product exactly. For a bound below 2^50 the
    product is [4*max/5] itself when that is an integer and otherwise lies
    with it strictly between the same two integers, so the test is the one
    of exact arithmetic, which is what is modelled. *)
Definition over_target (n : nat) (max : Z) : bool := 4 * max <? 5 * Z.of_nat n.

(** The loop [while len('\n'.join(lines)) > max * 0.8: lines.pop(0)];
    [pop(0)] on an empty list raises [IndexError]. *)
Fixpoint trim_lines (max : Z) (lines : list string) : result (list string) :=
  if over_target (String.length (join nl lines)) max then
    match lines with
    | [] => raise IndexError "pop from empty list"
    | _ :: rest => trim_lines max rest
    end
  else Ok lines.

(** [self.session_data[key].append(entry)] *)
Definition session_append (key : string) (entry : pyval) : method monitor unit :=
  fun st =>
    match session_data st with
    | PDict d =>
        match alist_get key d with
        | Some (PList l) =>
            (set_session_data (PDict (alist_set key (PList (l ++ [entry])) d)) st, Ok tt)
        | Some _ => (st, raise AttributeError "object has no attribute 'append'")
        | None => (st, raise KeyError key)
        end
    | _ => (st, raise TypeError "object is not subscriptable by a string")
    end.

Definition _update_context_buffer (text : string) : method monitor unit :=
  fun st =>
    let st1 := set_context_buffer (context_buffer st +:+ text +:+ nl) st in
    if max_context_size st1 <? Z.of_nat (String.length (context_buffer st1)) then
      match trim_lines (max_context_size st1) (split_char newline (context_buffer st1)) with
      | Ok lines => (set_context_buffer (join nl lines) st1, Ok tt)
      | Raise e => (st1, Raise e)
      end
    else (st1, Ok tt).

Definition command_entry (py : PyLib) (timestamp : Z) (command directory : string) : pyval :=
  PDict [("timestamp", PStr (isoformat py timestamp));
         ("command", PStr command);
         ("directory", PStr directory);
         ("duration", PNone)].

Definition output_entry (py : PyLib) (timestamp : Z) (command output directory : string) : pyval :=
  PDict [("timestamp", PStr (isoformat py timestamp));
         ("command", PStr command);
         ("output", PStr output);
         ("directory", PStr directory)].

Definition dir_change_entry (py : PyLib) (timestamp : Z) (old new : string) : pyval :=
  PDict [("timestamp", PStr (isoformat py timestamp));
         ("from", PStr old);
         ("to", PStr new)].

Definition file_op_entry (py : PyLib) (timestamp : Z) (operation filepath directory : string) : pyval :=
  PDict [("timestamp", PStr (isoformat py timestamp));
         ("operation", PStr operation);
         ("filepath", PStr filepath);
         ("directory", PStr directory)].

(** In the four [log_*] methods [now] is [datetime.now()], read when the
    caller gives no [timestamp]. *)
Definition log_command (py : PyLib) (now : Z) (command : string) (timestamp : option Z)
    : method monitor unit :=
  let timestamp := default now timestamp in
  st ← get_self;
  let entry := command_entry py timestamp command (current_directory st) in
  set_self (set_command_history (deque_append entry));;
  session_append "commands" entry;;
  _update_context_buffer ("[" +:+ strftime_HMS py timestamp +:+ "] $ " +:+ command).

Definition log_output (py : PyLib) (now : Z) (output command : string) (timestamp : option Z)
    : method monitor unit :=
  let timestamp := default now timestamp in
  st ← get_self;
  let entry := output_entry py timestamp command output (current_directory st) in
  set_self (set_output_history (deque_append entry));;
  session_append "outputs" entry;;
  if String.eqb (strip output) EmptyString then mret tt
  else _update_context_buffer output.

Definition log_directory_change (py : PyLib) (now : Z) (new_directory : string)
    (timestamp : option Z) : method monitor unit :=
  let timestamp := default now timestamp in
  st ← get_self;
  let old_directory := current_directory st in
  set_self (set_current_directory new_directory);;
  session_append "directory_changes" (dir_change_entry py timestamp old_directory new_directory);;
  _update_context_buffer ("[" +:+ strftime_HMS py timestamp +:+ "] cd " +:+ new_directory).

Definition log_file_operation (py : PyLib) (now : Z) (operation filepath : string)
    (timestamp : option Z) : method monitor unit :=
  let timestamp := default now timestamp in
  st ← get_self;
  session_append "file_operations"
    (file_op_entry py timestamp operation filepath (current_directory st));;
  _update_context_buffer
    ("[" +:+ strftime_HMS py timestamp +:+ "] " +:+ operation +:+ ": " +:+ filepath).

(** The appends of the front end. *)
Inductive append_op :=
  | LogCommand (command : string) (timestamp : option Z)
  | LogOutput (output command : string) (timestamp : option Z)
  | LogDirectoryChange (new_directory : string) (timestamp : option Z)
  | LogFileOperation (operation filepath : string) (timestamp : option Z).

(** One append, made at time [now]. *)
Definition run_append (py : PyLib) (now : Z) (op : append_op) : method monitor unit :=
  match op with
  | LogCommand c t => log_command py now c t
  | LogOutput o c t => log_output py now o c t
  | LogDirectoryChange d t => log_directory_change py now d t
  | LogFileOperation o f t => log_file_operation py now o f t
  end.

(** A sequence of appends, each with the clock reading at its call; an
    append that raises leaves the state it reached and the caller goes on.
    The result lists the state and outcome after each append. *)
Fixpoint run_appends (py : PyLib) (ops : list (Z * append_op)) (st : monitor)
    : list (monitor * result unit) :=
  match ops with
  | [] => []
  | (now, op) :: ops' =>
      let r := run_append py now op st in
      r :: run_appends py ops' (fst r)
  end.

(** *** get_context *)

Inductive entry_type := command | output.

(** The condition of the two list comprehensions:
    [datetime.fromisoformat(e["timestamp"]) >= cutoff_time]. *)
Definition is_recent (py : PyLib) (cutoff_time : Z) (e : pyval) : result bool :=
  ts ← subscript e "timestamp";
  match (ts : pyval) with
  | PStr s =>
      match fromisoformat py s with
      | Some t => Ok (cutoff_time <=? t)
      | None => raise ValueError "Invalid isoformat string"
      end
  | _ => raise TypeError "fromisoformat: argument must be str"
  end.

Fixpoint filter_recent (py : PyLib) (cutoff_time : Z) (l : list pyval) : result (list pyval) :=
  match l with
  | [] => Ok []
  | e :: l' =>
      b ← is_recent py cutoff_time e;
      r ← filter_recent py cutoff_time l';
      Ok (if (b : bool) then e :: r else r)
  end.

(** [list.sort(key=...)] computes the key of every item first, then sorts
    the items by their keys with a stable sort. A stable sort has one
    possible result, which insertion from the right produces. *)
Fixpoint insert_by {K A} (le : K -> K -> bool) (x : K * A) (l : list (K * A)) : list (K * A) :=
  match l with
  | [] => [x]
  | y :: l' => if le (fst x) (fst y) then x :: l else y :: insert_by le x l'
  end.

Fixpoint stable_sort {K A} (le : K -> K -> bool) (l : list (K * A)) : list (K * A) :=
  match l with
  | [] => []
  | x :: l' => insert_by le x (stable_sort le l')
  end.

(** The key [x[1]["timestamp"]] of an item of [all_entries]. Items reach
    the sort through [is_recent], so their timestamps are strings. *)
Definition timestamp_key (x : entry_type * pyval) : result string :=
  ts ← subscript (x.2) "timestamp";
  match (ts : pyval) with
  | PStr s => Ok s
  | _ => raise TypeError "unorderable timestamp"
  end.

Fixpoint with_keys {K A} (key : A -> result K) (l : list A) : result (list (K * A)) :=
  match l with
  | [] => Ok []
  | x :: l' => k ← key x; r ← with_keys key l'; Ok ((k, x) :: r)
  end.

Definition sort_by_timestamp (l : list (entry_type * pyval)) : result (list (entry_type * pyval)) :=
  kl ← with_keys timestamp_key l;
  Ok (map snd (stable_sort String.leb kl)).

(** What one iteration of the rendering loop appends to [context_parts]. *)
Definition render_entry (py : PyLib) (x : entry_type * pyval) : result pyval :=
  match x.1 with
  | command =>
      c ← subscript (x.2) "command";
      Ok (PStr ("$ " +:+ fmt py c))
  | output =>
      o ← subscript (x.2) "output";
      n ← py_len o;
      if (500 <? n)%nat then
        match (o : pyval) with
        | PStr s => Ok (PStr (str_take 500 s +:+ "..."))
        | _ => raise TypeError "cannot slice and concatenate to str"
        end
      else Ok o
  end.

Fixpoint render_entries (py : PyLib) (l : list (entry_type * pyval)) : result (list pyval) :=
  match l with
  | [] => Ok []
  | x :: l' => p ← render_entry py x; r ← render_entries py l'; Ok (p :: r)
  end.

(** [sep.join(parts)]: every part has to be a [str]. *)
Fixpoint strs_of (parts : list pyval) : result (list string) :=
  match parts with
  | [] => Ok []
  | PStr s :: parts' => r ← strs_of parts'; Ok (s :: r)
  | _ :: _ => raise TypeError "sequence item: expected str instance"
  end.

Definition py_join (sep : string) (parts : list pyval) : result string :=
  l ← strs_of parts; Ok (join sep l).

(** The lines both branches start with. [existing_content] is what
    [_get_existing_terminal_content] collected from tmux, screen, the
    history file and [ps]. *)
Definition preamble (existing_content : string) (st : monitor) : list pyval :=
  (if String.eqb existing_content EmptyString then []
   else [PStr "=== EXISTING TERMINAL CONTENT ==="; PStr existing_content; PStr EmptyString])
  ++ [PStr ("Current directory: " +:+ current_directory st)].

(** The entries the recent branch renders: the last 20 of the recent
    commands followed by the recent outputs, sorted by timestamp. *)
Definition recent_entries (py : PyLib) (cutoff_time : Z) (st : monitor)
    : result (list (entry_type * pyval)) :=
  recent_commands ← filter_recent py cutoff_time (dq_items (command_history st));
  recent_outputs ← filter_recent py cutoff_time (dq_items (output_history st));
  let all_entries :=
    map (pair command) recent_commands ++ map (pair output) recent_outputs in
  sorted ← sort_by_timestamp all_entries;
  Ok (py_last_n 20 sorted).

Definition minute : Z := 60000000.

(** [datetime.min] and [datetime.max]: the first microsecond of the year
    1 and the last one of the year 9999, 3652059 days later. *)
Definition datetime_min : Z := 0.
Definition datetime_max : Z := 3652059 * 86400000000 - 1.

(** [timedelta(minutes=minutes)], in microseconds: the days of the
    difference have to fit a C [int] and to be of magnitude 999999999 at
    most. *)
Definition timedelta_minutes (minutes : Z) : result Z :=
  let days := minutes / 1440 in
  if (days <? -2147483648) || (2147483647 <? days) then
    raise OverflowError "Python int too large to convert to C int"
  else if (days <? -999999999) || (999999999 <? days) then
    raise OverflowError ("days=" +:+ str_of_Z days +:+ "; must have magnitude <= 999999999")
  else Ok (minutes * minute).

(** [t - delta] for a [datetime] [t] and a [timedelta] [delta]. *)
Definition datetime_sub (t delta : Z) : result Z :=
  let r := t - delta in
  if (r <? datetime_min) || (datetime_max <? r) then
    raise OverflowError "date value out of range"
  else Ok r.

(** [datetime.now() - timedelta(minutes=minutes)] *)
Definition cutoff_before (now minutes : Z) : result Z :=
  delta ← timedelta_minutes minutes;
  datetime_sub now delta.

(** The part of [get_context] below the comprehensive branch. *)
Definition basic_context (py : PyLib) (existing_content : string) (now : Z)
    (include_recent_only : bool) (minutes : Z) (st : monitor) : result string :=
  if include_recent_only then
    cutoff_time ← cutoff_before now minutes;
    entries ← recent_entries py cutoff_time st;
    rendered ← render_entries py entries;
    py_join nl
      (preamble existing_content st
       ++ [PStr ("Recent activity (last " +:+ str_of_Z minutes +:+ " minutes):")]
       ++ rendered)
  else
    py_join nl (preamble existing_content st ++ [PStr (context_buffer st)]).

(** The call [self.comprehensive_monitor.get_comprehensive_context(lines=100)]
    of [get_context]. [os.getcwd()] raises [FileNotFoundError] when the
    working directory of the process has been removed, and nothing else in
    the method raises; [getcwd_error] is that exception where the call
    meets it. *)
Definition comprehensive_context_call (env : os_env) (getcwd_error : option exn)
    (cm : comp_monitor) : result string :=
  match getcwd_error with
  | Some e => Raise e
  | None => Ok (get_comprehensive_context env 100 cm)
  end.

(** [get_context(include_recent_only, minutes)]. With comprehensive
    monitoring on, the comprehensive context is returned whatever the
    arguments are; when that call raises, the error is logged and the
    method goes on with the basic context. *)
Definition get_context (py : PyLib) (env : os_env) (getcwd_error : option exn)
    (existing_content : string) (now : Z) (include_recent_only : bool) (minutes : Z)
    (st : monitor) : result string :=
  match is_comprehensive_monitoring st, comprehensive_monitor st with
  | true, Some cm =>
      match comprehensive_context_call env getcwd_error cm with
      | Ok text => Ok text
      | Raise _ => basic_context py existing_content now include_recent_only minutes st
      end
  | _, _ => basic_context py existing_content now include_recent_only minutes st
  end.

(** *** get_session_summary *)

(** [cmd_entry["command"].split()[0] if cmd_entry["command"] else ""] *)
Definition command_basename (cmd_entry : pyval) : result string :=
  c ← subscript cmd_entry "command";
  if truthy c then
    match (c : pyval) with
    | PStr s =>
        match split_ws s with
        | t :: _ => Ok t
        | [] => raise IndexError "list index out of range"
        end
    | _ => raise AttributeError "object has no attribute 'split'"
    end
  else Ok EmptyString.

(** [command_counts[cmd] = command_counts.get(cmd, 0) + 1] *)
Definition count_command (cmd : string) (command_counts : list (string * nat)) : list (string * nat) :=
  alist_set cmd (S (default O (alist_get cmd command_counts))) command_counts.

Fixpoint count_commands (entries : list pyval) (command_counts : list (string * nat))
    : result (list (string * nat)) :=
  match entries with
  | [] => Ok command_counts
  | e :: entries' =>
      cmd ← command_basename e;
      count_commands entries' (count_command cmd command_counts)
  end.

(** [sorted(items, key=lambda x: x[1], reverse=True)]: stable, with the
    larger count first. *)
Definition sort_by_count_desc (items : list (string * nat)) : list (string * nat) :=
  map snd (stable_sort (fun a b => (b <=? a)%nat) (map (fun x => (x.2, x)) items)).

Definition _get_most_used_commands (st : monitor) : result (list (string * nat)) :=
  command_counts ← count_commands (dq_items (command_history st)) [];
  Ok (take 10 (sort_by_count_desc command_counts)).

Fixpoint recent_files_loop (py : PyLib) (file_ops : list pyval) (recent_files : list pyval)
    : result (list pyval) :=
  match file_ops with
  | [] => Ok recent_files
  | file_op :: file_ops' =>
      p ← subscript file_op "filepath";
      recent_files_loop py file_ops'
        (if existsb (py_eq py p) recent_files then recent_files else recent_files ++ [p])
  end.

Definition _get_recent_files (py : PyLib) (st : monitor) : result (list pyval) :=
  ops ← subscript (session_data st) "file_operations";
  l ← py_iter ops;
  recent_files_loop py (py_last_n 10 l) [].

Record summary := {
  session_duration : string;
  total_commands : nat;
  total_outputs : nat;
  sum_current_directory : string;
  directory_changes : nat;
  file_operations : nat;
  most_used_commands : list (string * nat);
  recent_files : list pyval
}.

Definition get_session_summary (py : PyLib) (now : Z) (st : monitor) : result summary :=
  dc ← subscript (session_data st) "directory_changes";
  n_dc ← py_len dc;
  fo ← subscript (session_data st) "file_operations";
  n_fo ← py_len fo;
  muc ← _get_most_used_commands st;
  rf ← _get_recent_files py st;
  Ok {| session_duration := str_timedelta py (now - session_start st);
        total_commands := length (dq_items (command_history st));
        total_outputs := length (dq_items (output_history st));
        sum_current_directory := current_directory st;
        directory_changes := n_dc;
        file_operations := n_fo;
        most_used_commands := muc;
        recent_files := rf |}.

(** *** load_session *)

(** The loop [for x in items: history.append(x)]. *)
Definition extend_history (setter : (deque pyval -> deque pyval) -> monitor -> monitor)
    (items : pyval) : method monitor unit :=
  l ← lift (py_iter items);
  set_self (setter (deque_extend l)).

(** The body of the [try] block. [file] is what [open] and [json.load]
    gave: the parsed value, or the exception of a file that cannot be
    opened or is not JSON. *)
Definition load_session_body (file : result pyval) : method monitor unit :=
  data ← lift file;
  set_self (set_session_data data);;
  set_self (set_command_history deque_clear);;
  set_self (set_output_history deque_clear);;
  commands ← lift (get_or_empty_list data "commands");
  extend_history set_command_history commands;;
  outputs ← lift (get_or_empty_list data "outputs");
  extend_history set_output_history outputs.

(** [try: body except Exception: log] *)
Definition try_log {S} (body : method S unit) : method S unit :=
  fun s =>
    match body s with
    | (s', Ok tt) => (s', Ok tt)
    | (s', Raise _) => (s', Ok tt)
    end.

Definition load_session (file : result pyval) : method monitor unit :=
  try_log (load_session_body file).

(** ** Shell history monitors *)

Definition nonempty (s : string) : bool := negb (String.eqb s EmptyString).

Definition semicolon : ascii := ascii_of_nat 59.

(** [ShellHistoryMonitor._parse_history_line] (comprehensive_monitor.py) *)
Definition _parse_history_line (line : string) : string :=
  if startswith line ": " then
    match split1 semicolon line with
    | _ :: part :: _ => strip part
    | _ => strip line
    end
  else strip line.

(** The command of one line of the history file in
    [_process_history_update]: none for a blank line, a comment, or a line
    whose command is empty. *)
Definition history_line_command (raw : string) : option string :=
  let line := strip raw in
  if nonempty line && negb (startswith line "#") then
    let command := _parse_history_line line in
    if nonempty command then Some command else None
  else None.

(** The same step as written inline in [_read_new_history]
    (terminal_monitor.py) and in [_monitor_shell_history] and
    [_get_existing_terminal_content] (activity_monitor.py). *)
Definition inline_line_command (raw : string) : option string :=
  let line := strip raw in
  if nonempty line && negb (startswith line "#") then
    let command :=
      if startswith line ": " then
        match split1 semicolon line with
        | _ :: part :: _ => strip part
        | _ => line
        end
      else line in
    if nonempty command then Some command else None
  else None.

(** comprehensive_monitor.py: the pending queue [new_commands]. *)
Record history_watcher := { new_commands : deque cmd_event }.

Definition history_watcher_init : history_watcher :=
  {| new_commands := Deque 50 [] |}.

(** The loop of [_process_history_update] over the lines it examines;
    [hms] is the clock reading [strftime('%H:%M:%S')] during the call. *)
Fixpoint process_history_lines (hms : string) (lines : list string)
    (q : deque cmd_event) : deque cmd_event :=
  match lines with
  | [] => q
  | raw :: lines' =>
      process_history_lines hms lines'
        match history_line_command raw with
        | Some c =>
            deque_append {| ce_timestamp := hms; ce_command := c;
                            ce_source := "shell_history" |} q
        | None => q
        end
  end.

(** [_process_history_update]; [file] is what reading the history file
    gave. A failure is logged and nothing is queued. *)
Definition _process_history_update (hms : string) (file : result (list string))
    (w : history_watcher) : history_watcher :=
  match file with
  | Ok lines => {| new_commands := process_history_lines hms (py_last_n 10 lines) (new_commands w) |}
  | Raise _ => w
  end.

(** terminal_monitor.py: the pending queue [commands]. *)
Record history_monitor := { commands : deque cmd_event }.

Definition history_monitor_init : history_monitor := {| commands := Deque 100 [] |}.

(** [not self.commands or self.commands[-1]["command"] != command] *)
Definition is_new_command (c : string) (q : deque cmd_event) : bool :=
  match last (dq_items q) with
  | None => true
  | Some e => negb (String.eqb (ce_command e) c)
  end.

Fixpoint read_history_lines (hms : string) (lines : list string)
    (q : deque cmd_event) : deque cmd_event :=
  match lines with
  | [] => q
  | raw :: lines' =>
      read_history_lines hms lines'
        match inline_line_command raw with
        | Some c =>
            if is_new_command c q then
              deque_append {| ce_timestamp := hms; ce_command := c;
                              ce_source := "history" |} q
            else q
        | None => q
        end
  end.

(** [_read_new_history] *)
Definition _read_new_history (hms : string) (file : result (list string))
    (m : history_monitor) : history_monitor :=
  match file with
  | Ok lines =>
      let recent_lines := if (50 <? length lines)%nat then py_last_n 50 lines else lines in
      {| commands := read_history_lines hms recent_lines (commands m) |}
  | Raise _ => m
  end.

(** The commands queued by a call, oldest first, as the coordinator
    drains them when it polls after the call on an empty queue. *)
Definition commands_of (q : deque cmd_event) : list string := map ce_command (dq_items q).

(** ** Process monitors *)

(** One item of [psutil.process_iter]: [info['name']] and
    [info['cmdline']] are [None] when psutil was denied access. *)
Record proc_info := {
  pi_pid : Z;
  pi_name : option string;
  pi_cmdline : option (list string)
}.

(** *** ProcessWatcher (comprehensive_monitor.py) *)

Record process_watcher := {
  new_processes : deque proc_event;
  known_pids : gset Z;
  process_cache : gmap Z proc_info
}.

Definition process_watcher_init : process_watcher :=
  {| new_processes := Deque 30 []; known_pids := ∅; process_cache := ∅ |}.

Definition watcher_interesting_names : list string :=
  ["bash"; "zsh"; "fish"; "sh"; "python"; "node"; "npm"; "pip";
   "vim"; "nano"; "emacs"; "code"; "git"; "docker"; "kubectl";
   "ssh"; "rsync"; "curl"; "wget"; "make"; "gcc"; "java"].

(** [ProcessWatcher._is_interesting_process]: [None.lower()] and
    [' '.join(None)] raise. *)
Definition watcher_is_interesting (p : proc_info) : result bool :=
  match pi_name p with
  | None => raise AttributeError "'NoneType' object has no attribute 'lower'"
  | Some n =>
      match pi_cmdline p with
      | None => raise TypeError "can only join an iterable"
      | Some cl =>
          let name := lower n in
          let cmdline := lower (join " " cl) in
          Ok (existsb (fun interesting => contains name interesting || contains cmdline interesting)
                watcher_interesting_names)
      end
  end.

(** [' '.join(info['cmdline']) if info['cmdline'] else info['name']] *)
Definition display_cmdline (p : proc_info) : option string :=
  match pi_cmdline p with
  | Some (a :: cl) => Some (join " " (a :: cl))
  | _ => pi_name p
  end.

Definition started_event (hms : string) (p : proc_info) : proc_event :=
  {| pe_pid := pi_pid p; pe_name := pi_name p; pe_cmdline := display_cmdline p;
     pe_timestamp := hms; pe_action := started |}.

(** The [for proc in psutil.process_iter(...)] loop; the local
    [current_pids] is threaded through and returned. *)
Fixpoint watcher_scan (hms : string) (procs : list proc_info) (current_pids : gset Z)
    : method process_watcher (gset Z) :=
  match procs with
  | [] => mret current_pids
  | p :: procs' =>
      let pid := pi_pid p in
      let current_pids := {[pid]} ∪ current_pids in
      w ← get_self;
      (if decide (pid ∈ known_pids w) then mret tt
       else
         b ← lift (watcher_is_interesting p);
         if (b : bool) then
           set_self (fun w =>
             {| new_processes := deque_append (started_event hms p) (new_processes w);
                known_pids := known_pids w;
                process_cache := <[pid := p]> (process_cache w) |})
         else mret tt);;
      watcher_scan hms procs' current_pids
  end.

(** [self.process_cache[pid].get('name', 'unknown')] *)
Definition cached_name (p : proc_info) : option string := pi_name p.

(** One step of the loop over [terminated_pids]. *)
Definition watcher_terminate (hms : string) (w : process_watcher) (pid : Z) : process_watcher :=
  match process_cache w !! pid with
  | Some info =>
      {| new_processes :=
           deque_append {| pe_pid := pid; pe_name := cached_name info; pe_cmdline := None;
                           pe_timestamp := hms; pe_action := terminated |} (new_processes w);
         known_pids := known_pids w;
         process_cache := delete pid (process_cache w) |}
  | None => w
  end.

(** The body of the [try] block inside [while self.is_running]; a Python
    set is visited in an order of its own, here the one of [elements]. *)
Definition watcher_poll_body (hms : string) (procs : list proc_info) : method process_watcher unit :=
  current_pids ← watcher_scan hms procs ∅;
  set_self (fun w =>
    let terminated_pids := known_pids w ∖ current_pids in
    let w' := fold_left (watcher_terminate hms) (elements terminated_pids) w in
    {| new_processes := new_processes w';
       known_pids := current_pids;
       process_cache := process_cache w' |}).

(** One poll of [ProcessWatcher._monitor_processes]: an exception is logged
    and the loop goes on. *)
Definition watcher_poll (hms : string) (procs : list proc_info) (w : process_watcher)
    : process_watcher := (try_log (watcher_poll_body hms procs) w).1.

(** *** ProcessMonitor (terminal_monitor.py) *)

Record process_monitor := {
  processes : deque proc_event;
  pm_known_pids : gset Z
}.

Definition process_monitor_init : process_monitor :=
  {| processes := Deque 50 []; pm_known_pids := ∅ |}.

Definition monitor_interesting_names : list string :=
  ["bash"; "zsh"; "fish"; "sh"; "python"; "node"; "vim"; "nano"; "emacs";
   "git"; "docker"; "kubectl"].

Definition monitor_interesting_patterns : list string :=
  ["ssh"; "rsync"; "curl"; "wget"; "pip"; "npm"; "yarn"].

(** [ProcessMonitor._is_interesting_process(name, cmdline)] *)
Definition monitor_is_interesting (name cmdline : option string) : result bool :=
  match name with
  | None => raise AttributeError "'NoneType' object has no attribute 'lower'"
  | Some n =>
      match cmdline with
      | None => raise AttributeError "'NoneType' object has no attribute 'lower'"
      | Some c =>
          let name_lower := lower n in
          let cmdline_lower := lower c in
          Ok (existsb (contains name_lower) monitor_interesting_names
              || existsb (contains cmdline_lower) monitor_interesting_patterns)
      end
  end.

Fixpoint monitor_scan (hms : string) (procs : list proc_info) (current_pids : gset Z)
    : method process_monitor (gset Z) :=
  match procs with
  | [] => mret current_pids
  | p :: procs' =>
      let pid := pi_pid p in
      let current_pids := {[pid]} ∪ current_pids in
      m ← get_self;
      (if decide (pid ∈ pm_known_pids m) then mret tt
       else
         b ← lift (monitor_is_interesting (pi_name p) (display_cmdline p));
         if (b : bool) then
           set_self (fun m =>
             {| processes := deque_append (started_event hms p) (processes m);
                pm_known_pids := pm_known_pids m |})
         else mret tt);;
      monitor_scan hms procs' current_pids
  end.

Definition terminated_event (hms : string) (pid : Z) : proc_event :=
  {| pe_pid := pid; pe_name := None; pe_cmdline := None;
     pe_timestamp := hms; pe_action := terminated |}.

Definition monitor_poll_body (hms : string) (procs : list proc_info) : method process_monitor unit :=
  current_pids ← monitor_scan hms procs ∅;
  set_self (fun m =>
    let terminated_pids := pm_known_pids m ∖ current_pids in
    {| processes := deque_extend (map (terminated_event hms) (elements terminated_pids)) (processes m);
       pm_known_pids := current_pids |}).

Definition monitor_poll (hms : string) (procs : list proc_info) (m : process_monitor)
    : process_monitor := (try_log (monitor_poll_body hms procs) m).1.

(** ** File references (activity_monitor.py) *)

(** The file system as [parse_file_references] sees it. [read_text p] is
    [open(p, 'r', encoding='utf-8', errors='ignore').read()]. *)
Record filesystem := {
  isfile : string -> bool;
  isdir : string -> bool;
  read_text : string -> result string;
  listdir : string -> result (list string)
}.

Definition at_sign : ascii := ascii_of_nat 64.

(** The character class of the pattern: neither whitespace nor [@]. *)
Definition token_char (c : ascii) : bool := negb (is_space c) && negb (Ascii.eqb c at_sign).

Definition emit (group : option string) : list string :=
  match group with
  | Some t => if nonempty t then [t] else []
  | None => []
  end.

(** [re.findall(file_pattern, message)]. The pattern is an [@] and a
    group with two alternatives: one or more characters of the class, then
    optionally a dot and more characters of the class; or a slash and
    characters of the class. After an [@] the first alternative takes the
    longest run of the class; its optional part then has nothing left to
    match, and the second alternative starts with a character of the class,
    so it matches only where the first does. [group] is [Some t] after an
    [@] followed by the run [t]. *)
Fixpoint findall_from (group : option string) (message : string) : list string :=
  match message with
  | EmptyString => emit group
  | String c rest =>
      match group with
      | Some t =>
          if token_char c then findall_from (Some (t +:+ String c EmptyString)) rest
          else emit group ++
               findall_from (if Ascii.eqb c at_sign then Some EmptyString else None) rest
      | None =>
          findall_from (if Ascii.eqb c at_sign then Some EmptyString else None) rest
      end
  end.

Definition findall_references (message : string) : list string := findall_from None message.

Definition endswith_slash (s : string) : bool :=
  match String.get (String.length s - 1) s with
  | Some c => Ascii.eqb c (ascii_of_nat 47) && nonempty s
  | None => false
  end.

(** [os.path.join(a, b)] on a POSIX host. *)
Definition path_join (a b : string) : string :=
  if startswith b "/" then b
  else if negb (nonempty a) || endswith_slash a then a +:+ b
  else a +:+ "/" +:+ b.

Definition resolve_path (cwd match_ : string) : string :=
  if startswith match_ "/" then match_ else path_join cwd match_.

(** The body of the [try] block: the string stored for [filepath]. *)
Definition reference_content (fs : filesystem) (filepath : string) : result string :=
  if isfile fs filepath then read_text fs filepath
  else if isdir fs filepath then
    match listdir fs filepath with
    | Ok contents => Ok ("Directory contents:" +:+ nl +:+ join nl contents)
    | Raise (Exn PermissionError _) => Ok ("Permission denied: " +:+ filepath)
    | Raise e => Raise e
    end
  else Ok ("File not found: " +:+ filepath).

(** [try: ... except Exception as e: file_contents[match] = f"Error reading file: {str(e)}"] *)
Definition store_reference (fs : filesystem) (cwd match_ : string)
    (file_contents : list (string * string)) : result (list (string * string)) :=
  let filepath := resolve_path cwd match_ in
  match reference_content fs filepath with
  | Ok content => Ok (alist_set match_ content file_contents)
  | Raise e => Ok (alist_set match_ ("Error reading file: " +:+ exn_msg e) file_contents)
  end.

Fixpoint store_references (fs : filesystem) (cwd : string) (matches : list string)
    (file_contents : list (string * string)) : result (list (string * string)) :=
  match matches with
  | [] => Ok file_contents
  | m :: matches' =>
      file_contents ← store_reference fs cwd m file_contents;
      store_references fs cwd matches' file_contents
  end.

(** [parse_file_references(message)], with [cwd] the monitor's
    [current_directory]. *)
Definition parse_file_references (fs : filesystem) (cwd message : string)
    : result (list (string * string)) :=
  store_references fs cwd (findall_references message) [].

(** ** Saving, restoring and cleaning a session (activity_monitor.py) *)

(** [deque(items, maxlen=n)] *)
Definition deque_of {A} (maxlen : Z) (items : list A) : result (deque A) :=
  if maxlen <? 0 then raise ValueError "maxlen must be non-negative"
  else Ok (deque_extend items (Deque (Z.to_nat maxlen) [])).

(** [cleanup_old_data(days)] below its first line: [cutoff_time] is the
    value of [datetime.now() - timedelta(days=days)]. Each history is
    replaced by a new deque of the entries that are not older; there is no
    [try], so what reading a timestamp raises reaches the caller, after the
    command history has been replaced if it is an output that raises. *)
Definition cleanup_old_data (py : PyLib) (cutoff_time : Z) : method monitor unit :=
  st ← get_self;
  kept ← lift (filter_recent py cutoff_time (dq_items (command_history st)));
  history ← lift (deque_of (max_history_items st) kept);
  set_self (set_command_history (fun _ => history));;
  st ← get_self;
  kept ← lift (filter_recent py cutoff_time (dq_items (output_history st)));
  history ← lift (deque_of (max_history_items st) kept);
  set_self (set_output_history (fun _ => history)).

(** The JSON files of the host: [json_files p] is what [open(p)] and
    [json.load] give for the path [p]. A [pyval] is a JSON value, so
    [json.dump] writes it whole and [json.load] reads the same value
    back. *)
Definition json_files : Type := string → result pyval.

(** The name [save_session] gives the file when the caller gives none;
    [stamp] is [strftime("%Y%m%d_%H%M%S")]. *)
Definition session_filepath (stamp : Z → string) (now : Z) (filepath : option string) : string :=
  match filepath with
  | Some p => p
  | None => "shellm_session_" +:+ stamp now +:+ ".json"
  end.

(** [save_session(filepath)]: [can_open p] says whether [open(p, 'w')]
    succeeds; a failure is logged and no file is written. *)
Definition save_session (stamp : Z → string) (now : Z) (can_open : string → bool)
    (filepath : option string) (st : monitor) (files : json_files) : json_files :=
  let filepath := session_filepath stamp now filepath in
  if can_open filepath then
    fun p => if String.eqb p filepath then Ok (session_data st) else files p
  else files.

(** ** The history thread of the basic monitor (activity_monitor.py) *)

(** The loop of [_monitor_shell_history] over the lines added to the
    history file, each with the reading of [datetime.now()] at its turn. An
    exception of [log_command] ends the loop. *)
Fixpoint monitor_history_lines (py : PyLib) (new_lines : list (Z * string)) : method monitor unit :=
  match new_lines with
  | [] => mret tt
  | (now, raw) :: new_lines' =>
      match inline_line_command raw with
      | Some cmd => log_command py now cmd (Some now)
      | None => mret tt
      end;;
      monitor_history_lines py new_lines'
  end.

(** One turn of the [while True] loop: the file is read from [last_size]
    when it has grown, and [last_size] moves on only when every new line
    has been handled; an exception is logged and the next turn starts from
    the same [last_size]. [getsize] and [new_lines] are what
    [os.path.getsize] and reading from [last_size] give. *)
Definition monitor_history_turn (py : PyLib) (getsize : result Z)
    (new_lines : result (list (Z * string))) (st : monitor) (last_size : Z) : monitor * Z :=
  match getsize with
  | Ok current_size =>
      if last_size <? current_size then
        match new_lines with
        | Ok lines =>
            match monitor_history_lines py lines st with
            | (st', Ok _) => (st', current_size)
            | (st', Raise _) => (st', last_size)
            end
        | Raise _ => (st, last_size)
        end
      else (st, last_size)
  | Raise _ => (st, last_size)
  end.

(** ** Draining a queue *)

(** [get_new_data], [get_new_commands] and [get_new_processes] of the
    source monitors: [items = list(queue); queue.clear(); return items]. *)
Definition get_new_data {A} (queue : deque A) : list A * deque A :=
  (dq_items queue, deque_clear queue).

(** ** EnvironmentMonitor (comprehensive_monitor.py) *)

(** The dict queued for a variable. *)
Record env_event := {
  ee_variable : string;
  ee_value : string;
  ee_timestamp : string;
  ee_action : string
}.

Record environment_monitor := {
  new_changes : deque env_event;
  last_env : list (string * string)
}.

(** [EnvironmentMonitor.__init__]; [environ] is [dict(os.environ)]. *)
Definition environment_monitor_init (environ : list (string * string)) : environment_monitor :=
  {| new_changes := Deque 10 []; last_env := environ |}.

(** [key not in self.last_env or self.last_env[key] != value] *)
Definition env_changed (last_env : list (string * string)) (key value : string) : bool :=
  match alist_get key last_env with
  | Some v => negb (String.eqb v value)
  | None => true
  end.

(** One turn of the loop of [_monitor_environment]; [current_env] is
    [dict(os.environ)] and [hms] the clock reading during the turn. *)
Definition environment_poll (hms : string) (current_env : list (string * string))
    (m : environment_monitor) : environment_monitor :=
  {| new_changes :=
       fold_left (fun q kv =>
                    if env_changed (last_env m) kv.1 kv.2 then
                      deque_append {| ee_variable := kv.1; ee_value := kv.2;
                                      ee_timestamp := hms; ee_action := "changed" |} q
                    else q)
         current_env (new_changes m);
     last_env := current_env |}.

(** ** The coordination loop (comprehensive_monitor.py) *)

(** [f"{name}"] for the name of a process event. *)
Definition fmt_name (name : option string) : string :=
  match name with
  | Some n => n
  | None => "None"
  end.

(** One item of [_process_monitor_data] for the monitor
    ['process_watcher']. *)
Definition process_watcher_item (item : proc_event) (cm : comp_monitor) : comp_monitor :=
  let entry := "[" +:+ pe_timestamp item +:+ "] Process " +:+ action_name (pe_action item)
               +:+ ": " +:+ fmt_name (pe_name item)
               +:+ " (PID: " +:+ str_of_Z (pe_pid item) +:+ ")" in
  let sd := comp_session_data cm in
  {| is_monitoring := is_monitoring cm;
     terminal_buffer := deque_append entry (terminal_buffer cm);
     comp_session_data := {| cs_commands := cs_commands sd;
                             cs_outputs := cs_outputs sd;
                             cs_processes := cs_processes sd ++ [item];
                             cs_files_accessed := cs_files_accessed sd |} |}.

(** [_process_monitor_data('process_watcher', data)] *)
Definition process_watcher_data (data : list proc_event) (cm : comp_monitor) : comp_monitor :=
  fold_left (fun cm item => process_watcher_item item cm) data cm.

(** [_process_monitor_data('environment_monitor', data)]: the loop reads
    the timestamp of every item and no branch takes the item up. *)
Definition process_environment_data (data : list env_event) (cm : comp_monitor) : comp_monitor :=
  fold_left (fun cm _ => cm) data cm.

(** The comprehensive monitor with the source monitors it polls. The
    queues of [TerminalCapture] and [FileAccessMonitor] are never appended
    to, so [get_new_data] gives the coordination loop an empty list for
    them, which it skips. *)
Record coordinator := {
  co_monitor : comp_monitor;
  co_shell_history : history_watcher;
  co_process_watcher : process_watcher;
  co_environment_monitor : environment_monitor
}.

(** [_init_monitors] after [ComprehensiveTerminalMonitor.__init__]. *)
Definition coordinator_init (environ : list (string * string)) : coordinator :=
  {| co_monitor := comp_init;
     co_shell_history := history_watcher_init;
     co_process_watcher := process_watcher_init;
     co_environment_monitor := environment_monitor_init environ |}.

(** One turn of [_coordination_loop], between the turns of the threads of
    the source monitors: every monitor in the order of [self.monitors] is
    drained and its data processed. *)
Definition coordination_turn (c : coordinator) : coordinator :=
  let commands := get_new_data (new_commands (co_shell_history c)) in
  let cm := process_history_data commands.1 (co_monitor c) in
  let procs := get_new_data (new_processes (co_process_watcher c)) in
  let cm := process_watcher_data procs.1 cm in
  let changes := get_new_data (new_changes (co_environment_monitor c)) in
  let cm := process_environment_data changes.1 cm in
  {| co_monitor := cm;
     co_shell_history := {| new_commands := commands.2 |};
     co_process_watcher :=
       {| new_processes := procs.2;
          known_pids := known_pids (co_process_watcher c);
          process_cache := process_cache (co_process_watcher c) |};
     co_environment_monitor :=
       {| new_changes := changes.2; last_env := last_env (co_environment_monitor c) |} |}.

(** What the comprehensive monitor and its threads do, one at a time:
    [start_monitoring] is called, a source monitor looks at the history
    file, the process table or the environment, or the coordination loop
    takes a turn. *)
Inductive activity :=
  | StartMonitoring (existing : option string)
  | HistoryUpdate (hms : string) (file : result (list string))
  | ProcessPoll (hms : string) (procs : list proc_info)
  | EnvironmentPoll (hms : string) (current_env : list (string * string))
  | CoordinationTurn.

Definition run_activity (a : activity) (c : coordinator) : coordinator :=
  match a with
  | StartMonitoring existing =>
      {| co_monitor := start_monitoring existing (co_monitor c);
         co_shell_history := co_shell_history c;
         co_process_watcher := co_process_watcher c;
         co_environment_monitor := co_environment_monitor c |}
  | HistoryUpdate hms file =>
      {| co_monitor := co_monitor c;
         co_shell_history := _process_history_update hms file (co_shell_history c);
         co_process_watcher := co_process_watcher c;
         co_environment_monitor := co_environment_monitor c |}
  | ProcessPoll hms procs =>
      {| co_monitor := co_monitor c;
         co_shell_history := co_shell_history c;
         co_process_watcher := watcher_poll hms procs (co_process_watcher c);
         co_environment_monitor := co_environment_monitor c |}
  | EnvironmentPoll hms current_env =>
      {| co_monitor := co_monitor c;
         co_shell_history := co_shell_history c;
         co_process_watcher := co_process_watcher c;
         co_environment_monitor := environment_poll hms current_env (co_environment_monitor c) |}
  | CoordinationTurn => coordination_turn c
  end.

Definition run_activities (l : list activity) (c : coordinator) : coordinator :=
  fold_left (fun c a => run_activity a c) l c.

(** *** get_session_summary of the comprehensive monitor *)

(** [cmd['command'].split()[0] if cmd['command'] else 'unknown'] *)
Definition base_cmd (cmd : cmd_event) : result string :=
  if nonempty (ce_command cmd) then
    match split_ws (ce_command cmd) with
    | t :: _ => Ok t
    | [] => raise IndexError "list index out of range"
    end
  else Ok "unknown".

Fixpoint command_frequency_loop (cmds : list cmd_event) (command_counts : list (string * nat))
    : result (list (string * nat)) :=
  match cmds with
  | [] => Ok command_counts
  | cmd :: cmds' =>
      b ← base_cmd cmd;
      command_frequency_loop cmds' (count_command b command_counts)
  end.

(** A dict whose keys are values: [list] and [dict] keys are unhashable,
    two keys are the same when [==] says so. *)
Fixpoint pyval_count (py : PyLib) (k : pyval) (d : list (pyval * nat)) : list (pyval * nat) :=
  match d with
  | [] => [(k, 1%nat)]
  | (k', n) :: d' => if py_eq py k' k then (k', S n) :: d' else (k', n) :: pyval_count py k d'
  end.

Definition hashable (v : pyval) : result unit :=
  match v with
  | PList _ | PDict _ => raise TypeError "unhashable type"
  | _ => Ok tt
  end.

Fixpoint file_patterns_loop (py : PyLib) (accesses : list pyval) (file_patterns : list (pyval * nat))
    : result (list (pyval * nat)) :=
  match accesses with
  | [] => Ok file_patterns
  | file_access :: accesses' =>
      action ← subscript file_access "action";
      hashable action;;
      file_patterns_loop py accesses' (pyval_count py action file_patterns)
  end.

Record comp_summary := {
  csum_session_duration : string;
  csum_total_commands : nat;
  csum_total_processes : nat;
  csum_total_file_access : nat;
  csum_command_frequency : list (string * nat);
  csum_file_access_patterns : list (pyval * nat);
  csum_buffer_size : nat;
  csum_monitoring_active : bool
}.

(** [ComprehensiveTerminalMonitor.get_session_summary]; [start_time] is
    the time [__init__] stored, in ISO format, as
    [session_data['start_time']]. *)
Definition comp_get_session_summary (py : PyLib) (now start_time : Z) (cm : comp_monitor)
    : result comp_summary :=
  let sd := comp_session_data cm in
  command_counts ← command_frequency_loop (cs_commands sd) [];
  file_patterns ← file_patterns_loop py (cs_files_accessed sd) [];
  Ok {| csum_session_duration := str_timedelta py (now - start_time);
        csum_total_commands := length (cs_commands sd);
        csum_total_processes := length (cs_processes sd);
        csum_total_file_access := length (cs_files_accessed sd);
        csum_command_frequency := sort_by_count_desc command_counts;
        csum_file_access_patterns := file_patterns;
        csum_buffer_size := length (dq_items (terminal_buffer cm));
        csum_monitoring_active := is_monitoring cm |}.

(** ** The history file the monitors watch *)

Definition common_history_files (home : string) : list string :=
  [path_join home ".bash_history"; path_join home ".zsh_history"; path_join home ".history"].

(** [TerminalActivityMonitor._get_shell_history_file]
    (activity_monitor.py), and with the same body
    [ShellHistoryMonitor._get_history_file] (terminal_monitor.py). [shell]
    is [os.getenv('SHELL', '')], [home] is [os.path.expanduser('~')] and
    [path_exists] is [os.path.exists]. *)
Definition _get_shell_history_file (path_exists : string → bool) (shell home : string)
    : option string :=
  if contains shell "bash" then Some (path_join home ".bash_history")
  else if contains shell "zsh" then Some (path_join home ".zsh_history")
  else if contains shell "fish" then Some (path_join home ".local/share/fish/fish_history")
  else find path_exists (common_history_files home).

(** [ShellHistoryMonitor._find_history_file] (comprehensive_monitor.py) *)
Definition _find_history_file (path_exists : string → bool) (shell home : string)
    : option string :=
  let candidates :=
    (if contains shell "bash" then [path_join home ".bash_history"]
     else if contains shell "zsh" then [path_join home ".zsh_history"]
     else if contains shell "fish" then [path_join home ".local/share/fish/fish_history"]
     else [])
    ++ common_history_files home in
  find path_exists candidates.

(** The file a history thread watches, if it starts at all. The threads
    of [activity_monitor.py] and [terminal_monitor.py] give up when
    [not history_file or not os.path.exists(history_file)]; the one of
    [comprehensive_monitor.py] when [not self.history_file]. *)
Definition basic_watched_file (path_exists : string → bool) (shell home : string)
    : option string :=
  match _get_shell_history_file path_exists shell home with
  | Some history_file =>
      if nonempty history_file && path_exists history_file then Some history_file else None
  | None => None
  end.

Definition comprehensive_watched_file (path_exists : string → bool) (shell home : string)
    : option string :=
  match _find_history_file path_exists shell home with
  | Some history_file => if nonempty history_file then Some history_file else None
  | None => None
  end.

(** ** TerminalMonitor (terminal_monitor.py) *)

Record terminal_monitor := {
  tm_terminal_buffer : deque string;
  tm_command_history : deque cmd_event;
  tm_process_history : deque proc_event;
  current_session_pid : Z;
  parent_shell_pid : Z
}.

(** [TerminalMonitor.__init__]; [pid] and [ppid] are [os.getpid()] and
    [os.getppid()]. *)
Definition terminal_monitor_init (pid ppid : Z) : terminal_monitor :=
  {| tm_terminal_buffer := Deque 1000 [];
     tm_command_history := Deque 500 [];
     tm_process_history := Deque 200 [];
     current_session_pid := pid;
     parent_shell_pid := ppid |}.

(** One turn of [_monitor_loop] with what the three source monitors
    hand over; the queue of [TerminalContentMonitor] is never appended to,
    so [new_content] is empty in a run of the program. *)
Definition monitor_loop_turn (new_commands : list cmd_event) (new_processes : list proc_event)
    (new_content : list string) (tm : terminal_monitor) : terminal_monitor :=
  let tm :=
    fold_left (fun tm cmd =>
                 {| tm_terminal_buffer :=
                      deque_append ("[" +:+ ce_timestamp cmd +:+ "] $ " +:+ ce_command cmd)
                        (tm_terminal_buffer tm);
                    tm_command_history := deque_append cmd (tm_command_history tm);
                    tm_process_history := tm_process_history tm;
                    current_session_pid := current_session_pid tm;
                    parent_shell_pid := parent_shell_pid tm |})
      new_commands tm in
  {| tm_terminal_buffer := deque_extend new_content (tm_terminal_buffer tm);
     tm_command_history := tm_command_history tm;
     tm_process_history := deque_extend new_processes (tm_process_history tm);
     current_session_pid := current_session_pid tm;
     parent_shell_pid := parent_shell_pid tm |}.

(** [l[-lines:]] for an [int] [lines]: the last [lines] items, the whole
    list for 0, and the list without its first [-lines] items for a
    negative [lines]. *)
Definition py_slice_last {A} (lines : Z) (l : list A) : list A :=
  if 0 <? lines then drop (length l - Z.to_nat lines) l
  else drop (Z.to_nat (- lines)) l.

(** The line of one item of [psutil.process_iter] in
    [get_terminal_context]: none for the monitor's own process; [len]
    raises for a process that has neither a command line nor a name. *)
Definition active_process_line (own_pid : Z) (p : proc_info) : result (list string) :=
  if pi_pid p =? own_pid then Ok []
  else
    match display_cmdline p with
    | Some cmdline =>
        let cmdline := if (100 <? String.length cmdline)%nat
                       then str_take 100 cmdline +:+ "..." else cmdline in
        Ok ["PID " +:+ str_of_Z (pi_pid p) +:+ ": " +:+ cmdline]
    | None => raise TypeError "object of type 'NoneType' has no len()"
    end.

Fixpoint active_process_lines (own_pid : Z) (procs : list proc_info) : result (list string) :=
  match procs with
  | [] => Ok []
  | p :: procs' =>
      l ← active_process_line own_pid p;
      r ← active_process_lines own_pid procs';
      Ok (l ++ r)
  end.

(** What follows the header of the active processes: the [try] block and
    its handler. [procs] is what [psutil.process_iter] gave. *)
Definition active_processes (own_pid : Z) (procs : result (list proc_info)) : list string :=
  match procs ≫= active_process_lines own_pid with
  | Ok current_processes => py_last_n 10 current_processes
  | Raise e => ["Error getting processes: " +:+ exn_msg e]
  end.

(** [get_terminal_context(lines, include_history)] *)
Definition get_terminal_context (env : os_env) (procs : result (list proc_info))
    (lines : Z) (include_history : bool) (tm : terminal_monitor) : string :=
  join nl
    (["Current Directory: " +:+ getcwd env;
      "Terminal PID: " +:+ str_of_Z (current_session_pid tm);
      "Shell PID: " +:+ str_of_Z (parent_shell_pid tm);
      "User: " +:+ getenv_or env "USER" "unknown";
      EmptyString]
     ++ (match dq_items (tm_terminal_buffer tm) with
         | [] => []
         | _ :: _ =>
             ["=== Recent Terminal Activity ==="]
             ++ py_slice_last lines (dq_items (tm_terminal_buffer tm)) ++ [EmptyString]
         end)
     ++ (match include_history, dq_items (tm_command_history tm) with
         | true, _ :: _ =>
             ["=== Command History ==="]
             ++ map (fun cmd => "[" +:+ ce_timestamp cmd +:+ "] " +:+ ce_command cmd)
                  (py_last_n 20 (dq_items (tm_command_history tm)))
             ++ [EmptyString]
         | _, _ => []
         end)
     ++ ["=== Active Processes ==="]
     ++ active_processes (current_session_pid tm) procs).

(** ** Sample library and environment, for the concrete runs *)

(** A stand-in for the formatting functions: a time is printed as its
    number of microseconds. *)
Definition digits_only (s : string) : bool :=
  forallb (fun c => (48 <=? N_of_ascii c)%N && (N_of_ascii c <=? 57)%N) (list_ascii_of_string s).

Definition sample_lib : PyLib :=
  {| isoformat := str_of_Z;
     strftime_HMS := fun t => str_of_Z (t / 1000000);
     fromisoformat := fun s =>
       if digits_only s && nonempty s
       then Some (Z.of_N (N.of_uint (default Decimal.Nil (NilZero.uint_of_string s)))) else None;
     str_timedelta := str_of_Z;
     py_format := fun _ => "<object>";
     py_eq := fun a b =>
       match a, b with
       | PStr s, PStr t => String.eqb s t
       | _, _ => false
       end |}.

(** The monitor [TerminalActivityMonitor(mcs, mhi)] built at time 0 in
    [/tmp] on a host without the comprehensive monitor. *)
Definition sample_monitor (mcs mhi : Z) : monitor :=
  {| max_context_size := mcs;
     max_history_items := mhi;
     command_history := Deque (Z.to_nat mhi) [];
     output_history := Deque (Z.to_nat mhi) [];
     context_buffer := EmptyString;
     current_directory := "/tmp";
     session_start := 0;
     session_data :=
       PDict [("start_time", PStr "0"); ("commands", PList []); ("outputs", PList []);
              ("directory_changes", PList []); ("file_operations", PList [])];
     comprehensive_monitor := None;
     is_comprehensive_monitoring := false |}.

Definition sample_appends : list (Z * append_op) :=
  [(1000000, LogCommand "ls" None); (2000000, LogOutput "a.txt" "ls" None);
   (3000000, LogCommand "pwd" None); (4000000, LogCommand "make" None)].

Definition sample_env : os_env :=
  {| getenv := fun name => if String.eqb name "USER" then Some "dev" else None;
     getcwd := "/home/dev";
     getpid := 4242 |}.

(** ** Vocabulary of the properties *)

(** A string is a line-suffix of another when it is what is left after
    some whole leading lines are removed. *)
Definition str_suffix (t s : string) : Prop := ∃ p, s = p +:+ t.

(** The last [n] items of a list. *)
Definition lastn {A} (n : nat) (l : list A) : list A := drop (length l - n) l.

(** The shape [__init__] gives [session_data], with the four logs. *)
Definition session_shape (sd : pyval) (cs os ds fs : list pyval) : Prop :=
  ∃ start, sd = PDict [("start_time", start); ("commands", PList cs); ("outputs", PList os);
                       ("directory_changes", PList ds); ("file_operations", PList fs)].

Definition has_filepath (e : pyval) : Prop := ∃ p, subscript e "filepath" = Ok p.

(** The state of a monitor whose session logs are [cs], [os], [ds], [fs]:
    each history holds the last [max_history_items] entries of its log,
    in the order of the log, and the context buffer is within its bound. *)
Record state_inv (mcs mhi : Z) (st : monitor) (cs os ds fs : list pyval) : Prop := {
  inv_mcs : max_context_size st = mcs;
  inv_mhi : max_history_items st = mhi;
  inv_mcs_pos : 0 <= mcs;
  inv_shape : session_shape (session_data st) cs os ds fs;
  inv_cmd_maxlen : dq_maxlen (command_history st) = Z.to_nat mhi;
  inv_out_maxlen : dq_maxlen (output_history st) = Z.to_nat mhi;
  inv_cmd_items : dq_items (command_history st) = lastn (Z.to_nat mhi) cs;
  inv_out_items : dq_items (output_history st) = lastn (Z.to_nat mhi) os;
  inv_files : Forall has_filepath fs;
  inv_buffer : Z.of_nat (String.length (context_buffer st)) <= mcs
}.

(** What an append adds to the logs of commands and of outputs. *)
Definition is_log_command (op : append_op) : nat :=
  match op with LogCommand _ _ => 1 | _ => 0 end.

Definition is_log_output (op : append_op) : nat :=
  match op with LogOutput _ _ _ => 1 | _ => 0 end.

(** [P] holds of every entry a [log_command] of this append can build. *)
Definition command_satisfies (py : PyLib) (P : pyval → Prop) (op : append_op) : Prop :=
  match op with
  | LogCommand c _ => ∀ t d, P (command_entry py t c d)
  | _ => True
  end.

(** The state a sequence of appends leaves. *)
Definition final_state (py : PyLib) (ops : list (Z * append_op)) (st : monitor) : monitor :=
  fold_left (fun st p => (run_append py p.1 p.2 st).1) ops st.

(** Two commands logged into a monitor with room for two commands and
    twenty characters. *)
Definition two_command_session : monitor :=
  final_state sample_lib
    [(1000000, LogCommand "ls" None); (2000000, LogCommand "pwd" None)]
    (sample_monitor 20 2).

Definition count_log_commands (ops : list (Z * append_op)) : nat :=
  list_sum (map (fun p => is_log_command p.2) ops).

Definition count_log_outputs (ops : list (Z * append_op)) : nat :=
  list_sum (map (fun p => is_log_output p.2) ops).

(** The commands [_get_most_used_commands] can take a basename of: the
    empty command and those with a non-whitespace character. *)
Definition has_basename (c : string) : Prop := c = EmptyString ∨ split_ws c ≠ [].

Definition op_has_basename (op : append_op) : Prop :=
  match op with
  | LogCommand c _ => has_basename c
  | _ => True
  end.

(** The command the specification gives for a line: the text after the
    first semicolon of a line that starts with a colon and a space and has
    a semicolon, and the line itself otherwise. *)
Definition spec_line_command (line : string) : string :=
  if startswith line ": " then
    match partition_char semicolon line with
    | Some (_, post) => post
    | None => line
    end
  else line.

(** The order of a list decorated with keys, and the order it gives the
    items: [D k x] says that [k] is the key of [x]. *)
Definition key_le {K A} (le : K → K → bool) (x y : K * A) : Prop := le x.1 y.1 = true.

Definition keyed_le {K A} (le : K → K → bool) (D : K → A → Prop) (x y : A) : Prop :=
  ∃ kx ky, D kx x ∧ D ky y ∧ le kx ky = true.

(** The three commands of a saved session, and the object [json.load]
    gives for its file. *)
Definition three_commands : list pyval :=
  [command_entry sample_lib 1000000 "ls" "/tmp";
   command_entry sample_lib 2000000 "pwd" "/tmp";
   command_entry sample_lib 3000000 "make" "/tmp"].

Definition three_commands_file : pyval :=
  PDict [("start_time", PStr "0"); ("commands", PList three_commands); ("outputs", PList []);
         ("directory_changes", PList []); ("file_operations", PList [])].

(** [is_recent] as a test: an entry whose timestamp cannot be read is
    never reached by the code, which raises instead. *)
Definition recent_bool (py : PyLib) (cutoff_time : Z) (e : pyval) : bool :=
  match is_recent py cutoff_time e with
  | Ok b => b
  | Raise _ => false
  end.

(** The order of the rendered entries: by the timestamp strings, as
    Python compares them. *)
Definition timestamp_le : relation (entry_type * pyval) :=
  keyed_le String.leb (fun k x => timestamp_key x = Ok k).

Definition has_timestamp (k : string) (x : entry_type * pyval) : bool :=
  match timestamp_key x with
  | Ok k' => String.eqb k' k
  | Raise _ => false
  end.

(** The line an entry is rendered as. *)
Definition rendered_as (py : PyLib) (x : entry_type * pyval) (line : string) : Prop :=
  match x.1 with
  | command => ∃ c, subscript x.2 "command" = Ok c ∧ line = "$ " +:+ fmt py c
  | output =>
      ∃ o, subscript x.2 "output" = Ok (PStr o)
           ∧ line = if (500 <? String.length o)%nat then str_take 500 o +:+ "..." else o
  end.

Definition preamble_lines (existing_content : string) (st : monitor) : list string :=
  (if String.eqb existing_content EmptyString then []
   else ["=== EXISTING TERMINAL CONTENT ==="; existing_content; EmptyString])
  ++ ["Current directory: " +:+ current_directory st].

(** An entry [get_context] can read: its timestamp parses, a command has
    a [command] and an output a [str] as [output]. *)
Definition readable (py : PyLib) (x : entry_type * pyval) : Prop :=
  (∃ s t, subscript x.2 "timestamp" = Ok (PStr s) ∧ fromisoformat py s = Some t)
  ∧ match x.1 with
    | command => ∃ c, subscript x.2 "command" = Ok c
    | output => ∃ o, subscript x.2 "output" = Ok (PStr o)
    end.

(** The 21 commands the comprehensive monitor has collected from the
    shell history at nine o'clock, and the monitor that refers to it. *)
Definition nine_o_clock_commands : list cmd_event :=
  replicate 21 {| ce_timestamp := "09:00:00"; ce_command := "make";
                  ce_source := "shell_history" |}.

Definition sample_comprehensive : comp_monitor :=
  process_history_data nine_o_clock_commands (start_monitoring None comp_init).

Definition sample_monitor_comprehensive : monitor :=
  {| max_context_size := 10000;
     max_history_items := 100;
     command_history := Deque 100 [];
     output_history := Deque 100 [];
     context_buffer := EmptyString;
     current_directory := "/tmp";
     session_start := 0;
     session_data :=
       PDict [("start_time", PStr "0"); ("commands", PList []); ("outputs", PList []);
              ("directory_changes", PList []); ("file_operations", PList [])];
     comprehensive_monitor := Some sample_comprehensive;
     is_comprehensive_monitoring := true |}.

Definition count_lines (line text : string) : nat :=
  length (List.filter (String.eqb line) (split_char newline text)).

(** The time of an entry as the specification reads it: the [datetime]
    its timestamp stands for. *)
Definition entry_time (py : PyLib) (e : pyval) : option Z :=
  match e with
  | PDict d =>
      match alist_get "timestamp" d with
      | Some (PStr s) => fromisoformat py s
      | _ => None
      end
  | _ => None
  end.

(** An entry whose time is not before the cutoff. *)
Definition not_older (py : PyLib) (cutoff_time : Z) (e : pyval) : bool :=
  match entry_time py e with
  | Some t => cutoff_time <=? t
  | None => false
  end.

(** The order of the entries in time. *)
Definition time_le (py : PyLib) : relation (entry_type * pyval) :=
  fun x y => ∃ tx ty, entry_time py x.2 = Some tx ∧ entry_time py y.2 = Some ty ∧ tx <= ty.

(** The timestamp strings of the entries order as the times they stand
    for. The strings [isoformat] writes for naive datetimes do. *)
Definition strings_order_as_times (py : PyLib) (l : list pyval) : Prop :=
  ∀ e e' s s' t t',
    e ∈ l → e' ∈ l →
    subscript e "timestamp" = Ok (PStr s) → subscript e' "timestamp" = Ok (PStr s') →
    fromisoformat py s = Some t → fromisoformat py s' = Some t' →
    String.leb s s' = true → t <= t'.

(** The call [get_context(True, minutes)] at [now] gets past its first
    line: the minutes make a [timedelta] and the cutoff is a [datetime]. *)
Definition cutoff_in_range (now minutes : Z) : Prop :=
  (-999999999 <= minutes / 1440 <= 999999999)
  ∧ datetime_min <= now - minutes * minute <= datetime_max.

(** Times of the first of January 2024, and a stand-in for the library
    that knows the ISO strings of the times of the examples.
    [fromisoformat] reads a date and a time with any one character between
    them, so with a space as well as with a [T]. *)
Definition on_2024_01_01 (h m : Z) : Z := ((738885 * 24 + h) * 60 + m) * minute.

Definition iso_table : list (Z * string) :=
  [(on_2024_01_01 9 0, "2024-01-01T09:00:00"); (on_2024_01_01 10 0, "2024-01-01T10:00:00");
   (on_2024_01_01 10 10, "2024-01-01T10:10:00"); (on_2024_01_01 10 20, "2024-01-01T10:20:00")].

Definition iso_string (t : Z) : string :=
  match List.find (fun p => p.1 =? t) iso_table with
  | Some p => p.2
  | None => EmptyString
  end.

Definition iso_lib : PyLib :=
  {| isoformat := iso_string;
     strftime_HMS := fun t => String.substring 11 8 (iso_string t);
     fromisoformat := fun s =>
       if String.eqb s "2024-01-01 10:00:00" then Some (on_2024_01_01 10 0)
       else fst <$> List.find (fun p => String.eqb p.2 s) iso_table;
     str_timedelta := str_of_Z;
     py_format := fun _ => "<object>";
     py_eq := fun a b =>
       match a, b with
       | PStr s, PStr t => String.eqb s t
       | _, _ => false
       end |}.

(** The monitor built at nine o'clock in [/tmp] on a host without the
    comprehensive monitor. *)
Definition morning_monitor : monitor :=
  {| max_context_size := 10000;
     max_history_items := 10;
     command_history := Deque 10 [];
     output_history := Deque 10 [];
     context_buffer := EmptyString;
     current_directory := "/tmp";
     session_start := on_2024_01_01 9 0;
     session_data :=
       PDict [("start_time", PStr "2024-01-01T09:00:00"); ("commands", PList []);
              ("outputs", PList []); ("directory_changes", PList []);
              ("file_operations", PList [])];
     comprehensive_monitor := None;
     is_comprehensive_monitoring := false |}.

(** A morning: a command at nine, a command and its output at ten, and
    at twenty past ten a command with the timestamp ten past ten. *)
Definition morning_appends : list (Z * append_op) :=
  [(on_2024_01_01 9 0, LogCommand "ls" None);
   (on_2024_01_01 10 0, LogCommand "make" None);
   (on_2024_01_01 10 0, LogOutput "ok" "make" None);
   (on_2024_01_01 10 20, LogCommand "pwd" (Some (on_2024_01_01 10 10)))].

Definition morning_session : monitor := final_state iso_lib morning_appends morning_monitor.

(** An output and then a command, logged with the same timestamp. *)
Definition tie_session : monitor :=
  final_state iso_lib
    [(on_2024_01_01 10 0, LogOutput "x" EmptyString None);
     (on_2024_01_01 10 0, LogCommand "ls" None)]
    morning_monitor.

(** A session file of another writer: the later command has a space
    between date and time. *)
Definition foreign_file : pyval :=
  PDict [("start_time", PStr "2024-01-01T09:00:00");
         ("commands",
          PList [PDict [("timestamp", PStr "2024-01-01T09:00:00"); ("command", PStr "a")];
                 PDict [("timestamp", PStr "2024-01-01 10:00:00"); ("command", PStr "b")]]);
         ("outputs", PList []); ("directory_changes", PList []); ("file_operations", PList [])].

Definition foreign_session : monitor := (load_session (Ok foreign_file) morning_monitor).1.



Definition watcher_interesting_bool (p : proc_info) : bool :=
  match watcher_is_interesting p with
  | Ok b => b
  | Raise _ => false
  end.

(** The processes of a snapshot that a poll reports as started. *)
Definition watcher_new (known : gset Z) (procs : list proc_info) : list proc_info :=
  List.filter (fun p => negb (bool_decide (pi_pid p ∈ known)) && watcher_interesting_bool p) procs.

(** Every process that is new has a name and a command line that psutil
    could read. *)
Definition watcher_readable (known : gset Z) (procs : list proc_info) : Prop :=
  Forall (fun p => pi_pid p ∈ known ∨ ∃ b, watcher_is_interesting p = Ok b) procs.

Definition monitor_interesting_bool (p : proc_info) : bool :=
  match monitor_is_interesting (pi_name p) (display_cmdline p) with
  | Ok b => b
  | Raise _ => false
  end.

Definition monitor_new (known : gset Z) (procs : list proc_info) : list proc_info :=
  List.filter (fun p => negb (bool_decide (pi_pid p ∈ known)) && monitor_interesting_bool p) procs.

Definition monitor_readable (known : gset Z) (procs : list proc_info) : Prop :=
  Forall (fun p => pi_pid p ∈ known
                   ∨ ∃ b, monitor_is_interesting (pi_name p) (display_cmdline p) = Ok b) procs.



(** Snapshots of the process table: pids 1 and 2, then pids 2 and 3. The
    names [foo] and [bar] match no allow-list; [vim] and [bash] match both. *)
Definition proc (pid : Z) (name : string) : proc_info :=
  {| pi_pid := pid; pi_name := Some name; pi_cmdline := Some [name] |}.

Definition snapshot_12 (name1 : string) : list proc_info := [proc 1 name1; proc 2 "bar"].



Definition event_summary (e : proc_event) : proc_action * Z := (pe_action e, pe_pid e).

(** The string stored for a reference. *)
Definition reference_value (fs : filesystem) (cwd match_ : string) : string :=
  match reference_content fs (resolve_path cwd match_) with
  | Ok content => content
  | Raise e => "Error reading file: " +:+ exn_msg e
  end.

(** A host where nothing exists, and one where [/etc/shadow] is a file
    that cannot be opened. *)
Definition empty_fs : filesystem :=
  {| isfile := fun _ => false;
     isdir := fun _ => false;
     read_text := fun p => raise OSError ("[Errno 2] No such file or directory: '" +:+ p +:+ "'");
     listdir := fun p => raise OSError ("[Errno 2] No such file or directory: '" +:+ p +:+ "'") |}.

Definition shadow_fs : filesystem :=
  {| isfile := fun p => String.eqb p "/etc/shadow";
     isdir := fun _ => false;
     read_text := fun p => raise PermissionError ("[Errno 13] Permission denied: '" +:+ p +:+ "'");
     listdir := fun p => raise OSError ("[Errno 20] Not a directory: '" +:+ p +:+ "'") |}.

(** ** Vocabulary of the further properties *)

(** A buffer of whole lines: empty, or ending with a newline. *)
Definition whole_lines (b : string) : Prop := b = EmptyString ∨ ∃ x, b = x +:+ nl.

(** A text of one line. *)
Fixpoint newline_free (s : string) : bool :=
  match s with
  | EmptyString => true
  | String c s' => negb (Ascii.eqb c newline) && newline_free s'
  end.

(** A monitor whose buffer holds the lines [ls] and [a.txt], with room for
    [mcs] characters. *)
Definition two_line_monitor (mcs : Z) : monitor :=
  set_context_buffer ("[1] $ ls" +:+ nl +:+ "a.txt" +:+ nl) (sample_monitor mcs 10).

(** The appends that the history thread makes for the lines it reads. *)
Definition history_appends (new_lines : list (Z * string)) : list (Z * append_op) :=
  omap (fun l => (fun c => (l.1, LogCommand c (Some l.1))) <$> inline_line_command l.2) new_lines.

(** The entries of a history whose timestamp can be read. *)
Definition has_time (py : PyLib) (e : pyval) : Prop :=
  ∃ s t, subscript e "timestamp" = Ok (PStr s) ∧ fromisoformat py s = Some t.

(** An entry of the command history whose command is empty or has a
    first word. *)
Definition has_first_word (e : pyval) : Prop :=
  ∃ c, subscript e "command" = Ok (PStr c) ∧ has_basename c.

(** Appends that start with a command of blanks; a history of two
    entries holds it no longer when they are done. *)
Definition blank_appends : list (Z * append_op) :=
  [(1000000, LogCommand "  " None); (2000000, LogCommand "ls" None);
   (3000000, LogCommand "pwd" None)].

(** A session of three commands at the seconds 1, 2 and 3, the second one
    followed by its output. *)
Definition three_command_appends : list (Z * append_op) :=
  [(1000000, LogCommand "ls" None); (2000000, LogCommand "make" None);
   (2000000, LogOutput "ok" "make" None); (3000000, LogCommand "pwd" None)].

Definition three_command_session : monitor :=
  final_state sample_lib three_command_appends (sample_monitor 10000 10).

(** A session file whose only output has no timestamp. *)
Definition broken_session_file : pyval :=
  PDict [("start_time", PStr "0");
         ("commands", PList [command_entry sample_lib 1000000 "ls" "/tmp";
                             command_entry sample_lib 3000000 "pwd" "/tmp"]);
         ("outputs", PList [PDict [("output", PStr "a.txt")]]);
         ("directory_changes", PList []); ("file_operations", PList [])].

Definition broken_session : monitor :=
  (load_session (Ok broken_session_file) (sample_monitor 10000 10)).1.

(** A stand-in for [strftime("%Y%m%d_%H%M%S")] and a host where every file
    can be opened and none exists yet. *)
Definition sample_stamp (t : Z) : string := str_of_Z (t / 1000000).

Definition no_files : json_files := fun p =>
  raise OSError ("[Errno 2] No such file or directory: '" +:+ p +:+ "'").

(** The dict [_process_history_update] queues for a command. *)
Definition history_event (hms c : string) : cmd_event :=
  {| ce_timestamp := hms; ce_command := c; ce_source := "shell_history" |}.

(** No two neighbours of the queue hold the same command. *)
Fixpoint no_repeats (l : list cmd_event) : Prop :=
  match l with
  | a :: l' =>
      match l' with
      | b :: _ => ce_command a ≠ ce_command b
      | [] => True
      end ∧ no_repeats l'
  | [] => True
  end.

(** A history file of eleven lines, and the same file after [make] was
    run once more. *)
Definition eleven_lines : list string :=
  map (fun c => c +:+ nl) ["a"; "b"; "c"; "d"; "e"; "f"; "g"; "h"; "i"; "j"; "k"].

(** The cache of the process watcher holds live, interesting processes
    under their own pids. *)
Definition cache_inv (w : process_watcher) : Prop :=
  ∀ pid p, process_cache w !! pid = Some p →
           pid ∈ known_pids w ∧ pi_pid p = pid ∧ watcher_is_interesting p = Ok true.

(** A process whose command line psutil could not read. *)
Definition denied (pid : Z) (name : string) : proc_info :=
  {| pi_pid := pid; pi_name := Some name; pi_cmdline := None |}.

(** The variable and value of an environment event. *)
Definition env_pair (e : env_event) : string * string := (ee_variable e, ee_value e).

Definition sample_environ : list (string * string) :=
  [("HOME", "/home/dev"); ("PWD", "/tmp"); ("EDITOR", "vim")].

Definition later_environ : list (string * string) :=
  [("HOME", "/home/dev"); ("PWD", "/srv"); ("LANG", "C")].

(** The lines the coordination loop puts into the terminal buffer. *)
Definition history_entry (item : cmd_event) : string :=
  "[" +:+ ce_timestamp item +:+ "] $ " +:+ ce_command item.

Definition process_entry (item : proc_event) : string :=
  "[" +:+ pe_timestamp item +:+ "] Process " +:+ action_name (pe_action item)
  +:+ ": " +:+ fmt_name (pe_name item) +:+ " (PID: " +:+ str_of_Z (pe_pid item) +:+ ")".

(** A command with a first word. *)
Definition has_word (e : cmd_event) : Prop := split_ws (ce_command e) ≠ [].

(** What the comprehensive monitor keeps whatever its threads do. *)
Record coordinator_inv (c : coordinator) : Prop := {
  cinv_commands : Forall has_word (cs_commands (comp_session_data (co_monitor c)));
  cinv_queue : Forall has_word (dq_items (new_commands (co_shell_history c)));
  cinv_files : cs_files_accessed (comp_session_data (co_monitor c)) = [];
  cinv_maxlen : dq_maxlen (terminal_buffer (co_monitor c)) = 2000%nat;
  cinv_buffer : (length (dq_items (terminal_buffer (co_monitor c))) ≤ 2000)%nat
}.

(** A morning of the comprehensive monitor: it starts, the history file
    changes twice, a process appears, the environment changes, and the
    coordination loop takes its turns. *)
Definition sample_activities : list activity :=
  [StartMonitoring None;
   HistoryUpdate "09:00:00" (Ok ["git status" +:+ nl; "git pull" +:+ nl]);
   CoordinationTurn;
   ProcessPoll "09:00:01" [proc 7 "vim"];
   EnvironmentPoll "09:00:02" later_environ;
   HistoryUpdate "09:00:03" (Ok ["git status" +:+ nl; "git pull" +:+ nl; "ls" +:+ nl]);
   CoordinationTurn].

(** The distinct items of a list, in the order of their first
    appearance. *)
Fixpoint first_occurrences (l : list string) : list string :=
  match l with
  | [] => []
  | x :: l' => x :: List.filter (fun y => negb (String.eqb y x)) (first_occurrences l')
  end.

(** A reference: at least one character, none of them whitespace or [@]. *)
Definition is_token (t : string) : bool :=
  nonempty t && forallb token_char (list_ascii_of_string t).

(** [t] stands in [message] directly after an [@] and reaches to the end
    of the message or to a character that cannot be part of a reference. *)
Definition referenced_in (message t : string) : Prop :=
  ∃ pre post, message = pre +:+ String at_sign (t +:+ post)
              ∧ match post with
                | EmptyString => True
                | String c _ => token_char c = false
                end.

(** A host with one file and one directory in [/tmp]. *)
Definition tmp_fs : filesystem :=
  {| isfile := fun p => String.eqb p "/tmp/a.txt";
     isdir := fun p => String.eqb p "/tmp/src";
     read_text := fun p => Ok "alpha";
     listdir := fun p => Ok ["x.py"; "y.py"] |}.

(** A host where only [~/.zsh_history] exists. *)
Definition only_zsh_history (p : string) : bool := String.eqb p "/home/dev/.zsh_history".

(** The line [get_terminal_context] shows for a command line. *)
Definition shown_cmdline (cmdline : string) : string :=
  if (100 <? String.length cmdline)%nat then str_take 100 cmdline +:+ "..." else cmdline.

(** The directory the appends leave the monitor in: the one of the last
    [log_directory_change], or the one it started in. *)
Definition last_directory (cwd : string) (ops : list (Z * append_op)) : string :=
  fold_left (fun d p => match p.2 with LogDirectoryChange d' _ => d' | _ => d end) ops cwd.

(** The paths of the file operations among the appends, in their order. *)
Definition logged_files (ops : list (Z * append_op)) : list string :=
  omap (fun p => match p.2 with LogFileOperation _ f _ => Some f | _ => None end) ops.

(** The file operation an append logs in the directory [dir]. *)
Definition file_entries (py : PyLib) (now : Z) (dir : string) (op : append_op) : list pyval :=
  match op with
  | LogFileOperation o f t => [file_op_entry py (default now t) o f dir]
  | _ => []
  end.

(** File operations in a session that starts with a command of blanks;
    a history of one entry holds that command no longer at the end. *)
Definition file_appends : list (Z * append_op) :=
  [(1000000, LogCommand "  " None);
   (2000000, LogFileOperation "read" "a.txt" None);
   (3000000, LogCommand "make" None);
   (4000000, LogFileOperation "write" "b.txt" None);
   (5000000, LogDirectoryChange "/srv" None);
   (6000000, LogFileOperation "read" "a.txt" None)].

(** How often [b] occurs in a list of basenames. *)
Definition occurrences (b : string) (bs : list string) : nat :=
  length (List.filter (String.eqb b) bs).

Definition git_appends : list (Z * append_op) :=
  [(1000000, LogCommand "git status" None); (2000000, LogCommand "ls -la" None);
   (3000000, LogCommand "git pull" None); (4000000, LogOutput "ok" "git pull" None)].

Definition git_session : monitor :=
  final_state sample_lib git_appends (sample_monitor 10000 10).

(** A list of commands without the ones that repeat their predecessor;
    [prev] is the command before the list. *)
Fixpoint compress_after (prev : option string) (l : list string) : list string :=
  match l with
  | [] => []
  | c :: l' =>
      if bool_decide (prev = Some c) then compress_after prev l'
      else c :: compress_after (Some c) l'
  end.

Definition compress (l : list string) : list string := compress_after None l.

(** The dict [_read_new_history] queues for a command. *)
Definition read_event (hms c : string) : cmd_event :=
  {| ce_timestamp := hms; ce_command := c; ce_source := "history" |}.

(** The line of a command in the buffer of [TerminalMonitor]. *)
Definition terminal_entry (cmd : cmd_event) : string :=
  "[" +:+ ce_timestamp cmd +:+ "] $ " +:+ ce_command cmd.

(** * Properties *)

(** ** Strings *)

Lemma str_length_app (a b : string) :
  String.length (a +:+ b) = (String.length a + String.length b)%nat.
Proof. induction a as [|c a IH]; [done | exact (f_equal S IH)]. Qed.

Lemma str_app_assoc (a b c : string) : (a +:+ b) +:+ c = a +:+ (b +:+ c).
Proof. induction a as [|x a IH]; [done | exact (f_equal (String x) IH)]. Qed.

Lemma str_app_nil_r (a : string) : a +:+ EmptyString = a.
Proof. induction a as [|x a IH]; [done | exact (f_equal (String x) IH)]. Qed.

Lemma join_cons (sep x : string) (l : list string) :
  l ≠ [] → join sep (x :: l) = x +:+ sep +:+ join sep l.
Proof. destruct l; [done | reflexivity]. Qed.

Lemma split_char_nonempty (c : ascii) (s : string) : split_char c s ≠ [].
Proof. destruct s as [|a s]; simpl; [done |]. destruct (Ascii.eqb a c); [done |]. by destruct (split_char c s). Qed.

(** Joining the pieces of a split gives the string back. *)
Lemma join_split_char (s : string) : join nl (split_char newline s) = s.
Proof.
  induction s as [|a s IH]; [done |].
  simpl. destruct (Ascii.eqb_spec a newline) as [-> | Hne].
  - rewrite join_cons by apply split_char_nonempty. by rewrite IH.
  - pose proof (split_char_nonempty newline s) as Hs.
    destruct (split_char newline s) as [|h t]; [done |].
    destruct t as [|h' t]; simpl in *; by rewrite <- IH.
Qed.

Lemma join_drop_suffix (k : nat) (l : list string) :
  str_suffix (join nl (drop k l)) (join nl l).
Proof.
  revert l. induction k as [|k IH]; intros l.
  - exists EmptyString. by rewrite drop_0.
  - destruct l as [|x l]; [by exists EmptyString |].
    destruct (IH l) as [p Hp]. simpl drop.
    destruct l as [|y l].
    + exists x. rewrite drop_nil. simpl. by rewrite str_app_nil_r.
    + exists (x +:+ nl +:+ p). rewrite join_cons by done.
      rewrite Hp. by rewrite !str_app_assoc.
Qed.

(** ** The bounded deque *)

Lemma length_lastn {A} (n : nat) (l : list A) : length (lastn n l) = Nat.min n (length l).
Proof. unfold lastn. rewrite length_drop. lia. Qed.

#[global] Arguments deque_append : simpl never.
#[global] Arguments join : simpl never.
#[global] Arguments py_last_n : simpl never.

Lemma deque_append_maxlen {A} (x : A) (d : deque A) :
  dq_maxlen (deque_append x d) = dq_maxlen d.
Proof. reflexivity. Qed.

(** Appending to a deque that holds the last [maxlen] items of a log gives
    the last [maxlen] items of the extended log: the item dropped is the
    oldest one, and the order of the others is kept. *)
Lemma deque_append_lastn {A} (x : A) (d : deque A) (log : list A) :
  dq_items d = lastn (dq_maxlen d) log →
  dq_items (deque_append x d) = lastn (dq_maxlen d) (log ++ [x]).
Proof.
  intros Hd. unfold deque_append, lastn in *. simpl. rewrite Hd.
  set (m := dq_maxlen d). set (n := length log).
  rewrite !length_app, length_drop. fold n. simpl.
  destruct (Nat.ltb_spec m (n - (n - m) + 1)) as [Hlt | Hge].
  - assert (tail_drop : ∀ l : list A, tail l = drop 1 l) by (by intros []).
    rewrite tail_drop, <- (drop_app_le log [x]) by (fold n; lia).
    rewrite drop_drop. f_equal. lia.
  - replace (n + 1 - m)%nat with 0%nat by lia.
    replace (n - m)%nat with 0%nat by lia.
    by rewrite !drop_0.
Qed.

Lemma lastn_all {A} (n : nat) (l : list A) : (length l ≤ n)%nat → lastn n l = l.
Proof. intros H. unfold lastn. by replace (length l - n)%nat with 0%nat by lia. Qed.

Lemma py_last_n_lastn {A} (n : nat) (l : list A) : (0 < n)%nat → py_last_n n l = lastn n l.
Proof. by destruct n; [lia |]. Qed.

Lemma deque_append_room {A} (x : A) (d : deque A) :
  (length (dq_items d) < dq_maxlen d)%nat → dq_items (deque_append x d) = dq_items d ++ [x].
Proof.
  intros Hroom. unfold deque_append. simpl.
  destruct (Nat.ltb_spec (dq_maxlen d) (length (dq_items d ++ [x]))) as [Hlt | _]; [| done].
  rewrite length_app in Hlt. simpl in Hlt. lia.
Qed.

(** What holds of the items of a deque and of a new item holds of the
    items after the append. *)
Lemma Forall_deque_append {A} (P : A → Prop) (x : A) (d : deque A) :
  Forall P (dq_items d) → P x → Forall P (dq_items (deque_append x d)).
Proof.
  intros Hd Hx. unfold deque_append. simpl.
  assert (Forall P (dq_items d ++ [x])) as Hall.
  { apply Forall_app. split; [done | by constructor]. }
  destruct (_ <? _)%nat; [| done].
  destruct (dq_items d ++ [x]) as [|y l]; simpl; [done |].
  by apply Forall_cons in Hall as [_ Hall].
Qed.

Lemma deque_append_length {A} (x : A) (d : deque A) :
  (length (dq_items d) ≤ dq_maxlen d)%nat →
  (length (dq_items (deque_append x d)) ≤ dq_maxlen d)%nat.
Proof.
  intros H. unfold deque_append. simpl.
  destruct (Nat.ltb_spec (dq_maxlen d) (length (dq_items d ++ [x]))) as [Hlt | Hge]; [| done].
  rewrite length_app in Hlt. simpl in Hlt.
  destruct (dq_items d); simpl in *; [lia |]. rewrite length_app. simpl. lia.
Qed.

(** ** The context buffer *)

Lemma over_target_false (n : nat) (max : Z) :
  over_target n max = false ↔ 5 * Z.of_nat n <= 4 * max.
Proof. unfold over_target. rewrite Z.ltb_ge. lia. Qed.

Lemma over_target_true (n : nat) (max : Z) :
  over_target n max = true ↔ 4 * max < 5 * Z.of_nat n.
Proof. unfold over_target. by rewrite Z.ltb_lt. Qed.

Lemma trim_lines_cons (max : Z) (l : string) (rest : list string) :
  trim_lines max (l :: rest) =
  if over_target (String.length (join nl (l :: rest))) max
  then trim_lines max rest else Ok (l :: rest).
Proof. reflexivity. Qed.

(** With a non-negative bound the trimming loop ends without popping from
    an empty list: it removes the least number of leading lines that
    brings the text to the target. *)
Lemma trim_lines_spec (max : Z) (lines : list string) :
  0 <= max →
  ∃ k, trim_lines max lines = Ok (drop k lines)
       ∧ over_target (String.length (join nl (drop k lines))) max = false
       ∧ ∀ j, (j < k)%nat → over_target (String.length (join nl (drop j lines))) max = true.
Proof.
  intros Hmax. induction lines as [|l rest IH].
  - exists 0%nat. simpl.
    assert (over_target 0 max = false) as H0 by (apply over_target_false; lia).
    change (String.length (join nl [])) with 0%nat. rewrite H0.
    split; [done |]. split; [done | lia].
  - rewrite trim_lines_cons.
    destruct (over_target (String.length (join nl (l :: rest))) max) eqn:Hover.
    + destruct IH as (k & Hk & Hstop & Hbefore). exists (S k). simpl drop.
      split; [done |]. split; [done |].
      intros [|j] Hj; [by rewrite drop_0 | apply Hbefore; lia].
    + exists 0%nat. rewrite drop_0. split; [done |]. split; [done | lia].
Qed.

Lemma update_context_buffer_spec (text : string) (st : monitor) :
  0 <= max_context_size st →
  let full := context_buffer st +:+ text +:+ nl in
  let lines := split_char newline full in
  ∃ b, _update_context_buffer text st = (set_context_buffer b st, Ok tt)
       ∧ Z.of_nat (String.length b) <= max_context_size st
       ∧ str_suffix b full
       ∧ (Z.of_nat (String.length full) <= max_context_size st → b = full)
       ∧ (max_context_size st < Z.of_nat (String.length full) →
          ∃ k, b = join nl (drop k lines)
               ∧ 5 * Z.of_nat (String.length b) <= 4 * max_context_size st
               ∧ ∀ j, (j < k)%nat →
                   4 * max_context_size st < 5 * Z.of_nat (String.length (join nl (drop j lines)))).
Proof.
  intros Hmax full lines. unfold _update_context_buffer.
  change (context_buffer (set_context_buffer (context_buffer st +:+ text +:+ nl) st)) with full.
  change (max_context_size (set_context_buffer (context_buffer st +:+ text +:+ nl) st))
    with (max_context_size st).
  destruct (Z.ltb_spec (max_context_size st) (Z.of_nat (String.length full))) as [Hlt | Hge].
  - destruct (trim_lines_spec (max_context_size st) lines Hmax) as (k & Hk & Hstop & Hbefore).
    fold lines. rewrite Hk. exists (join nl (drop k lines)).
    apply over_target_false in Hstop.
    split; [done |]. split; [lia |]. split.
    { unfold lines. rewrite <- (join_split_char full) at 2. apply join_drop_suffix. }
    split; [lia |]. intros _. exists k. split; [done |]. split; [done |].
    intros j Hj. by apply over_target_true, Hbefore.
  - exists full. split; [done |]. split; [done |]. split; [by exists EmptyString |].
    split; [done | lia].
Qed.

(** ** Appends keep the monitor within its bounds *)

Lemma init_inv (py : PyLib) (now : Z) (cwd : string) (comp : comp_start) (mcs mhi : Z) (st : monitor) :
  init py now cwd comp mcs mhi = Ok st → 0 <= mcs →
  state_inv mcs mhi st [] [] [] [] ∧ 0 <= mhi.
Proof.
  unfold init. intros Hinit Hmcs.
  destruct (Z.ltb_spec mhi 0) as [Hneg | Hpos]; [done |].
  injection Hinit as <-. split; [| done]. split; simpl; try done.
  eexists; reflexivity.
Qed.

Ltac step_method :=
  unfold mbind, method_bind, mret, method_ret, get_self, set_self, lift; simpl.

Lemma run_append_inv (py : PyLib) (P : pyval → Prop) (now : Z) (op : append_op)
    (mcs mhi : Z) (st : monitor) (cs os ds fs : list pyval) :
  state_inv mcs mhi st cs os ds fs → Forall P cs → command_satisfies py P op →
  ∃ st' cs' os' ds' fs',
    run_append py now op st = (st', Ok tt)
    ∧ state_inv mcs mhi st' cs' os' ds' fs'
    ∧ Forall P cs'
    ∧ length cs' = (length cs + is_log_command op)%nat
    ∧ length os' = (length os + is_log_output op)%nat.
Proof.
  intros [Hmcs Hmhi Hpos [start Hsd] Hcm Hom Hci Hoi Hfs Hbuf] HP Hop.
  destruct op as [c t | o c t | d t | o f t]; simpl run_append.
  - unfold log_command. step_method. unfold session_append. simpl. rewrite Hsd. simpl.
    set (e := command_entry py (default now t) c (current_directory st)).
    match goal with |- context [_update_context_buffer ?txt ?s] =>
      destruct (update_context_buffer_spec txt s) as (b & -> & Hb & _); [simpl; lia |]
    end.
    simpl in Hb. eexists _, (cs ++ [e]), os, ds, fs.
    split; [reflexivity |]. split.
    { split; cbn; rewrite ?deque_append_maxlen; try done; try lia; [eexists; reflexivity |].
      rewrite <- Hcm. apply deque_append_lastn. by rewrite Hcm. }
    split; [apply Forall_app; split; [done | constructor; [apply Hop | constructor]] |].
    rewrite length_app. simpl. lia.
  - unfold log_output. step_method. unfold session_append. simpl. rewrite Hsd. simpl.
    set (e := output_entry py (default now t) c o (current_directory st)).
    assert (∀ b, Z.of_nat (String.length b) <= mcs →
              state_inv mcs mhi
                (set_context_buffer b
                   (set_session_data
                      (PDict [("start_time", start); ("commands", PList cs);
                              ("outputs", PList (os ++ [e])); ("directory_changes", PList ds);
                              ("file_operations", PList fs)])
                      (set_output_history (deque_append e) st))) cs (os ++ [e]) ds fs) as Hst.
    { intros b Hb. split; cbn; rewrite ?deque_append_maxlen; try done; [eexists; reflexivity |].
      rewrite <- Hom. apply deque_append_lastn. by rewrite Hom. }
    destruct (String.eqb (strip o) EmptyString).
    + eexists _, cs, (os ++ [e]), ds, fs. split; [reflexivity |]. split.
      { exact (Hst (context_buffer st) Hbuf). }
      split; [done |]. rewrite length_app. simpl. lia.
    + match goal with |- context [_update_context_buffer ?txt ?s] =>
        destruct (update_context_buffer_spec txt s) as (b & -> & Hb & _); [simpl; lia |]
      end.
      simpl in Hb. eexists _, cs, (os ++ [e]), ds, fs. split; [reflexivity |]. split.
      { apply (Hst b). lia. }
      split; [done |]. rewrite length_app. simpl. lia.
  - unfold log_directory_change. step_method. unfold session_append. simpl. rewrite Hsd. simpl.
    match goal with |- context [_update_context_buffer ?txt ?s] =>
      destruct (update_context_buffer_spec txt s) as (b & -> & Hb & _); [simpl; lia |]
    end.
    simpl in Hb. eexists _, cs, os, (ds ++ [_]), fs. split; [reflexivity |]. split.
    { split; cbn; rewrite ?deque_append_maxlen; try done; try lia. eexists; reflexivity. }
    split; [done |]. simpl. lia.
  - unfold log_file_operation. step_method. unfold session_append. simpl. rewrite Hsd. simpl.
    match goal with |- context [_update_context_buffer ?txt ?s] =>
      destruct (update_context_buffer_spec txt s) as (b & -> & Hb & _); [simpl; lia |]
    end.
    simpl in Hb. eexists _, cs, os, ds, (fs ++ [_]). split; [reflexivity |]. split.
    { split; cbn; rewrite ?deque_append_maxlen; try done; try lia; [eexists; reflexivity |].
      apply Forall_app. split; [done |]. constructor; [| done]. eexists; reflexivity. }
    split; [done |]. simpl. lia.
Qed.

Lemma run_appends_inv (py : PyLib) (ops : list (Z * append_op)) (mcs mhi : Z)
    (st : monitor) (cs os ds fs : list pyval) :
  state_inv mcs mhi st cs os ds fs →
  Forall (fun r => r.2 = Ok tt ∧ ∃ cs' os' ds' fs', state_inv mcs mhi r.1 cs' os' ds' fs')
    (run_appends py ops st).
Proof.
  revert st cs os ds fs. induction ops as [|[now op] ops IH]; intros st cs os ds fs Hinv.
  - constructor.
  - destruct (run_append_inv py (fun _ => True) now op mcs mhi st cs os ds fs Hinv)
      as (st' & cs' & os' & ds' & fs' & Hrun & Hinv' & _).
    { by apply Forall_forall. }
    { by destruct op. }
    simpl. rewrite Hrun. constructor; [by eauto 10 | by eapply IH].
Qed.

Lemma final_state_inv (py : PyLib) (P : pyval → Prop) (ops : list (Z * append_op))
    (mcs mhi : Z) (st : monitor) (cs os ds fs : list pyval) :
  state_inv mcs mhi st cs os ds fs → Forall P cs →
  Forall (fun p => command_satisfies py P p.2) ops →
  ∃ cs' os' ds' fs',
    state_inv mcs mhi (final_state py ops st) cs' os' ds' fs'
    ∧ Forall P cs'
    ∧ length cs' = (length cs + count_log_commands ops)%nat
    ∧ length os' = (length os + count_log_outputs ops)%nat.
Proof.
  revert st cs os ds fs.
  induction ops as [|[now op] ops IH]; intros st cs os ds fs Hinv HP Hops.
  - exists cs, os, ds, fs. unfold count_log_commands, count_log_outputs. simpl.
    split; [done |]. split; [done |]. lia.
  - apply Forall_cons in Hops as [Hop Hops].
    destruct (run_append_inv py P now op mcs mhi st cs os ds fs Hinv HP Hop)
      as (st' & cs' & os' & ds' & fs' & Hrun & Hinv' & HP' & Hlc & Hlo).
    destruct (IH st' cs' os' ds' fs' Hinv' HP' Hops)
      as (cs2 & os2 & ds2 & fs2 & Hinv2 & HP2 & Hlc2 & Hlo2).
    exists cs2, os2, ds2, fs2. simpl. rewrite Hrun. simpl.
    split; [done |]. split; [done |].
    unfold count_log_commands, count_log_outputs in *. simpl. lia.
Qed.

(** C1: after every append of any sequence of appends the command and
    output histories hold at most [max_history_items] entries, namely the
    newest entries of their logs in the order they were logged, and the
    context buffer is at most [max_context_size] long; an update that
    takes the buffer beyond [max_context_size] removes the fewest leading
    lines that bring it to at most 80% of [max_context_size]. *)
Theorem appends_respect_bounds (py : PyLib) (now : Z) (cwd : string) (comp : comp_start)
    (mcs mhi : Z) (st0 : monitor) (ops : list (Z * append_op)) :
  init py now cwd comp mcs mhi = Ok st0 → 0 <= mcs →
  Forall (fun r =>
      r.2 = Ok tt
      ∧ Z.of_nat (length (dq_items (command_history r.1))) <= mhi
      ∧ Z.of_nat (length (dq_items (output_history r.1))) <= mhi
      ∧ Z.of_nat (String.length (context_buffer r.1)) <= mcs
      ∧ ∃ cs os ds fs,
          session_shape (session_data r.1) cs os ds fs
          ∧ dq_items (command_history r.1) = lastn (Z.to_nat mhi) cs
          ∧ dq_items (output_history r.1) = lastn (Z.to_nat mhi) os)
    (run_appends py ops st0)
  ∧ ∀ (st : monitor) (text : string),
      max_context_size st = mcs →
      let full := context_buffer st +:+ text +:+ nl in
      let lines := split_char newline full in
      ∃ b, _update_context_buffer text st = (set_context_buffer b st, Ok tt)
           ∧ Z.of_nat (String.length b) <= mcs
           ∧ (Z.of_nat (String.length full) <= mcs → b = full)
           ∧ (mcs < Z.of_nat (String.length full) →
              ∃ k, b = join nl (drop k lines)
                   ∧ 5 * Z.of_nat (String.length b) <= 4 * mcs
                   ∧ ∀ j, (j < k)%nat →
                       4 * mcs < 5 * Z.of_nat (String.length (join nl (drop j lines)))).
Proof.
  intros Hinit Hmcs. destruct (init_inv _ _ _ _ _ _ _ Hinit Hmcs) as [Hinv Hmhi]. split.
  - eapply Forall_impl; [exact (run_appends_inv py ops mcs mhi st0 _ _ _ _ Hinv) |].
    intros [st r] [Hr (cs & os & ds & fs & Hst)]. simpl in *.
    destruct Hst as [_ _ _ Hshape _ _ Hci Hoi _ Hbuf].
    split; [done |]. rewrite Hci, Hoi, !length_lastn.
    split; [lia |]. split; [lia |]. split; [done |]. by exists cs, os, ds, fs.
  - intros st text <- full lines.
    destruct (update_context_buffer_spec text st Hmcs) as (b & Hb & Hlen & _ & Hfit & Htrim).
    by exists b.
Qed.

(** The instance of C1 for a monitor of 12 characters and 2 entries. *)
Lemma appends_respect_bounds_witness :
  init sample_lib 0 "/tmp" CompUnavailable 12 2 = Ok (sample_monitor 12 2)
  ∧ Forall (fun r =>
        r.2 = Ok tt
        ∧ Z.of_nat (length (dq_items (command_history r.1))) <= 2
        ∧ Z.of_nat (length (dq_items (output_history r.1))) <= 2
        ∧ Z.of_nat (String.length (context_buffer r.1)) <= 12
        ∧ ∃ cs os ds fs,
            session_shape (session_data r.1) cs os ds fs
            ∧ dq_items (command_history r.1) = lastn (Z.to_nat 2) cs
            ∧ dq_items (output_history r.1) = lastn (Z.to_nat 2) os)
      (run_appends sample_lib sample_appends (sample_monitor 12 2)).
Proof.
  split; [reflexivity |].
  apply (appends_respect_bounds sample_lib 0 "/tmp" CompUnavailable 12 2
           (sample_monitor 12 2) sample_appends); [reflexivity | lia].
Defined.

(** ** The session summary *)

Lemma command_basename_entry (py : PyLib) (t : Z) (c d : string) :
  has_basename c → ∃ b, command_basename (command_entry py t c d) = Ok b.
Proof.
  intros [-> | Hc]; [by exists EmptyString |].
  unfold command_basename. simpl.
  destruct (split_ws c) as [|tok toks] eqn:E; [done |].
  destruct (String.eqb c EmptyString) eqn:Ec; simpl; rewrite ?E; eauto.
Qed.

Lemma count_commands_ok (entries : list pyval) (acc : list (string * nat)) :
  Forall (fun e => ∃ b, command_basename e = Ok b) entries →
  ∃ r, count_commands entries acc = Ok r.
Proof.
  revert acc. induction entries as [|e entries IH]; intros acc Hall; simpl; [eauto |].
  apply Forall_cons in Hall as [[b Hb] Hall]. rewrite Hb. simpl. by apply IH.
Qed.

Lemma recent_files_loop_ok (py : PyLib) (file_ops acc : list pyval) :
  Forall has_filepath file_ops → ∃ r, recent_files_loop py file_ops acc = Ok r.
Proof.
  revert acc. induction file_ops as [|e file_ops IH]; intros acc Hall; simpl; [eauto |].
  apply Forall_cons in Hall as [[p Hp] Hall]. rewrite Hp. simpl. by apply IH.
Qed.

Lemma Forall_py_last_n {A} (P : A → Prop) (n : nat) (l : list A) :
  Forall P l → Forall P (py_last_n n l).
Proof. destruct n; [done | apply Forall_drop]. Qed.

(** Whenever the summary is produced, its two totals are the lengths of
    the history deques. *)
Lemma summary_totals (py : PyLib) (now : Z) (st : monitor) (s : summary) :
  get_session_summary py now st = Ok s →
  total_commands s = length (dq_items (command_history st))
  ∧ total_outputs s = length (dq_items (output_history st)).
Proof.
  unfold get_session_summary. intros H.
  repeat match type of H with
         | mbind _ ?m = Ok _ => destruct m; simpl in H; [| done]
         end.
  by injection H as <-.
Qed.

Lemma summary_returns (py : PyLib) (now : Z) (mcs mhi : Z) (st : monitor)
    (cs os ds fs : list pyval) :
  state_inv mcs mhi st cs os ds fs →
  Forall (fun e => ∃ b, command_basename e = Ok b) cs →
  ∃ s, get_session_summary py now st = Ok s.
Proof.
  intros [_ _ _ [start Hsd] _ _ Hci _ Hfs _] Hcs.
  unfold get_session_summary, _get_most_used_commands, _get_recent_files.
  rewrite Hsd, Hci. simpl.
  destruct (count_commands_ok (lastn (Z.to_nat mhi) cs) []) as [r ->];
    [by apply Forall_drop |].
  simpl.
  destruct (recent_files_loop_ok py (py_last_n 10 fs) []) as [r' ->];
    [by apply Forall_py_last_n |].
  simpl. eauto.
Qed.

(** C9: the summary of a session reports as [total_commands] and
    [total_outputs] the lengths of the two bounded histories: the number of
    commands (outputs) logged, capped at [max_history_items]. Once more
    than [max_history_items] commands were logged the total is smaller
    than the number logged. *)
Theorem summary_totals_are_capped (py : PyLib) (now : Z) (cwd : string) (comp : comp_start)
    (mcs mhi : Z) (st0 : monitor) (ops : list (Z * append_op)) (later : Z) :
  init py now cwd comp mcs mhi = Ok st0 → 0 <= mcs →
  let st := final_state py ops st0 in
  (∀ s, get_session_summary py later st = Ok s →
        total_commands s = length (dq_items (command_history st))
        ∧ total_outputs s = length (dq_items (output_history st))
        ∧ total_commands s = Nat.min (Z.to_nat mhi) (count_log_commands ops)
        ∧ total_outputs s = Nat.min (Z.to_nat mhi) (count_log_outputs ops)
        ∧ Z.of_nat (total_commands s) <= mhi
        ∧ Z.of_nat (total_outputs s) <= mhi
        ∧ (mhi < Z.of_nat (count_log_commands ops) →
           (total_commands s < count_log_commands ops)%nat)
        ∧ (mhi < Z.of_nat (count_log_outputs ops) →
           (total_outputs s < count_log_outputs ops)%nat))
  ∧ (Forall (fun p => op_has_basename p.2) ops →
     ∃ s, get_session_summary py later st = Ok s).
Proof.
  intros Hinit Hmcs st. destruct (init_inv _ _ _ _ _ _ _ Hinit Hmcs) as [Hinv Hmhi]. split.
  - intros s Hs. apply summary_totals in Hs as [-> ->].
    destruct (final_state_inv py (fun _ => True) ops mcs mhi st0 [] [] [] [] Hinv)
      as (cs & os & ds & fs & Hst & _ & Hlc & Hlo).
    { constructor. }
    { apply Forall_forall. by intros [? []]. }
    destruct Hst as [_ _ _ _ _ _ Hci Hoi _ _]. fold st in Hci, Hoi.
    rewrite Hci, Hoi, !length_lastn, Hlc, Hlo. simpl. lia.
  - intros Hops.
    destruct (final_state_inv py (fun e => ∃ b, command_basename e = Ok b)
                ops mcs mhi st0 [] [] [] [] Hinv)
      as (cs & os & ds & fs & Hst & Hcs & _).
    { constructor. }
    { eapply Forall_impl; [exact Hops |]. intros [? []]; simpl; try done.
      intros Hc t d. by apply command_basename_entry. }
    by eapply summary_returns.
Qed.

(** The instance of C9 for a history of 2 entries and 3 logged commands:
    the summary reports 2. *)
Lemma summary_totals_are_capped_witness :
  init sample_lib 0 "/tmp" CompUnavailable 100 2 = Ok (sample_monitor 100 2)
  ∧ ∃ s, get_session_summary sample_lib 9000000
           (final_state sample_lib sample_appends (sample_monitor 100 2)) = Ok s
         ∧ total_commands s = 2%nat
         ∧ (total_commands s < count_log_commands sample_appends)%nat.
Proof.
  split; [reflexivity |].
  destruct (summary_totals_are_capped sample_lib 0 "/tmp" CompUnavailable 100 2
              (sample_monitor 100 2) sample_appends 9000000) as [Htotals Hreturns];
    [reflexivity | lia |].
  destruct Hreturns as [s Hs].
  { repeat (apply Forall_cons; split); try apply Forall_nil; try exact I;
    right; discriminate. }
  exists s. split; [exact Hs |].
  destruct (Htotals s Hs) as (_ & _ & Hc & _ & _ & _ & Hlt & _).
  split; [exact Hc | apply Hlt; vm_compute; reflexivity].
Defined.

(** ** The frame of log_command *)

Lemma alist_get_set_eq {V} (k : string) (v : V) (d : list (string * V)) :
  alist_get k (alist_set k v d) = Some v.
Proof.
  induction d as [|[k' v'] d IH]; simpl.
  - by rewrite String.eqb_refl.
  - destruct (String.eqb k' k) eqn:E; simpl; [by rewrite String.eqb_refl | by rewrite E].
Qed.

Lemma alist_get_set_ne {V} (k k' : string) (v : V) (d : list (string * V)) :
  k ≠ k' → alist_get k (alist_set k' v d) = alist_get k d.
Proof.
  intros Hne. induction d as [|[k2 v2] d IH]; simpl.
  - destruct (String.eqb_spec k' k); [congruence | done].
  - destruct (String.eqb_spec k2 k') as [-> | Hk2]; simpl.
    + destruct (String.eqb_spec k' k); [congruence | done].
    + by rewrite IH.
Qed.

(** Whatever its outcome, an update of the context buffer changes no
    other attribute. *)
Lemma update_context_buffer_fields (text : string) (st : monitor) :
  ∃ b, (_update_context_buffer text st).1 = set_context_buffer b st.
Proof.
  unfold _update_context_buffer.
  destruct (_ <? _); [destruct (trim_lines _ _) |]; simpl; eauto.
Qed.

(** C10 as stated fails where a bound is met. With [max_history_items]
    1 the second command takes the place of the first in the command
    history, which never grows beyond one entry; with [max_history_items]
    0 the command history stays empty; and with [max_context_size] 8 the
    rendered line is trimmed away as soon as it is added, so the context
    buffer stays empty. [session_data["commands"]] gains the entry every
    time, and every call returns. *)
Lemma log_command_counterexample :
  let ls := command_entry sample_lib 1000000 "ls" "/tmp" in
  let pwd := command_entry sample_lib 2000000 "pwd" "/tmp" in
  let call1 := log_command sample_lib 1000000 "ls" None (sample_monitor 8 1) in
  let call2 := log_command sample_lib 2000000 "pwd" None call1.1 in
  let call0 := log_command sample_lib 1000000 "ls" None (sample_monitor 100 0) in
  call1.2 = Ok tt
  ∧ dq_items (command_history call1.1) = [ls]
  ∧ context_buffer call1.1 = EmptyString
  ∧ call2.2 = Ok tt
  ∧ dq_items (command_history call2.1) = [pwd]
  ∧ subscript (session_data call2.1) "commands" = Ok (PList [ls; pwd])
  ∧ context_buffer call2.1 = EmptyString
  ∧ call0.2 = Ok tt
  ∧ dq_items (command_history call0.1) = []
  ∧ subscript (session_data call0.1) "commands" = Ok (PList [ls])
  ∧ context_buffer call0.1 = "[1] $ ls" +:+ nl.
Proof. repeat split; vm_compute; reflexivity. Qed.

(** C10, amended: a call of [log_command] on a monitor whose
    [session_data] holds a list under ["commands"] and whose command
    history is within its [maxlen] appends the new entry to
    [session_data["commands"]]. The command history becomes the last
    [maxlen] entries of the old history followed by the new entry: the
    old history and the entry while there is room, the old history
    without its oldest entry and then the entry when it was full, and the
    empty history when [maxlen] is 0. The output history, the other keys
    of [session_data] and the other attributes stay as they were. With a
    non-negative [max_context_size] the call returns, and the context
    buffer is the old buffer followed by the rendered line and a newline
    when that text is within [max_context_size]; otherwise it is that
    text without the least number of leading lines that brings it to at
    most 80% of [max_context_size]. *)
Theorem log_command_frame (py : PyLib) (now : Z) (cmd : string) (timestamp : option Z)
    (st : monitor) (d : list (string * pyval)) (l : list pyval) :
  session_data st = PDict d → alist_get "commands" d = Some (PList l) →
  (length (dq_items (command_history st)) ≤ dq_maxlen (command_history st))%nat →
  let entry := command_entry py (default now timestamp) cmd (current_directory st) in
  let line := "[" +:+ strftime_HMS py (default now timestamp) +:+ "] $ " +:+ cmd in
  let full := context_buffer st +:+ line +:+ nl in
  let lines := split_char newline full in
  let items := dq_items (command_history st) in
  let n := dq_maxlen (command_history st) in
  ∃ st' r d',
    log_command py now cmd timestamp st = (st', r)
    ∧ dq_maxlen (command_history st') = n
    ∧ dq_items (command_history st') = lastn n (items ++ [entry])
    ∧ ((length items < n)%nat → dq_items (command_history st') = items ++ [entry])
    ∧ ((length items = n)%nat → (0 < n)%nat →
       dq_items (command_history st') = drop 1 items ++ [entry])
    ∧ (n = 0%nat → dq_items (command_history st') = [])
    ∧ session_data st' = PDict d'
    ∧ alist_get "commands" d' = Some (PList (l ++ [entry]))
    ∧ (∀ k, k ≠ "commands" → alist_get k d' = alist_get k d)
    ∧ output_history st' = output_history st
    ∧ current_directory st' = current_directory st
    ∧ max_context_size st' = max_context_size st
    ∧ max_history_items st' = max_history_items st
    ∧ session_start st' = session_start st
    ∧ comprehensive_monitor st' = comprehensive_monitor st
    ∧ is_comprehensive_monitoring st' = is_comprehensive_monitoring st
    ∧ (0 <= max_context_size st →
       r = Ok tt
       ∧ str_suffix (context_buffer st') full
       ∧ (Z.of_nat (String.length full) <= max_context_size st → context_buffer st' = full)
       ∧ (max_context_size st < Z.of_nat (String.length full) →
          ∃ k, context_buffer st' = join nl (drop k lines)
               ∧ 5 * Z.of_nat (String.length (context_buffer st')) <= 4 * max_context_size st
               ∧ ∀ j, (j < k)%nat →
                   4 * max_context_size st
                   < 5 * Z.of_nat (String.length (join nl (drop j lines))))).
Proof.
  intros Hsd Hget Hlen entry line full lines items n.
  unfold log_command. step_method. unfold session_append. simpl. rewrite Hsd, Hget.
  fold entry. fold line.
  set (st2 := set_session_data _ _).
  destruct (update_context_buffer_fields line st2) as [b Hb].
  destruct (_update_context_buffer line st2) as [st' r] eqn:Hupd. simpl in Hb. subst st'.
  exists (set_context_buffer b st2), r, (alist_set "commands" (PList (l ++ [entry])) d).
  assert (dq_items (deque_append entry (command_history st)) = lastn n (items ++ [entry]))
    as Hitems.
  { apply deque_append_lastn. fold n items. symmetry. by apply lastn_all. }
  split; [done |]. split; [done |]. split; [exact Hitems |].
  split; [| split; [| split]].
  - intros Hroom. cbn. rewrite Hitems. apply lastn_all. rewrite length_app. simpl. lia.
  - intros Hfull Hpos. cbn. rewrite Hitems. unfold lastn. rewrite length_app. simpl.
    replace (length items + 1 - n)%nat with 1%nat by lia.
    apply drop_app_le. lia.
  - intros Hzero. cbn. rewrite Hitems, Hzero. unfold lastn. rewrite Nat.sub_0_r.
    apply drop_all.
  - split; [done |]. split; [apply alist_get_set_eq |].
    split; [intros k Hk; by apply alist_get_set_ne |].
    do 7 (split; [done |]).
    intros Hmcs.
    destruct (update_context_buffer_spec line st2) as (b' & Hb' & _ & Hsuf & Hfit & Htrim);
      [done |].
    rewrite Hupd in Hb'. injection Hb' as Hst <-.
    subst b'.
    split; [done |]. split; [exact Hsuf |]. split; [exact Hfit | exact Htrim].
Qed.

(** The instance of C10 for a third command in a monitor with room for
    two commands and twenty characters: the oldest command leaves the
    history, and the two oldest lines leave the buffer. *)
Lemma log_command_frame_witness :
  let ls := command_entry sample_lib 1000000 "ls" "/tmp" in
  let pwd := command_entry sample_lib 2000000 "pwd" "/tmp" in
  let make := command_entry sample_lib 3000000 "make" "/tmp" in
  dq_items (command_history two_command_session) = [ls; pwd]
  ∧ context_buffer two_command_session = "[1] $ ls" +:+ nl +:+ "[2] $ pwd" +:+ nl
  ∧ ∃ st' d',
      log_command sample_lib 3000000 "make" None two_command_session = (st', Ok tt)
      ∧ dq_items (command_history st') = [pwd; make]
      ∧ session_data st' = PDict d'
      ∧ alist_get "commands" d' = Some (PList [ls; pwd; make])
      ∧ alist_get "outputs" d' = Some (PList [])
      ∧ output_history st' = output_history two_command_session
      ∧ context_buffer st' = "[3] $ make" +:+ nl.
Proof.
  intros ls pwd make.
  split; [reflexivity |]. split; [reflexivity |].
  destruct (log_command_frame sample_lib 3000000 "make" None two_command_session
              [("start_time", PStr "0"); ("commands", PList [ls; pwd]); ("outputs", PList []);
               ("directory_changes", PList []); ("file_operations", PList [])] [ls; pwd])
    as (st' & r & d' & Hrun & _ & _ & _ & Hfull & _ & Hsd & Hcs & Hother & Hout
        & _ & _ & _ & _ & _ & _ & Hbuffer);
    [reflexivity | reflexivity | vm_compute; lia |].
  destruct Hbuffer as (-> & _ & _ & Htrim); [vm_compute; discriminate |].
  destruct Htrim as (k & Hk & Hwithin & Hleast);
    [apply Z.ltb_lt; vm_compute; reflexivity |].
  exists st', d'. split; [exact Hrun |].
  split; [rewrite Hfull by (vm_compute; lia); reflexivity |].
  split; [exact Hsd |]. split; [exact Hcs |].
  split; [rewrite Hother by discriminate; reflexivity |].
  split; [exact Hout |].
  rewrite Hk in Hwithin |- *.
  destruct k as [|[|[|k]]].
  - apply Z.leb_le in Hwithin. vm_compute in Hwithin. discriminate Hwithin.
  - apply Z.leb_le in Hwithin. vm_compute in Hwithin. discriminate Hwithin.
  - reflexivity.
  - specialize (Hleast 2%nat ltac:(lia)). apply Z.ltb_lt in Hleast. vm_compute in Hleast.
    discriminate Hleast.
Defined.

(** ** History lines *)

Lemma rstrip_idemp (s : string) : rstrip (rstrip s) = rstrip s.
Proof.
  induction s as [|c s IH]; [done |].
  simpl. destruct (rstrip s) as [|a r] eqn:E.
  - destruct (is_space c) eqn:Hc; [done |]. simpl. by rewrite Hc.
  - change (rstrip (String c (String a r))) with
      (match rstrip (String a r) with
       | EmptyString => if is_space c then EmptyString else String c EmptyString
       | r' => String c r'
       end).
    by rewrite IH.
Qed.

Lemma lstrip_head (s : string) : lstrip s = EmptyString ∨ starts_nonspace (lstrip s) = true.
Proof.
  induction s as [|c s IH]; [by left |].
  simpl. destruct (is_space c) eqn:Hc; [done |]. right. simpl. by rewrite Hc.
Qed.

Lemma rstrip_head (s : string) : starts_nonspace s = true → starts_nonspace (rstrip s) = true.
Proof.
  destruct s as [|c s]; [done |]. simpl. intros Hc.
  destruct (rstrip s); [| done]. destruct (is_space c) eqn:E; simpl in *; rewrite ?E; done.
Qed.

Lemma lstrip_id (s : string) : starts_nonspace s = true → lstrip s = s.
Proof. destruct s as [|c s]; [done |]. simpl. by destruct (is_space c). Qed.

(** A stripped string is not changed by stripping it again. *)
Lemma strip_idemp (s : string) : strip (strip s) = strip s.
Proof.
  unfold strip. destruct (lstrip_head s) as [-> | Hs]; [done |].
  rewrite (lstrip_id (rstrip (lstrip s)) (rstrip_head _ Hs)).
  apply rstrip_idemp.
Qed.

(** [partition_char] cuts at the first occurrence of the character. *)
Lemma partition_char_Some (c : ascii) (s pre post : string) :
  partition_char c s = Some (pre, post) ↔
  s = pre +:+ String c post ∧ ¬ In c (list_ascii_of_string pre).
Proof.
  revert pre post. induction s as [|a s IH]; intros pre post; simpl.
  - split; [done |]. intros [H _]. by destruct pre.
  - destruct (Ascii.eqb_spec a c) as [-> | Hne].
    + split.
      * intros [= <- <-]. split; [done | by intros []].
      * intros [H Hnot]. destruct pre as [|x pre]; simpl in *.
        -- by injection H as <-.
        -- injection H as <- _. exfalso. apply Hnot. by left.
    + split.
      * destruct (partition_char c s) as [[l r]|] eqn:E; [| done].
        intros [= <- <-]. destruct (proj1 (IH l r) eq_refl) as [-> Hnot].
        split; [done |]. simpl. intros [? | ?]; [done | by apply Hnot].
      * intros [H Hnot]. destruct pre as [|x pre]; simpl in *.
        -- by injection H as ? _.
        -- injection H as <- Hs.
           assert (partition_char c s = Some (pre, post)) as ->; [| done].
           apply IH. split; [done |]. intros Hin. apply Hnot. by right.
Qed.

Lemma partition_char_None (c : ascii) (s : string) :
  partition_char c s = None ↔ ¬ In c (list_ascii_of_string s).
Proof.
  induction s as [|a s IH]; simpl; [by split; [intros _ [] |] |].
  destruct (Ascii.eqb_spec a c) as [-> | Hne].
  - split; [done |]. intros H. exfalso. apply H. by left.
  - destruct (partition_char c s) as [[l r]|].
    + split; [done |]. intros H. exfalso.
      assert (¬ In c (list_ascii_of_string s)) as H' by (intros ?; apply H; by right).
      by apply IH in H'.
    + split; [| done]. intros _ [? | Hin]; [done |]. by apply (proj1 IH).
Qed.

(** The copies of the parsing step in terminal_monitor.py and
    activity_monitor.py compute what [_parse_history_line] does. *)
Lemma inline_line_command_eq (raw : string) :
  inline_line_command raw = history_line_command raw.
Proof.
  unfold inline_line_command, history_line_command, _parse_history_line.
  rewrite !strip_idemp. by destruct (split1 semicolon (strip raw)) as [|? [|? ?]].
Qed.

(** C2 as stated fails: the code strips the text after the semicolon, and
    queues nothing when nothing is left of it. *)
Lemma history_line_counterexample :
  nonempty ": 0:0; ls" = true
  ∧ startswith ": 0:0; ls" "#" = false
  ∧ spec_line_command ": 0:0; ls" = " ls"
  ∧ history_line_command ": 0:0; ls" = Some "ls"
  ∧ history_line_command ": 0:0; ls" ≠ Some (spec_line_command ": 0:0; ls")
  ∧ history_line_command ": 0:0;" = None.
Proof. repeat split; done. Qed.

(** C2, amended: the three sample lines parse as stated; for a line that
    is neither blank nor a comment after stripping, a line that starts
    with a colon and a space and has a semicolon gives the stripped text
    after its first semicolon, or no command when that is empty, and every
    other line gives the stripped line. *)
Theorem history_line_parsing (raw : string) :
  nonempty (strip raw) = true → startswith (strip raw) "#" = false →
  (∀ pre post,
      startswith (strip raw) ": " = true →
      strip raw = pre +:+ String semicolon post →
      ¬ In semicolon (list_ascii_of_string pre) →
      history_line_command raw
      = if nonempty (strip post) then Some (strip post) else None)
  ∧ (startswith (strip raw) ": " = false ∨ ¬ In semicolon (list_ascii_of_string (strip raw)) →
     history_line_command raw = Some (strip raw))
  ∧ inline_line_command raw = history_line_command raw
  ∧ history_line_command ": 1690000000:0;ls -la" = Some "ls -la"
  ∧ history_line_command "ls -la" = Some "ls -la"
  ∧ history_line_command "# note" = None.
Proof.
  intros Hne Hcomment.
  assert (history_line_command raw =
          let command := _parse_history_line (strip raw) in
          if nonempty command then Some command else None) as Hunfold.
  { unfold history_line_command. by rewrite Hne, Hcomment. }
  split; [| split; [| split; [apply inline_line_command_eq | done]]].
  - intros pre post Hzsh Hcut Hpre. rewrite Hunfold. unfold _parse_history_line, split1.
    rewrite Hzsh. by rewrite (proj2 (partition_char_Some semicolon (strip raw) pre post)).
  - intros Hother. rewrite Hunfold. unfold _parse_history_line, split1.
    destruct Hother as [-> | Hno].
    + simpl. by rewrite strip_idemp, Hne.
    + rewrite (proj2 (partition_char_None semicolon (strip raw)) Hno).
      destruct (startswith (strip raw) ": "); simpl; by rewrite strip_idemp, Hne.
Qed.

Lemma history_line_parsing_witness :
  (∀ pre post,
      startswith (strip "  : 0:0; ls ") ": " = true →
      strip "  : 0:0; ls " = pre +:+ String semicolon post →
      ¬ In semicolon (list_ascii_of_string pre) →
      history_line_command "  : 0:0; ls "
      = if nonempty (strip post) then Some (strip post) else None)
  ∧ history_line_command ": 1690000000:0;ls -la" = Some "ls -la".
Proof.
  destruct (history_line_parsing "  : 0:0; ls ") as (H1 & _ & _ & H4 & _);
    [reflexivity | reflexivity |].
  split; [exact H1 | exact H4].
Defined.

(** ** Repeated history lines *)

(** In [_read_new_history] (terminal_monitor.py) the second of two lines
    with the same command queues nothing. *)
Lemma read_history_suppresses_repeat (hms raw1 raw2 c : string) (q : deque cmd_event) :
  inline_line_command raw1 = Some c → inline_line_command raw2 = Some c →
  read_history_lines hms [raw1; raw2] q = read_history_lines hms [raw1] q.
Proof.
  intros H1 H2. simpl. rewrite H1, H2.
  set (e := {| ce_timestamp := hms; ce_command := c; ce_source := "history" |}).
  destruct (is_new_command c q) eqn:Hnew.
  - unfold is_new_command, deque_append. simpl.
    destruct (dq_maxlen q <? length (dq_items q ++ [e]))%nat eqn:Hlt; simpl.
    + destruct (dq_items q) as [|x items] eqn:Hq; simpl; [simpl in Hlt; by rewrite Hlt |].
      rewrite last_snoc. simpl. by rewrite String.eqb_refl.
    + rewrite last_snoc. simpl. by rewrite String.eqb_refl.
  - by rewrite Hnew.
Qed.

(** C3, the code at the failing input: [_process_history_update]
    (comprehensive_monitor.py) queues both of two identical lines, where
    [_read_new_history] (terminal_monitor.py) queues one. *)
Theorem comprehensive_history_repeats :
  commands_of (new_commands
    (_process_history_update "12:00:00" (Ok ["ls" +:+ nl; "ls" +:+ nl]) history_watcher_init))
  = ["ls"; "ls"]
  ∧ commands_of (commands
    (_read_new_history "12:00:00" (Ok ["ls" +:+ nl; "ls" +:+ nl]) history_monitor_init))
  = ["ls"].
Proof. split; reflexivity. Qed.

(** ** The stable sort *)

Section stable_sort.
Context {K A : Type} (le : K → K → bool).
Hypothesis le_total : ∀ a b, le a b = true ∨ le b a = true.
Hypothesis le_trans : ∀ a b c, le a b = true → le b c = true → le a c = true.

Lemma insert_by_perm (x : K * A) (l : list (K * A)) : insert_by le x l ≡ₚ x :: l.
Proof.
  induction l as [|y l IH]; simpl; [done |].
  destruct (le x.1 y.1); [done |]. rewrite IH. apply Permutation_swap.
Qed.

Lemma stable_sort_perm (l : list (K * A)) : stable_sort le l ≡ₚ l.
Proof.
  induction l as [|x l IH]; simpl; [done |]. by rewrite insert_by_perm, IH.
Qed.

Lemma insert_by_sorted (x : K * A) (l : list (K * A)) :
  StronglySorted (key_le le) l → StronglySorted (key_le le) (insert_by le x l).
Proof.
  induction l as [|y l IH]; intros Hl; simpl.
  - repeat constructor.
  - apply StronglySorted_inv in Hl as [Hl Hy].
    destruct (le x.1 y.1) eqn:Hxy.
    + constructor; [by constructor |]. constructor; [done |].
      eapply Forall_impl; [exact Hy |]. intros z Hz. by eapply le_trans.
    + constructor; [by apply IH |].
      rewrite insert_by_perm. constructor; [| done].
      unfold key_le. simpl. destruct (le_total x.1 y.1); [congruence | done].
Qed.

Lemma stable_sort_sorted (l : list (K * A)) : StronglySorted (key_le le) (stable_sort le l).
Proof.
  induction l as [|x l IH]; simpl; [constructor | by apply insert_by_sorted].
Qed.

(** Stability: the items a predicate on keys selects keep their order,
    when an item is never moved across one with a key [le] relates both
    ways. For a predicate that fixes the key this is the order of ties. *)
Lemma insert_by_stable (p : K → bool) (x : K * A) (l : list (K * A)) :
  (∀ a b, p a = true → p b = true → le a b = true) →
  List.filter (fun y => p y.1) (insert_by le x l) = List.filter (fun y => p y.1) (x :: l).
Proof.
  intros Hp. induction l as [|y l IH]; [done |].
  simpl insert_by. destruct (le x.1 y.1) eqn:Hxy; [done |].
  simpl in *. rewrite IH.
  destruct (p x.1) eqn:Hpx, (p y.1) eqn:Hpy; try done.
  by rewrite (Hp _ _ Hpx Hpy) in Hxy.
Qed.

Lemma stable_sort_stable (p : K → bool) (l : list (K * A)) :
  (∀ a b, p a = true → p b = true → le a b = true) →
  List.filter (fun y => p y.1) (stable_sort le l) = List.filter (fun y => p y.1) l.
Proof.
  intros Hp. induction l as [|x l IH]; [done |].
  simpl stable_sort. rewrite insert_by_stable by done. simpl. by rewrite IH.
Qed.

End stable_sort.

(** The sort of a list decorated with keys, read on the items. [D k x]
    says that [k] is the key of [x]. *)
Section decorated.
Context {K A : Type} (le : K → K → bool) (D : K → A → Prop).

Lemma sorted_undecorate (kl : list (K * A)) :
  Forall (fun y => D y.1 y.2) kl →
  StronglySorted (key_le le) kl → StronglySorted (keyed_le le D) (map snd kl).
Proof.
  induction kl as [|y kl IH]; intros HD Hs; simpl; [constructor |].
  apply Forall_cons in HD as [Hy HD]. apply StronglySorted_inv in Hs as [Hs Hall].
  constructor; [by apply IH |].
  apply Forall_map. rewrite Forall_forall in *. intros z Hz.
  exists y.1, z.1. split; [done |]. split; [by apply HD | by apply Hall].
Qed.

Lemma filter_undecorate (p : K → bool) (q : A → bool) (kl : list (K * A)) :
  Forall (fun y => q y.2 = p y.1) kl →
  List.filter q (map snd kl) = map snd (List.filter (fun y => p y.1) kl).
Proof.
  induction kl as [|y kl IH]; intros Hq; simpl; [done |].
  apply Forall_cons in Hq as [Hy Hq]. rewrite Hy, IH by done. by destruct (p y.1).
Qed.

End decorated.

Lemma StronglySorted_mono {A} (R R' : relation A) (l : list A) :
  (∀ x y, R x y → R' x y) → StronglySorted R l → StronglySorted R' l.
Proof.
  intros HR. induction 1 as [|x l Hl IH Hx]; constructor; [done |].
  eapply Forall_impl; [exact Hx | by intros; apply HR].
Qed.

Lemma StronglySorted_take {A} (R : relation A) (n : nat) (l : list A) :
  StronglySorted R l → StronglySorted R (take n l).
Proof. rewrite <- (take_drop n l) at 1. apply StronglySorted_app_1_l. Qed.

Lemma StronglySorted_drop {A} (R : relation A) (n : nat) (l : list A) :
  StronglySorted R l → StronglySorted R (drop n l).
Proof. rewrite <- (take_drop n l) at 1. apply StronglySorted_app_1_r. Qed.

(** ** The most used commands *)

Lemma sort_by_count_desc_sorted (items : list (string * nat)) :
  StronglySorted (fun x y => (y.2 ≤ x.2)%nat) (sort_by_count_desc items).
Proof.
  unfold sort_by_count_desc.
  set (kl := map (fun x : string * nat => (x.2, x)) items).
  assert (Forall (fun y : nat * (string * nat) => y.1 = y.2.2)
            (stable_sort (fun a b => (b <=? a)%nat) kl)) as HD.
  { rewrite stable_sort_perm. unfold kl. apply Forall_map. by apply Forall_forall. }
  eapply StronglySorted_mono;
    [| apply (sorted_undecorate (fun a b => (b <=? a)%nat) (fun k x => k = x.2) _ HD)].
  - intros x y (kx & ky & -> & -> & Hle). by apply Nat.leb_le.
  - apply stable_sort_sorted.
    + intros a b. rewrite !Nat.leb_le. lia.
    + intros a b c. rewrite !Nat.leb_le. lia.
Qed.

Lemma sort_by_count_desc_perm (items : list (string * nat)) :
  sort_by_count_desc items ≡ₚ items.
Proof.
  unfold sort_by_count_desc. rewrite stable_sort_perm, map_map. simpl. by rewrite map_id.
Qed.

(** Entries with the same count keep the order they have in the dict,
    which is the order in which their basenames were first seen. *)
Lemma sort_by_count_desc_ties (n : nat) (items : list (string * nat)) :
  List.filter (fun x => Nat.eqb x.2 n) (sort_by_count_desc items)
  = List.filter (fun x => Nat.eqb x.2 n) items.
Proof.
  unfold sort_by_count_desc.
  set (kl := map (fun x : string * nat => (x.2, x)) items).
  rewrite (filter_undecorate (fun k => Nat.eqb k n)).
  - rewrite (stable_sort_stable (fun a b => (b <=? a)%nat) (fun k => Nat.eqb k n) kl).
    + unfold kl. rewrite <- (filter_undecorate (fun k => Nat.eqb k n) (fun x => Nat.eqb x.2 n)).
      * by rewrite map_map, map_id.
      * apply Forall_map. by apply Forall_forall.
    + intros a b Ha%Nat.eqb_eq Hb%Nat.eqb_eq. subst. apply Nat.leb_refl.
  - rewrite stable_sort_perm. unfold kl. apply Forall_map. by apply Forall_forall.
Qed.

(** Whenever [_get_most_used_commands] returns, the list has at most 10
    entries in descending order of count. *)
Lemma most_used_commands_sorted (st : monitor) (r : list (string * nat)) :
  _get_most_used_commands st = Ok r →
  (length r ≤ 10)%nat ∧ StronglySorted (fun x y => (y.2 ≤ x.2)%nat) r.
Proof.
  unfold _get_most_used_commands.
  destruct (count_commands _ _) as [counts|]; simpl; [| done].
  intros [= <-]. split.
  - rewrite length_take. lia.
  - apply StronglySorted_take, sort_by_count_desc_sorted.
Qed.

(** C7, the code at the failing input: after a command of one space is
    logged, [_get_most_used_commands] raises [IndexError] and so does
    [get_session_summary]; for the three commands of the specification
    the list is as stated. *)
Theorem most_used_commands_blank_command :
  let blank := final_state sample_lib [(1000000, LogCommand " " None)] (sample_monitor 100 10) in
  let three := final_state sample_lib
                 [(1000000, LogCommand "git status" None);
                  (2000000, LogCommand "git pull" None);
                  (3000000, LogCommand "ls" None)] (sample_monitor 100 10) in
  _get_most_used_commands blank = raise IndexError "list index out of range"
  ∧ get_session_summary sample_lib 2000000 blank = raise IndexError "list index out of range"
  ∧ _get_most_used_commands three = Ok [("git", 2%nat); ("ls", 1%nat)].
Proof. repeat split; vm_compute; reflexivity. Qed.

(** ** Loading a session *)

Lemma deque_extend_lastn {A} (l : list A) (d : deque A) (log : list A) :
  dq_items d = lastn (dq_maxlen d) log →
  dq_items (deque_extend l d) = lastn (dq_maxlen d) (log ++ l)
  ∧ dq_maxlen (deque_extend l d) = dq_maxlen d.
Proof.
  revert d log. induction l as [|x l IH]; intros d log Hd; simpl.
  - by rewrite app_nil_r.
  - destruct (IH (deque_append x d) (log ++ [x])) as [Hitems Hmax].
    { rewrite deque_append_maxlen. by apply deque_append_lastn. }
    rewrite deque_append_maxlen in Hitems, Hmax.
    by rewrite <- app_assoc in Hitems.
Qed.

(** C8 as stated fails: a monitor with [max_history_items = 2] that loads
    a session file with three commands holds the last two of them, not the
    stored list. *)
Lemma load_session_counterexample :
  let loaded := load_session (Ok three_commands_file) (sample_monitor 100 2) in
  loaded.2 = Ok tt
  ∧ session_data loaded.1 = three_commands_file
  ∧ dq_items (command_history loaded.1) = drop 1 three_commands
  ∧ dq_items (command_history loaded.1) ≠ three_commands.
Proof. repeat split; done. Qed.

(** C8, amended: [load_session] never raises; when the file cannot be
    opened or parsed the state is left as it was; when it parses to an
    object whose [commands] and [outputs] are lists (a missing key counts
    as the empty list), [session_data] becomes that object and each
    history becomes the last [maxlen] entries of the stored list, the
    whole list when it has at most [maxlen] entries, nothing of the old
    histories remaining; the other attributes are unchanged. *)
Theorem load_session_replaces (st : monitor) :
  (∀ e, load_session (Raise e) st = (st, Ok tt))
  ∧ (∀ file, (load_session file st).2 = Ok tt)
  ∧ (∀ d cs os,
       get_or_empty_list (PDict d) "commands" = Ok (PList cs) →
       get_or_empty_list (PDict d) "outputs" = Ok (PList os) →
       let st' := (load_session (Ok (PDict d)) st).1 in
       session_data st' = PDict d
       ∧ dq_items (command_history st') = lastn (dq_maxlen (command_history st)) cs
       ∧ dq_items (output_history st') = lastn (dq_maxlen (output_history st)) os
       ∧ ((length cs ≤ dq_maxlen (command_history st))%nat → dq_items (command_history st') = cs)
       ∧ ((length os ≤ dq_maxlen (output_history st))%nat → dq_items (output_history st') = os)
       ∧ dq_maxlen (command_history st') = dq_maxlen (command_history st)
       ∧ dq_maxlen (output_history st') = dq_maxlen (output_history st)
       ∧ context_buffer st' = context_buffer st
       ∧ current_directory st' = current_directory st
       ∧ max_context_size st' = max_context_size st
       ∧ max_history_items st' = max_history_items st).
Proof.
  split; [done |]. split.
  { intros file. unfold load_session, try_log.
    by destruct (load_session_body file st) as [? [[]|]]. }
  intros d cs os Hcs Hos st'.
  assert (st' = set_output_history (deque_extend os)
                  (set_command_history (deque_extend cs)
                     (set_output_history deque_clear
                        (set_command_history deque_clear (set_session_data (PDict d) st)))))
    as ->.
  { unfold st', load_session, try_log, load_session_body. step_method.
    simpl in Hcs, Hos. rewrite Hcs. simpl. unfold extend_history. step_method. rewrite Hos. by simpl. }
  cbn.
  destruct (deque_extend_lastn cs (deque_clear (command_history st)) []) as [Hc Hcm]; [done |].
  destruct (deque_extend_lastn os (deque_clear (output_history st)) []) as [Ho Hom]; [done |].
  simpl in Hc, Hcm, Ho, Hom. rewrite Hc, Hcm, Ho, Hom.
  repeat split; try done; intros; by apply lastn_all.
Qed.

(** The instance of C8 for the file with three commands. *)
Lemma load_session_replaces_witness :
  let st' := (load_session (Ok three_commands_file) (sample_monitor 100 2)).1 in
  session_data st' = three_commands_file
  ∧ dq_items (command_history st') = lastn 2 three_commands.
Proof.
  destruct (load_session_replaces (sample_monitor 100 2)) as (_ & _ & H).
  destruct (H [("start_time", PStr "0"); ("commands", PList three_commands);
               ("outputs", PList []); ("directory_changes", PList []);
               ("file_operations", PList [])] three_commands [])
    as (H1 & H2 & _); [reflexivity | reflexivity |].
  split; [exact H1 | exact H2].
Defined.

(** ** The recent context *)

Lemma filter_recent_Ok (py : PyLib) (cutoff_time : Z) (l r : list pyval) :
  filter_recent py cutoff_time l = Ok r ↔
  Forall (fun e => ∃ b, is_recent py cutoff_time e = Ok b) l
  ∧ r = List.filter (recent_bool py cutoff_time) l.
Proof.
  revert r. induction l as [|e l IH]; intros r; simpl.
  - split; [by intros [= <-] | by intros [_ ->]].
  - unfold recent_bool at 1.
    destruct (is_recent py cutoff_time e) as [b|err] eqn:He; simpl.
    + destruct (filter_recent py cutoff_time l) as [r'|err] eqn:Hl; simpl.
      * destruct (proj1 (IH r') eq_refl) as [Hall ->].
        split.
        -- intros [= <-]. split; [constructor; eauto | by destruct b].
        -- intros [_ ->]. by destruct b.
      * split; [done |]. intros [Hall _]. apply Forall_cons in Hall as [_ Hall].
        by pose proof (proj2 (IH _) (conj Hall eq_refl)).
    + split; [done |]. intros [Hall _]. apply Forall_cons in Hall as [[b Hb] _]. congruence.
Qed.

Lemma is_recent_true (py : PyLib) (cutoff_time : Z) (e : pyval) :
  recent_bool py cutoff_time e = true →
  ∃ s t, subscript e "timestamp" = Ok (PStr s) ∧ fromisoformat py s = Some t ∧ cutoff_time <= t.
Proof.
  unfold recent_bool, is_recent.
  destruct (subscript e "timestamp") as [[| | | |s| |]|]; simpl; try done.
  destruct (fromisoformat py s) as [t|] eqn:Ht; simpl; [| done].
  intros H%Z.leb_le. by exists s, t.
Qed.

Lemma with_keys_Ok {K A} (key : A → result K) (l : list A) (kl : list (K * A)) :
  with_keys key l = Ok kl → map snd kl = l ∧ Forall (fun y => key y.2 = Ok y.1) kl.
Proof.
  revert kl. induction l as [|x l IH]; intros kl; simpl.
  - by intros [= <-].
  - destruct (key x) as [k|] eqn:Hk; simpl; [| done].
    destruct (with_keys key l) as [kl'|]; simpl; [| done].
    intros [= <-]. destruct (IH kl' eq_refl) as [<- Hall]. by split; [| constructor].
Qed.

Lemma with_keys_total {K A} (key : A → result K) (l : list A) :
  Forall (fun x => ∃ k, key x = Ok k) l → ∃ kl, with_keys key l = Ok kl.
Proof.
  induction 1 as [|x l [k Hk] _ [kl IH]]; simpl; [eauto |].
  rewrite Hk, IH. simpl. eauto.
Qed.

Lemma render_entries_Ok (py : PyLib) (l : list (entry_type * pyval)) (parts : list pyval) :
  render_entries py l = Ok parts ↔ Forall2 (fun x p => render_entry py x = Ok p) l parts.
Proof.
  revert parts. induction l as [|x l IH]; intros parts; simpl.
  - split; [intros [= <-]; constructor | by intros ->%Forall2_nil_inv_l].
  - destruct (render_entry py x) as [p|e] eqn:Hx; simpl.
    + destruct (render_entries py l) as [ps|e] eqn:Hl; simpl.
      * split.
        -- intros [= <-]. constructor; [done | by apply IH].
        -- intros (p' & ps' & Hp & Hps & ->)%Forall2_cons_inv_l.
           apply IH in Hps. congruence.
      * split; [done |].
        intros (p' & ps' & Hp & Hps & ->)%Forall2_cons_inv_l. by apply IH in Hps.
    + split; [done |]. intros (p' & ps' & Hp & _)%Forall2_cons_inv_l. congruence.
Qed.

Lemma leb_refl (s : string) : String.leb s s = true.
Proof. by destruct (String.leb_total s s). Qed.

Lemma leb_trans (a b c : string) :
  String.leb a b = true → String.leb b c = true → String.leb a c = true.
Proof.
  intros Hab Hbc. apply Is_true_true.
  apply (transitivity (R := String.le) (y := b)); by apply Is_true_true.
Qed.

Lemma sort_by_timestamp_Ok (l sorted : list (entry_type * pyval)) :
  sort_by_timestamp l = Ok sorted →
  sorted ≡ₚ l
  ∧ StronglySorted timestamp_le sorted
  ∧ ∀ k, List.filter (has_timestamp k) sorted = List.filter (has_timestamp k) l.
Proof.
  unfold sort_by_timestamp.
  destruct (with_keys timestamp_key l) as [kl|] eqn:Hkl; simpl; [| done].
  intros [= <-]. apply with_keys_Ok in Hkl as [<- HD].
  assert (Forall (fun y : string * (entry_type * pyval) => timestamp_key y.2 = Ok y.1)
            (stable_sort String.leb kl)) as HD' by by rewrite stable_sort_perm.
  split; [by rewrite stable_sort_perm |]. split.
  - apply (sorted_undecorate String.leb (fun k x => timestamp_key x = Ok k) _ HD').
    apply stable_sort_sorted; [apply String.leb_total | apply leb_trans].
  - intros k.
    assert (∀ kl', Forall (fun y : string * (entry_type * pyval) =>
                             timestamp_key y.2 = Ok y.1) kl' →
                   Forall (fun y : string * (entry_type * pyval) =>
                             has_timestamp k y.2 = String.eqb y.1 k) kl') as Hq.
    { intros kl' H. eapply Forall_impl; [exact H |].
      intros y Hy. unfold has_timestamp. by rewrite Hy. }
    rewrite !(filter_undecorate (fun k' => String.eqb k' k) (has_timestamp k)) by by apply Hq.
    rewrite (stable_sort_stable String.leb (fun k' => String.eqb k' k) kl); [done |].
    intros a b ->%String.eqb_eq ->%String.eqb_eq. apply leb_refl.
Qed.

Lemma sort_by_timestamp_total (l : list (entry_type * pyval)) :
  Forall (fun x => ∃ k, timestamp_key x = Ok k) l → ∃ sorted, sort_by_timestamp l = Ok sorted.
Proof.
  intros [kl Hkl]%with_keys_total. unfold sort_by_timestamp. rewrite Hkl. simpl. eauto.
Qed.

Lemma render_entry_str (py : PyLib) (x : entry_type * pyval) (line : string) :
  render_entry py x = Ok (PStr line) → rendered_as py x line.
Proof.
  unfold render_entry, rendered_as. destruct x.1.
  - destruct (subscript x.2 "command") as [c|]; simpl; [| done].
    intros [= <-]. by exists c.
  - destruct (subscript x.2 "output") as [o|]; simpl; [| done].
    destruct (py_len o) as [n|] eqn:Hn; simpl; [| done].
    destruct o as [| | | |s| |]; simpl in Hn; try done; injection Hn as <-.
    + exists s. split; [done |]. destruct (500 <? String.length s)%nat; congruence.
    + destruct (500 <? length l)%nat; done.
    + destruct (500 <? length d)%nat; done.
Qed.

Lemma render_entry_readable (py : PyLib) (x : entry_type * pyval) :
  readable py x → ∃ line, render_entry py x = Ok (PStr line).
Proof.
  unfold render_entry, readable. intros [_ H]. destruct x.1.
  - destruct H as [c ->]. simpl. eauto.
  - destruct H as [o ->]. simpl. destruct (500 <? String.length o)%nat; eauto.
Qed.

Lemma strs_of_Ok (parts : list pyval) (strs : list string) :
  strs_of parts = Ok strs ↔ parts = map PStr strs.
Proof.
  revert strs. induction parts as [|p parts IH]; intros strs; simpl.
  - split; [by intros [= <-] | by destruct strs].
  - destruct p as [| | | |s| |]; try (split; [done | by destruct strs]).
    destruct (strs_of parts) as [r|] eqn:Hr; simpl.
    + split.
      * intros [= <-]. simpl. f_equal. by apply IH.
      * destruct strs as [|s' strs]; [done |]. simpl. intros [= -> H].
        apply IH in H. congruence.
    + split; [done |]. destruct strs as [|s' strs]; [done |]. simpl. intros [= -> H].
      by apply IH in H.
Qed.

Lemma map_PStr_inj (l k : list string) : map PStr l = map PStr k → l = k.
Proof.
  revert k. induction l as [|x l IH]; intros [|y k]; simpl; try done.
  intros [= -> H]. f_equal. by apply IH.
Qed.

Lemma Forall2_map_r {A B C} (P : A → C → Prop) (f : B → C) (l : list A) (k : list B) :
  Forall2 P l (map f k) → Forall2 (fun x y => P x (f y)) l k.
Proof.
  revert l. induction k as [|y k IH]; intros l; simpl.
  - intros ->%Forall2_nil_inv_r. constructor.
  - intros (x & l' & Hx & Hl & ->)%Forall2_cons_inv_r. constructor; [done | by apply IH].
Qed.

Lemma preamble_strs (existing_content : string) (st : monitor) :
  preamble existing_content st = map PStr (preamble_lines existing_content st).
Proof. unfold preamble, preamble_lines. by destruct (String.eqb _ _). Qed.

Lemma recent_entries_Ok (py : PyLib) (cutoff_time : Z) (st : monitor)
    (entries : list (entry_type * pyval)) :
  recent_entries py cutoff_time st = Ok entries →
  ∃ all_entries sorted,
    all_entries
    = map (pair command) (List.filter (recent_bool py cutoff_time) (dq_items (command_history st)))
      ++ map (pair output) (List.filter (recent_bool py cutoff_time) (dq_items (output_history st)))
    ∧ sorted ≡ₚ all_entries
    ∧ StronglySorted timestamp_le sorted
    ∧ (∀ k, List.filter (has_timestamp k) sorted = List.filter (has_timestamp k) all_entries)
    ∧ entries = py_last_n 20 sorted.
Proof.
  unfold recent_entries.
  destruct (filter_recent py cutoff_time (dq_items (command_history st))) as [rc|] eqn:Hc;
    simpl; [| done].
  destruct (filter_recent py cutoff_time (dq_items (output_history st))) as [ro|] eqn:Ho;
    simpl; [| done].
  apply filter_recent_Ok in Hc as [_ ->]. apply filter_recent_Ok in Ho as [_ ->].
  destruct (sort_by_timestamp _) as [sorted|] eqn:Hs; simpl; [| done].
  intros [= <-]. apply sort_by_timestamp_Ok in Hs as (Hperm & Hsorted & Hties).
  by eexists _, sorted.
Qed.

Lemma all_entries_recent (py : PyLib) (cutoff_time : Z) (cs os : list pyval) :
  Forall (fun x : entry_type * pyval => recent_bool py cutoff_time x.2 = true)
    (map (pair command) (List.filter (recent_bool py cutoff_time) cs)
     ++ map (pair output) (List.filter (recent_bool py cutoff_time) os)).
Proof.
  apply Forall_app. split; apply Forall_map, Forall_forall; intros e He;
    apply list_elem_of_In, filter_In in He; tauto.
Qed.

Lemma recent_bool_not_older (py : PyLib) (cutoff_time : Z) (e : pyval) :
  recent_bool py cutoff_time e = not_older py cutoff_time e.
Proof.
  unfold recent_bool, is_recent, not_older, entry_time, subscript.
  destruct e as [| | | | | |d]; try reflexivity.
  destruct (alist_get "timestamp" d) as [[| | | |s| |]|]; try reflexivity.
  simpl. by destruct (fromisoformat py s).
Qed.

Lemma filter_not_older (py : PyLib) (cutoff_time : Z) (l : list pyval) :
  List.filter (recent_bool py cutoff_time) l = List.filter (not_older py cutoff_time) l.
Proof. apply filter_ext. intros e. apply recent_bool_not_older. Qed.

Lemma entry_time_Some (py : PyLib) (e : pyval) (t : Z) :
  entry_time py e = Some t ↔
  ∃ s, subscript e "timestamp" = Ok (PStr s) ∧ fromisoformat py s = Some t.
Proof.
  unfold entry_time, subscript, raise. destruct e as [| | | | | |d];
    try (split; [intros [=] | intros (? & [=] & _)]; fail).
  destruct (alist_get "timestamp" d) as [[| | | |s| |]|];
    try (split; [intros [=] | intros (? & [=] & _)]; fail).
  split; [by exists s | by intros (s' & [= ->] & ?)].
Qed.

Lemma StronglySorted_mono_in {A} (R R' : relation A) (l : list A) :
  (∀ x y, x ∈ l → y ∈ l → R x y → R' x y) → StronglySorted R l → StronglySorted R' l.
Proof.
  intros Himpl Hl. induction Hl as [|x l Hl IH Hx]; constructor.
  - apply IH. intros a b Ha Hb. apply Himpl; by right.
  - apply Forall_forall. intros y Hy. apply Himpl; [by left | by right |].
    by apply (proj1 (Forall_forall _ _) Hx).
Qed.

(** When the minutes make a [timedelta] and the cutoff is a [datetime]
    the cutoff is [minutes] minutes before [now]; otherwise the
    subtraction raises [OverflowError]. *)
Lemma cutoff_before_spec (now minutes : Z) :
  (cutoff_in_range now minutes → cutoff_before now minutes = Ok (now - minutes * minute))
  ∧ (¬ cutoff_in_range now minutes →
     ∃ e, cutoff_before now minutes = Raise e ∧ exn_cls e = OverflowError).
Proof.
  unfold cutoff_in_range, cutoff_before, timedelta_minutes, datetime_sub.
  destruct (Z.ltb_spec (minutes / 1440) (-2147483648)); simpl.
  { split; [lia | intros _; eexists; split; reflexivity]. }
  destruct (Z.ltb_spec 2147483647 (minutes / 1440)); simpl.
  { split; [lia | intros _; eexists; split; reflexivity]. }
  destruct (Z.ltb_spec (minutes / 1440) (-999999999)); simpl.
  { split; [lia | intros _; eexists; split; reflexivity]. }
  destruct (Z.ltb_spec 999999999 (minutes / 1440)); simpl.
  { split; [lia | intros _; eexists; split; reflexivity]. }
  destruct (Z.ltb_spec (now - minutes * minute) datetime_min); simpl.
  { split; [lia | intros _; eexists; split; reflexivity]. }
  destruct (Z.ltb_spec datetime_max (now - minutes * minute)); simpl.
  { split; [lia | intros _; eexists; split; reflexivity]. }
  split; [done | intros Hn; exfalso; apply Hn; lia].
Qed.

(** C4 as stated fails, in four ways. With comprehensive monitoring
    on, as [__init__] leaves it where the comprehensive monitor starts,
    the call returns the comprehensive context: here the 21 command lines
    the coordinator has collected, none of them selected by time, where
    the recent rendering of the same monitor has no entry. Without it, an
    output and a command logged in this order with the same timestamp are
    rendered as the command and then the output: a tie is not broken by
    the order of insertion. And the entries are sorted by their timestamp
    strings: in a loaded session the command of ten o'clock, written with
    a space, is rendered before the command of nine o'clock. A call, at
    last, whose cutoff would lie before the year 1 renders nothing: it
    raises [OverflowError]. *)
Lemma get_context_counterexample :
  ((st0 ← init sample_lib 0 "/tmp" (CompStarted (start_monitoring None comp_init)) 10000 100;
    Ok (comprehensive_step (process_history_data nine_o_clock_commands) st0))
   = Ok sample_monitor_comprehensive
   ∧ get_context sample_lib sample_env None EmptyString 54000000000 true 30
       sample_monitor_comprehensive
     = Ok (get_comprehensive_context sample_env 100 sample_comprehensive)
   ∧ count_lines "[09:00:00] $ make" (get_comprehensive_context sample_env 100 sample_comprehensive)
     = 21%nat
   ∧ basic_context sample_lib EmptyString 54000000000 true 30 sample_monitor_comprehensive
     = Ok ("Current directory: /tmp" +:+ nl +:+ "Recent activity (last 30 minutes):")
   ∧ get_context sample_lib sample_env None EmptyString 54000000000 true 30
       sample_monitor_comprehensive
     ≠ basic_context sample_lib EmptyString 54000000000 true 30 sample_monitor_comprehensive)
  ∧ (context_buffer tie_session = "x" +:+ nl +:+ "[10:00:00] $ ls" +:+ nl
     ∧ get_context iso_lib sample_env None EmptyString (on_2024_01_01 10 20) true 30 tie_session
       = Ok ("Current directory: /tmp" +:+ nl +:+ "Recent activity (last 30 minutes):" +:+ nl
             +:+ "$ ls" +:+ nl +:+ "x"))
  ∧ (map (entry_time iso_lib) (dq_items (command_history foreign_session))
     = [Some (on_2024_01_01 9 0); Some (on_2024_01_01 10 0)]
     ∧ get_context iso_lib sample_env None EmptyString (on_2024_01_01 10 20) true 120
         foreign_session
       = Ok ("Current directory: /tmp" +:+ nl +:+ "Recent activity (last 120 minutes):" +:+ nl
             +:+ "$ b" +:+ nl +:+ "$ a"))
  ∧ get_context iso_lib sample_env None EmptyString (on_2024_01_01 10 20) true 1100000000
      morning_session
    = raise OverflowError "date value out of range".
Proof. repeat split; vm_compute; done. Qed.

(** C4, amended: with comprehensive monitoring on, [get_context] returns
    the comprehensive context whatever its arguments are, and goes on with
    the basic context when that call raises. Without it, the call with
    [include_recent_only] raises [OverflowError] when [minutes] minutes
    before the call is no [datetime]; otherwise a call that returns
    renders, below the preamble, only commands and outputs whose time is
    not before the cutoff: the last 20 of these entries sorted by their
    timestamp strings in ascending order, entries with the same timestamp
    string staying in the order commands before outputs and otherwise
    that of the histories; a command as [$ ] and its text, an output as
    its text, cut to 500 characters and three dots when it is longer.
    Where the timestamp strings order as their times do, the entries are
    in ascending order of time. The call returns whenever the cutoff is a
    [datetime] and the entries of both histories are readable. *)
Theorem recent_context_rendering (py : PyLib) (env : os_env) (getcwd_error : option exn)
    (existing_content : string) (now minutes : Z) (st : monitor) :
  let cutoff_time := now - minutes * minute in
  let cs := dq_items (command_history st) in
  let os := dq_items (output_history st) in
  (∀ cm b, is_comprehensive_monitoring st = true → comprehensive_monitor st = Some cm →
           get_context py env None existing_content now b minutes st
           = Ok (get_comprehensive_context env 100 cm)
           ∧ ∀ e, get_context py env (Some e) existing_content now b minutes st
                  = basic_context py existing_content now b minutes st)
  ∧ (is_comprehensive_monitoring st = false ∨ comprehensive_monitor st = None →
     get_context py env getcwd_error existing_content now true minutes st
     = basic_context py existing_content now true minutes st)
  ∧ (¬ cutoff_in_range now minutes →
     ∃ e, basic_context py existing_content now true minutes st = Raise e
          ∧ exn_cls e = OverflowError)
  ∧ (cutoff_in_range now minutes →
     (∀ text,
        basic_context py existing_content now true minutes st = Ok text →
        ∃ all_entries sorted entries lines,
          all_entries
          = map (pair command) (List.filter (not_older py cutoff_time) cs)
            ++ map (pair output) (List.filter (not_older py cutoff_time) os)
          ∧ sorted ≡ₚ all_entries
          ∧ StronglySorted timestamp_le sorted
          ∧ (∀ k, List.filter (has_timestamp k) sorted
                  = List.filter (has_timestamp k) all_entries)
          ∧ (strings_order_as_times py (cs ++ os) → StronglySorted (time_le py) sorted)
          ∧ entries = py_last_n 20 sorted
          ∧ entries = lastn 20 sorted
          ∧ (length entries ≤ 20)%nat
          ∧ StronglySorted timestamp_le entries
          ∧ Forall (fun x => ∃ t, entry_time py x.2 = Some t ∧ cutoff_time <= t) entries
          ∧ Forall2 (rendered_as py) entries lines
          ∧ text = join nl (preamble_lines existing_content st
                            ++ ["Recent activity (last " +:+ str_of_Z minutes +:+ " minutes):"]
                            ++ lines))
     ∧ (Forall (fun e => readable py (command, e)) cs →
        Forall (fun e => readable py (output, e)) os →
        ∃ text, basic_context py existing_content now true minutes st = Ok text)).
Proof.
  intros cutoff_time cs os. split; [| split; [| split; [| intros Hrange; split]]].
  - intros cm b Hon Hcm. unfold get_context. rewrite Hon, Hcm. simpl. split; [done |].
    intros e. done.
  - intros Hbasic. unfold get_context. destruct Hbasic as [-> | ->]; [done |].
    by destruct (is_comprehensive_monitoring st).
  - intros Hrange. destruct (proj2 (cutoff_before_spec now minutes) Hrange) as (e & He & Hcls).
    exists e. unfold basic_context. by rewrite He.
  - intros text. unfold basic_context.
    rewrite (proj1 (cutoff_before_spec now minutes) Hrange). simpl. fold cutoff_time.
    destruct (recent_entries py cutoff_time st) as [entries|] eqn:He; simpl; [| done].
    destruct (render_entries py entries) as [rendered|] eqn:Hr; simpl; [| done].
    unfold py_join.
    destruct (strs_of _) as [strs|] eqn:Hstrs; simpl; [| done].
    intros [= <-].
    apply recent_entries_Ok in He as (all_entries & sorted & Hall & Hperm & Hsorted & Hties & ->).
    rewrite !filter_not_older in Hall. fold cs os in Hall.
    apply strs_of_Ok in Hstrs. rewrite preamble_strs in Hstrs.
    set (header := "Recent activity (last " +:+ str_of_Z minutes +:+ " minutes):") in *.
    assert (∃ lines, strs = preamble_lines existing_content st ++ [header] ++ lines
                     ∧ rendered = map PStr lines) as (lines & -> & ->).
    { exists (drop (length (preamble_lines existing_content st ++ [header])) strs).
      replace (map PStr (preamble_lines existing_content st) ++ PStr header :: rendered)
        with (map PStr (preamble_lines existing_content st ++ [header]) ++ rendered) in Hstrs
        by (by rewrite map_app, <- app_assoc).
      set (pre := preamble_lines existing_content st ++ [header]) in *.
      assert (take (length pre) (map PStr strs) = map PStr pre
              ∧ drop (length pre) (map PStr strs) = rendered) as [Ht Hd].
      { rewrite <- Hstrs. rewrite <- (length_map PStr pre).
        by rewrite take_app_length, drop_app_length. }
      rewrite firstn_map in Ht. rewrite skipn_map in Hd.
      apply map_PStr_inj in Ht.
      split; [| done]. rewrite app_assoc. fold pre.
      rewrite <- Ht at 1. by rewrite take_drop. }
    assert (Forall (fun x : entry_type * pyval =>
                      x.2 ∈ cs ++ os ∧ ∃ t, entry_time py x.2 = Some t ∧ cutoff_time <= t)
              sorted) as Hin.
    { rewrite Hperm, Hall. apply Forall_app.
      split; apply Forall_map, Forall_forall; intros e He;
        apply list_elem_of_In, filter_In in He as [He Hq]; apply list_elem_of_In in He;
        (split; [apply elem_of_app; auto |]); simpl;
        unfold not_older in Hq; destruct (entry_time py e) as [t|]; try done;
        exists t; (split; [done | by apply Z.leb_le]). }
    exists all_entries, sorted, (py_last_n 20 sorted), lines.
    split; [done |]. split; [done |]. split; [done |]. split; [done |].
    split.
    { intros Horder. eapply StronglySorted_mono_in; [| exact Hsorted].
      intros x y Hx Hy (kx & ky & Hkx & Hky & Hle).
      rewrite Forall_forall in Hin.
      destruct (Hin x Hx) as (Hxin & tx & Htx & _).
      destruct (Hin y Hy) as (Hyin & ty & Hty & _).
      exists tx, ty. split; [done |]. split; [done |].
      apply entry_time_Some in Htx as Htx'. destruct Htx' as (sx & Hsx & Hfx).
      apply entry_time_Some in Hty as Hty'. destruct Hty' as (sy & Hsy & Hfy).
      unfold timestamp_key in Hkx, Hky. rewrite Hsx in Hkx. rewrite Hsy in Hky.
      simpl in Hkx, Hky. injection Hkx as <-. injection Hky as <-.
      by apply (Horder x.2 y.2 sx sy tx ty). }
    split; [done |].
    split; [apply py_last_n_lastn; lia |].
    split; [unfold py_last_n; rewrite length_drop; lia |].
    split; [by apply StronglySorted_drop |].
    split.
    + apply Forall_py_last_n. eapply Forall_impl; [exact Hin |]. by intros x [_ ?].
    + split; [| done].
      apply render_entries_Ok in Hr. apply Forall2_map_r in Hr.
      eapply Forall2_impl; [exact Hr |]. intros x line Hx. by apply render_entry_str.
  - intros Hcs Hos. unfold basic_context, recent_entries.
    rewrite (proj1 (cutoff_before_spec now minutes) Hrange). simpl. fold cutoff_time cs os.
    assert (∀ (ty : entry_type) l,
              Forall (fun e => readable py (ty, e)) l →
              Forall (fun e => ∃ b, is_recent py cutoff_time e = Ok b) l) as Hrecent.
    { intros ty l Hl. eapply Forall_impl; [exact Hl |]. intros e [(s & t & Hs & Ht) _].
      unfold is_recent. simpl in Hs. rewrite Hs. simpl. rewrite Ht. eauto. }
    rewrite (proj2 (filter_recent_Ok py cutoff_time cs _) (conj (Hrecent _ _ Hcs) eq_refl)).
    rewrite (proj2 (filter_recent_Ok py cutoff_time os _) (conj (Hrecent _ _ Hos) eq_refl)).
    simpl.
    set (all_entries := map (pair command) _ ++ map (pair output) _).
    assert (Forall (readable py) all_entries) as Hread.
    { apply Forall_app. split; apply Forall_map, Forall_forall; intros e He;
        apply list_elem_of_In, filter_In in He as [He _]; apply list_elem_of_In in He.
      - by apply (proj1 (Forall_forall _ _) Hcs).
      - by apply (proj1 (Forall_forall _ _) Hos). }
    destruct (sort_by_timestamp_total all_entries) as [sorted Hs].
    { eapply Forall_impl; [exact Hread |]. intros x [(s & t & Hs & _) _].
      unfold timestamp_key. rewrite Hs. simpl. eauto. }
    rewrite Hs. simpl.
    apply sort_by_timestamp_Ok in Hs as (Hperm & _).
    assert (Forall (readable py) (py_last_n 20 sorted)) as Hread'.
    { apply Forall_py_last_n. by rewrite Hperm. }
    assert (∃ lines, render_entries py (py_last_n 20 sorted) = Ok (map PStr lines))
      as [lines ->].
    { induction Hread' as [|x l Hx _ [lines IH]]; [by exists [] |].
      destruct (render_entry_readable py x Hx) as [line Hline].
      exists (line :: lines). simpl. by rewrite Hline, IH. }
    simpl. unfold py_join. rewrite preamble_strs.
    set (header := "Recent activity (last " +:+ str_of_Z minutes +:+ " minutes):").
    rewrite (proj2 (strs_of_Ok _ (preamble_lines existing_content st ++ header :: lines)));
      [simpl; eauto | by rewrite map_app].
Qed.

(** The instance of C4 for the morning session at half past ten, with a
    window of thirty minutes: the command of nine o'clock is left out, the
    command and the output of ten o'clock, which are on the cutoff, are
    kept, and the command stamped ten past ten comes last. *)
Lemma recent_context_rendering_witness :
  get_context iso_lib sample_env None EmptyString (on_2024_01_01 10 30) true 30 morning_session
  = basic_context iso_lib EmptyString (on_2024_01_01 10 30) true 30 morning_session
  ∧ basic_context iso_lib EmptyString (on_2024_01_01 10 30) true 30 morning_session
    = Ok ("Current directory: /tmp" +:+ nl +:+ "Recent activity (last 30 minutes):" +:+ nl
          +:+ "$ make" +:+ nl +:+ "ok" +:+ nl +:+ "$ pwd")
  ∧ ∃ e, basic_context iso_lib EmptyString (on_2024_01_01 10 30) true 1100000000 morning_session
         = Raise e ∧ exn_cls e = OverflowError.
Proof.
  destruct (recent_context_rendering iso_lib sample_env None EmptyString (on_2024_01_01 10 30) 30
              morning_session) as (_ & H2 & _ & H4).
  destruct H4 as [_ Hreturns].
  { unfold cutoff_in_range. repeat split; apply Z.leb_le; vm_compute; reflexivity. }
  split; [apply H2; left; reflexivity |]. split.
  - destruct Hreturns as [text Htext].
    + vm_compute. repeat (apply Forall_cons_2); try apply Forall_nil_2;
        (split; [eexists _, _; split; reflexivity | eexists; reflexivity]).
    + vm_compute. repeat (apply Forall_cons_2); try apply Forall_nil_2;
        (split; [eexists _, _; split; reflexivity | eexists; reflexivity]).
    + rewrite Htext. revert Htext. vm_compute. by intros [= <-].
  - apply (proj1 (proj2 (proj2 (recent_context_rendering iso_lib sample_env None EmptyString
                                  (on_2024_01_01 10 30) 1100000000 morning_session)))).
    unfold cutoff_in_range. intros [_ [H _]]. apply Z.leb_le in H. vm_compute in H.
    discriminate H.
Defined.

(** ** Process snapshots *)




(** *** ProcessWatcher *)

Lemma watcher_scan_spec (hms : string) (procs : list proc_info) (current_pids : gset Z)
    (w : process_watcher) :
  watcher_readable (known_pids w) procs →
  watcher_scan hms procs current_pids w
  = ({| new_processes :=
          deque_extend (map (started_event hms) (watcher_new (known_pids w) procs))
            (new_processes w);
        known_pids := known_pids w;
        process_cache :=
          fold_left (fun c p => <[pi_pid p := p]> c) (watcher_new (known_pids w) procs)
            (process_cache w) |},
     Ok (list_to_set (map pi_pid procs) ∪ current_pids)).
Proof.
  revert current_pids w. induction procs as [|p procs IH]; intros cur [q known cache] Hread.
  - simpl. by assert (∅ ∪ cur = cur) as -> by set_solver.
  - apply Forall_cons in Hread as [Hp Hread]. simpl in Hp, Hread.
    assert (list_to_set (map pi_pid (p :: procs)) ∪ cur
            = list_to_set (map pi_pid procs) ∪ ({[pi_pid p]} ∪ cur)) as -> by set_solver.
    simpl watcher_scan. unfold watcher_new. simpl List.filter.
    unfold mbind at 1, method_bind, get_self. simpl known_pids.
    unfold mbind at 1, method_bind.
    destruct (decide (pi_pid p ∈ known)) as [Hin | Hnotin].
    + rewrite bool_decide_eq_true_2 by done. simpl. rewrite IH by exact Hread. reflexivity.
    + rewrite bool_decide_eq_false_2 by done. simpl negb. simpl andb.
      destruct Hp as [? | [b Hb]]; [done |].
      assert (watcher_interesting_bool p = b) as Hb'
        by (unfold watcher_interesting_bool; by rewrite Hb).
      rewrite !Hb', Hb.
      unfold mbind at 1, method_bind, lift. destruct b; simpl.
      * rewrite IH by exact Hread. reflexivity.
      * rewrite IH by exact Hread. reflexivity.
Qed.


Lemma deque_extend_app {A} (xs ys : list A) (d : deque A) :
  deque_extend (xs ++ ys) d = deque_extend ys (deque_extend xs d).
Proof. unfold deque_extend. apply fold_left_app. Qed.


Lemma NoDup_map_filter {A B} (f : A → B) (q : A → bool) (l : list A) :
  NoDup (map f l) → NoDup (map f (List.filter q l)).
Proof.
  induction l as [|x l IH]; simpl; [done |].
  intros [Hx Hl]%NoDup_cons. destruct (q x); [| by apply IH].
  simpl. apply NoDup_cons. split; [| by apply IH].
  intros Hin. apply Hx. apply list_elem_of_In, in_map_iff in Hin as (y & Hy & Hin).
  apply filter_In in Hin as [Hin _]. apply list_elem_of_In, in_map_iff. eauto.
Qed.

Lemma NoDup_list_filter {A} (q : A → bool) (l : list A) :
  NoDup l → NoDup (List.filter q l).
Proof.
  intros H. rewrite <- (map_id (List.filter q l)).
  apply NoDup_map_filter. by rewrite map_id.
Qed.


(** *** ProcessMonitor *)

Lemma monitor_scan_spec (hms : string) (procs : list proc_info) (current_pids : gset Z)
    (m : process_monitor) :
  monitor_readable (pm_known_pids m) procs →
  monitor_scan hms procs current_pids m
  = ({| processes :=
          deque_extend (map (started_event hms) (monitor_new (pm_known_pids m) procs))
            (processes m);
        pm_known_pids := pm_known_pids m |},
     Ok (list_to_set (map pi_pid procs) ∪ current_pids)).
Proof.
  revert current_pids m. induction procs as [|p procs IH]; intros cur [q known] Hread.
  - simpl. by assert (∅ ∪ cur = cur) as -> by set_solver.
  - apply Forall_cons in Hread as [Hp Hread]. simpl in Hp, Hread.
    assert (list_to_set (map pi_pid (p :: procs)) ∪ cur
            = list_to_set (map pi_pid procs) ∪ ({[pi_pid p]} ∪ cur)) as -> by set_solver.
    simpl monitor_scan. unfold monitor_new. simpl List.filter.
    unfold mbind at 1, method_bind, get_self. simpl pm_known_pids.
    unfold mbind at 1, method_bind.
    destruct (decide (pi_pid p ∈ known)) as [Hin | Hnotin].
    + rewrite bool_decide_eq_true_2 by done. simpl. rewrite IH by exact Hread. reflexivity.
    + rewrite bool_decide_eq_false_2 by done. simpl negb. simpl andb.
      destruct Hp as [? | [b Hb]]; [done |].
      assert (monitor_interesting_bool p = b) as Hb'
        by (unfold monitor_interesting_bool; by rewrite Hb).
      rewrite !Hb', Hb.
      unfold mbind at 1, method_bind, lift. destruct b; simpl.
      * rewrite IH by exact Hread. reflexivity.
      * rewrite IH by exact Hread. reflexivity.
Qed.








(** ** File references *)

Lemma store_references_spec (fs : filesystem) (cwd : string) (matches : list string)
    (file_contents : list (string * string)) :
  store_references fs cwd matches file_contents
  = Ok (fold_left (fun d m => alist_set m (reference_value fs cwd m) d) matches file_contents).
Proof.
  revert file_contents. induction matches as [|m matches IH]; intros d; simpl; [done |].
  unfold store_reference, reference_value.
  destruct (reference_content fs (resolve_path cwd m)); simpl; apply IH.
Qed.

Lemma fold_alist_set_other {V} (f : string → V) (matches : list string)
    (d : list (string * V)) (k : string) :
  k ∉ matches →
  alist_get k (fold_left (fun d m => alist_set m (f m) d) matches d) = alist_get k d.
Proof.
  revert d. induction matches as [|m matches IH]; intros d Hk; simpl; [done |].
  rewrite IH by (intros ?; apply Hk; by right).
  apply alist_get_set_ne. intros ->. apply Hk. by left.
Qed.

Lemma fold_alist_set_in {V} (f : string → V) (matches : list string)
    (d : list (string * V)) (k : string) :
  k ∈ matches →
  alist_get k (fold_left (fun d m => alist_set m (f m) d) matches d) = Some (f k).
Proof.
  revert d. induction matches as [|m matches IH]; intros d Hk; simpl.
  - by apply elem_of_nil in Hk.
  - destruct (decide (k ∈ matches)) as [Hin | Hnotin]; [by apply IH |].
    apply elem_of_cons in Hk as [-> | ?]; [| done].
    rewrite fold_alist_set_other by done. apply alist_get_set_eq.
Qed.

(** C6: [parse_file_references] returns a mapping for every text, on every
    file system; each reference of the text is a key, and its value is the
    file content, the directory listing or a message: [File not found: ]
    and the resolved path when that is neither a file nor a directory,
    [Error reading file: ] and the message of the exception when reading
    the file fails. *)
Theorem parse_file_references_in_band (fs : filesystem) (cwd message : string) :
  ∃ file_contents,
    parse_file_references fs cwd message = Ok file_contents
    ∧ (∀ k, k ∉ findall_references message → alist_get k file_contents = None)
    ∧ ∀ m, m ∈ findall_references message →
        let filepath := resolve_path cwd m in
        ∃ v, alist_get m file_contents = Some v
             ∧ (isfile fs filepath = false → isdir fs filepath = false →
                v = "File not found: " +:+ filepath)
             ∧ (∀ e, isfile fs filepath = true → read_text fs filepath = Raise e →
                v = "Error reading file: " +:+ exn_msg e)
             ∧ (∀ content, isfile fs filepath = true → read_text fs filepath = Ok content →
                v = content)
             ∧ (∀ e, isfile fs filepath = false → isdir fs filepath = true →
                listdir fs filepath = Raise e →
                v = match exn_cls e with
                    | PermissionError => "Permission denied: " +:+ filepath
                    | _ => "Error reading file: " +:+ exn_msg e
                    end).
Proof.
  unfold parse_file_references. rewrite store_references_spec. eexists. split; [reflexivity |].
  split; [intros k Hk; by rewrite fold_alist_set_other |].
  intros m Hm. exists (reference_value fs cwd m).
  split; [by apply fold_alist_set_in |].
  unfold reference_value, reference_content.
  set (filepath := resolve_path cwd m).
  split; [by intros -> -> |]. split; [by intros e -> -> |]. split; [by intros c -> -> |].
  intros [cls msg] -> -> ->. simpl. by destruct cls.
Qed.

Lemma parse_file_references_in_band_witness :
  parse_file_references empty_fs "/tmp" "see @missing.txt"
  = Ok [("missing.txt", "File not found: /tmp/missing.txt")]
  ∧ ∃ d v, parse_file_references shadow_fs "/tmp" "cat @/etc/shadow" = Ok d
           ∧ alist_get "/etc/shadow" d = Some v
           ∧ v = "Error reading file: [Errno 13] Permission denied: '/etc/shadow'".
Proof.
  split; [reflexivity |].
  destruct (parse_file_references_in_band shadow_fs "/tmp" "cat @/etc/shadow")
    as (d & Hd & _ & Hrefs).
  destruct (Hrefs "/etc/shadow") as (v & Hv & _ & Herr & _); [vm_compute; by left |].
  exists d, v. split; [exact Hd |]. split; [exact Hv |].
  exact (Herr _ eq_refl eq_refl).
Defined.

(** ** The lines of the context buffer *)

Lemma split_char_app_nl (a b : string) :
  split_char newline (a +:+ nl +:+ b) = split_char newline a ++ split_char newline b.
Proof.
  induction a as [|c a IH]; [reflexivity |].
  change (String c a +:+ nl +:+ b) with (String c (a +:+ nl +:+ b)).
  simpl split_char. destruct (Ascii.eqb c newline).
  - by rewrite IH.
  - rewrite IH. pose proof (split_char_nonempty newline a) as Ha.
    by destruct (split_char newline a).
Qed.

Lemma split_char_end_nl (x : string) :
  split_char newline (x +:+ nl) = split_char newline x ++ [EmptyString].
Proof. rewrite <- (str_app_nil_r nl). by rewrite split_char_app_nl. Qed.

Lemma join_snoc_empty (l : list string) :
  l ≠ [] → join nl (l ++ [EmptyString]) = join nl l +:+ nl.
Proof.
  induction l as [|x l IH]; [done |]. intros _.
  destruct l as [|y l].
  - simpl app. rewrite join_cons by done. reflexivity.
  - change ((x :: y :: l) ++ [EmptyString]) with (x :: ((y :: l) ++ [EmptyString])).
    rewrite join_cons by done. rewrite IH by done.
    rewrite (join_cons nl x (y :: l)) by done. by rewrite !str_app_assoc.
Qed.

Lemma join_app_nl (l1 l2 : list string) :
  l1 ≠ [] → l2 ≠ [] → join nl (l1 ++ l2) = join nl l1 +:+ nl +:+ join nl l2.
Proof.
  intros H1 H2. induction l1 as [|x l1 IH]; [done |].
  destruct l1 as [|y l1].
  - simpl app. by rewrite join_cons.
  - change ((x :: y :: l1) ++ l2) with (x :: ((y :: l1) ++ l2)).
    rewrite join_cons by done. rewrite IH by done.
    rewrite (join_cons nl x (y :: l1)) by done. by rewrite !str_app_assoc.
Qed.

(** Whatever [trim_lines] returns is what is left of the lines after some
    leading ones are dropped. *)
Lemma trim_lines_drop (max : Z) (lines r : list string) :
  trim_lines max lines = Ok r → ∃ k, r = drop k lines.
Proof.
  induction lines as [|l rest IH].
  - simpl. destruct (over_target _ max); [done |]. intros [= <-]. by exists 0%nat.
  - rewrite trim_lines_cons. destruct (over_target _ max).
    + intros H. destruct (IH H) as [k ->]. by exists (S k).
    + intros [= <-]. by exists 0%nat.
Qed.

Lemma whole_lines_drop (k : nat) (x : string) :
  whole_lines (join nl (drop k (split_char newline (x +:+ nl)))).
Proof.
  rewrite split_char_end_nl.
  destruct (decide (k < length (split_char newline x))%nat) as [Hlt | Hge].
  - right. rewrite drop_app_le by lia. eexists. apply join_snoc_empty.
    intros Hnil. apply (f_equal length) in Hnil. rewrite length_drop in Hnil. simpl in Hnil. lia.
  - left. rewrite drop_app_ge by lia.
    destruct (k - length (split_char newline x))%nat as [|n]; [reflexivity |].
    simpl drop. by rewrite drop_nil.
Qed.

Lemma update_context_buffer_whole_lines (text : string) (st : monitor) :
  whole_lines (context_buffer (_update_context_buffer text st).1).
Proof.
  unfold _update_context_buffer.
  change (context_buffer (set_context_buffer (context_buffer st +:+ text +:+ nl) st))
    with (context_buffer st +:+ text +:+ nl).
  change (max_context_size (set_context_buffer (context_buffer st +:+ text +:+ nl) st))
    with (max_context_size st).
  assert (whole_lines (context_buffer st +:+ text +:+ nl)) as Hfull.
  { right. exists (context_buffer st +:+ text). by rewrite str_app_assoc. }
  destruct (max_context_size st <? _); [| exact Hfull].
  destruct (trim_lines _ _) as [r | e] eqn:Htrim; [| exact Hfull].
  apply trim_lines_drop in Htrim as [k ->]. cbn.
  rewrite <- str_app_assoc. apply whole_lines_drop.
Qed.

Lemma session_append_buffer (key : string) (entry : pyval) (st : monitor) :
  context_buffer (session_append key entry st).1 = context_buffer st.
Proof.
  unfold session_append. destruct (session_data st) as [| | | | | |d]; try reflexivity.
  destruct (alist_get key d) as [[]|]; reflexivity.
Qed.

Lemma run_append_whole_lines (py : PyLib) (now : Z) (op : append_op) (st : monitor) :
  whole_lines (context_buffer st) → whole_lines (context_buffer (run_append py now op st).1).
Proof.
  intros Hst.
  destruct op as [c t | o c t | d t | o f t]; simpl run_append.
  - unfold log_command. step_method.
    match goal with |- context [session_append ?k ?e ?s] =>
      pose proof (session_append_buffer k e s) as Hb;
      destruct (session_append k e s) as [s1 [[]|err]]
    end; simpl in *.
    + apply update_context_buffer_whole_lines.
    + by rewrite Hb.
  - unfold log_output. step_method.
    match goal with |- context [session_append ?k ?e ?s] =>
      pose proof (session_append_buffer k e s) as Hb;
      destruct (session_append k e s) as [s1 [[]|err]]
    end; simpl in *.
    + destruct (String.eqb (strip o) EmptyString); simpl.
      * by rewrite Hb.
      * apply update_context_buffer_whole_lines.
    + by rewrite Hb.
  - unfold log_directory_change. step_method.
    match goal with |- context [session_append ?k ?e ?s] =>
      pose proof (session_append_buffer k e s) as Hb;
      destruct (session_append k e s) as [s1 [[]|err]]
    end; simpl in *.
    + apply update_context_buffer_whole_lines.
    + by rewrite Hb.
  - unfold log_file_operation. step_method.
    match goal with |- context [session_append ?k ?e ?s] =>
      pose proof (session_append_buffer k e s) as Hb;
      destruct (session_append k e s) as [s1 [[]|err]]
    end; simpl in *.
    + apply update_context_buffer_whole_lines.
    + by rewrite Hb.
Qed.

(** X1: the context buffer is always a text of whole lines. If it is
    empty or ends with a newline, then after every append of any sequence
    of appends - also one that raises, and whatever the bounds and the
    session data are - it is again empty or ends with a newline. *)
Theorem context_buffer_whole_lines (py : PyLib) (ops : list (Z * append_op)) (st : monitor) :
  whole_lines (context_buffer st) →
  Forall (fun r => whole_lines (context_buffer r.1)) (run_appends py ops st).
Proof.
  revert st. induction ops as [|[now op] ops IH]; intros st Hst; simpl.
  - constructor.
  - pose proof (run_append_whole_lines py now op st Hst) as H1.
    constructor; [exact H1 | by apply IH].
Qed.

Lemma context_buffer_whole_lines_witness :
  Forall (fun r => whole_lines (context_buffer r.1))
    (run_appends sample_lib sample_appends (sample_monitor 12 2)).
Proof. apply context_buffer_whole_lines. left. reflexivity. Defined.

Lemma split_char_newline_free (t : string) :
  newline_free t = true → split_char newline t = [t].
Proof.
  induction t as [|c t IH]; [done |]. simpl.
  destruct (Ascii.eqb c newline); [done |]. simpl. intros H. by rewrite IH.
Qed.

(** The last line of a text that ends with a one-line text ends with it. *)
Lemma split_char_last (a t : string) :
  newline_free t = true → ∃ l0 y, split_char newline (a +:+ t) = l0 ++ [y +:+ t].
Proof.
  intros Ht. induction a as [|c a (l0 & y & IH)].
  - exists [], EmptyString. by apply split_char_newline_free.
  - change (String c a +:+ t) with (String c (a +:+ t)). simpl split_char. rewrite IH.
    destruct (Ascii.eqb c newline).
    + by exists (EmptyString :: l0), y.
    + destruct l0 as [|h l0]; simpl.
      * by exists [], (String c y).
      * by exists (String c h :: l0), y.
Qed.

Lemma join_length_last (l : list string) (y : string) :
  (String.length y ≤ String.length (join nl (l ++ [y])))%nat.
Proof.
  induction l as [|x l IH]; [done |].
  change ((x :: l) ++ [y]) with (x :: (l ++ [y])).
  rewrite join_cons by (by destruct l). rewrite !str_length_app. lia.
Qed.

(** X2: the entry just logged stays in the buffer when its text and the
    newline are within the 80% target: the buffer, which holds whole
    lines, then ends with that text and its newline, however many older
    lines the trimming removes. *)
Theorem latest_entry_survives (text : string) (st : monitor) :
  0 <= max_context_size st →
  whole_lines (context_buffer st) →
  5 * (Z.of_nat (String.length text) + 1) <= 4 * max_context_size st →
  (_update_context_buffer text st).2 = Ok tt
  ∧ str_suffix (text +:+ nl) (context_buffer (_update_context_buffer text st).1).
Proof.
  intros Hmax Hwhole Hfits.
  destruct (update_context_buffer_spec text st Hmax) as (b & Heq & _ & _ & Hsmall & Hlarge).
  rewrite Heq. split; [done |]. cbn.
  assert (String.length (text +:+ nl) = S (String.length text)) as Hlen.
  { rewrite str_length_app. simpl. lia. }
  destruct (Z.le_gt_cases (Z.of_nat (String.length (context_buffer st +:+ text +:+ nl)))
              (max_context_size st)) as [Hle | Hgt].
  { rewrite (Hsmall Hle). by exists (context_buffer st). }
  destruct (Hlarge ltac:(lia)) as (k & -> & _ & Hbefore).
  destruct Hwhole as [Hb | [x Hb]]; rewrite Hb in *.
  { change (EmptyString +:+ text +:+ nl) with (text +:+ nl) in Hgt. rewrite Hlen in Hgt. lia. }
  rewrite str_app_assoc, split_char_app_nl in *.
  set (l1 := split_char newline x) in *.
  assert (join nl (split_char newline (text +:+ nl)) = text +:+ nl) as Hjoin
    by apply join_split_char.
  assert (k ≤ length l1)%nat as Hk.
  { destruct (decide (k ≤ length l1)%nat) as [|Hn]; [done |].
    specialize (Hbefore (length l1) ltac:(lia)).
    rewrite drop_app_length, Hjoin, Hlen in Hbefore. lia. }
  rewrite drop_app_le by done.
  destruct (drop k l1) as [|z l] eqn:Hdrop.
  - simpl. rewrite Hjoin. by exists EmptyString.
  - rewrite join_app_nl; [| done | apply split_char_nonempty].
    rewrite Hjoin. exists (join nl (z :: l) +:+ nl). by rewrite !str_app_assoc.
Qed.

Lemma latest_entry_survives_witness :
  (_update_context_buffer "pwd" (two_line_monitor 12)).2 = Ok tt
  ∧ str_suffix ("pwd" +:+ nl) (context_buffer (_update_context_buffer "pwd" (two_line_monitor 12)).1).
Proof.
  apply latest_entry_survives.
  - simpl. lia.
  - right. exists ("[1] $ ls" +:+ nl +:+ "a.txt"). reflexivity.
  - simpl. lia.
Defined.

(** X3: a one-line entry that is longer than the 80% target empties the
    buffer when it makes it overflow: the trimming removes every line,
    that of the entry included, so the newest entry is lost with the
    oldest ones. *)
Theorem long_line_empties_buffer (text : string) (st : monitor) :
  0 <= max_context_size st →
  newline_free text = true →
  max_context_size st < Z.of_nat (String.length (context_buffer st +:+ text +:+ nl)) →
  4 * max_context_size st < 5 * (Z.of_nat (String.length text) + 1) →
  _update_context_buffer text st = (set_context_buffer EmptyString st, Ok tt).
Proof.
  intros Hmax Hline Hover Hlong.
  destruct (update_context_buffer_spec text st Hmax) as (b & Heq & _ & _ & _ & Hlarge).
  rewrite Heq. f_equal. f_equal.
  destruct (Hlarge Hover) as (k & -> & Hsmall & _).
  rewrite <- str_app_assoc, split_char_end_nl in *.
  destruct (split_char_last (context_buffer st) text Hline) as (l0 & y & Hsplit).
  rewrite Hsplit in *.
  destruct (decide (k ≤ length l0)%nat) as [Hk | Hk].
  - exfalso. rewrite drop_app_le in Hsmall by (rewrite length_app; simpl; lia).
    rewrite drop_app_le in Hsmall by done.
    rewrite join_snoc_empty in Hsmall by (by destruct (drop k l0)).
    rewrite str_length_app in Hsmall. simpl in Hsmall.
    pose proof (join_length_last (drop k l0) (y +:+ text)) as Hlast.
    rewrite str_length_app in Hlast. lia.
  - rewrite drop_app_ge by (rewrite length_app; simpl; lia).
    destruct (k - length (l0 ++ [y +:+ text]))%nat as [|n]; [reflexivity |].
    simpl drop. by rewrite drop_nil.
Qed.

Lemma long_line_empties_buffer_witness :
  _update_context_buffer "[3] $ pwd" (two_line_monitor 12)
  = (set_context_buffer EmptyString (two_line_monitor 12), Ok tt).
Proof.
  apply long_line_empties_buffer.
  - simpl. lia.
  - reflexivity.
  - simpl. lia.
  - simpl. lia.
Defined.

(** ** Cleaning up old entries *)

Lemma has_time_recent (py : PyLib) (cutoff_time : Z) (e : pyval) :
  has_time py e → ∃ b, is_recent py cutoff_time e = Ok b.
Proof.
  intros (s & t & Hs & Ht). unfold is_recent. rewrite Hs. simpl. rewrite Ht. by eexists.
Qed.

Lemma filter_recent_has_time (py : PyLib) (cutoff_time : Z) (l : list pyval) :
  Forall (has_time py) l →
  filter_recent py cutoff_time l = Ok (List.filter (recent_bool py cutoff_time) l).
Proof.
  intros Hl. apply filter_recent_Ok. split; [| done].
  eapply Forall_impl; [exact Hl |]. intros e. apply has_time_recent.
Qed.

Lemma deque_of_items {A} (maxlen : Z) (items : list A) :
  0 <= maxlen →
  ∃ d, deque_of maxlen items = Ok d
       ∧ dq_maxlen d = Z.to_nat maxlen
       ∧ dq_items d = lastn (Z.to_nat maxlen) items.
Proof.
  intros Hmax. unfold deque_of. destruct (Z.ltb_spec maxlen 0) as [|_]; [lia |].
  eexists. split; [reflexivity |].
  destruct (deque_extend_lastn items (Deque (Z.to_nat maxlen) []) []) as [Hitems Hlen].
  { by destruct (Z.to_nat maxlen). }
  by rewrite Hitems, Hlen.
Qed.

Lemma filter_length_le' {A} (q : A → bool) (l : list A) :
  (length (List.filter q l) ≤ length l)%nat.
Proof. induction l as [|x l IH]; simpl; [lia |]. destruct (q x); simpl; lia. Qed.

(** X4: [cleanup_old_data] on histories whose timestamps can be read
    keeps, in their order, exactly the entries whose time is not before
    the cutoff. It changes nothing else: the session data still holds
    every logged entry, and the context buffer its lines. *)
Theorem cleanup_old_data_keeps_recent (py : PyLib) (cutoff_time : Z) (st : monitor) :
  0 <= max_history_items st →
  (length (dq_items (command_history st)) ≤ Z.to_nat (max_history_items st))%nat →
  (length (dq_items (output_history st)) ≤ Z.to_nat (max_history_items st))%nat →
  Forall (has_time py) (dq_items (command_history st)) →
  Forall (has_time py) (dq_items (output_history st)) →
  ∃ st',
    cleanup_old_data py cutoff_time st = (st', Ok tt)
    ∧ dq_items (command_history st')
      = List.filter (recent_bool py cutoff_time) (dq_items (command_history st))
    ∧ dq_items (output_history st')
      = List.filter (recent_bool py cutoff_time) (dq_items (output_history st))
    ∧ Forall (fun e => ∃ s t, subscript e "timestamp" = Ok (PStr s)
                              ∧ fromisoformat py s = Some t ∧ cutoff_time <= t)
        (dq_items (command_history st') ++ dq_items (output_history st'))
    ∧ dq_maxlen (command_history st') = Z.to_nat (max_history_items st)
    ∧ dq_maxlen (output_history st') = Z.to_nat (max_history_items st)
    ∧ session_data st' = session_data st
    ∧ context_buffer st' = context_buffer st
    ∧ current_directory st' = current_directory st
    ∧ max_history_items st' = max_history_items st
    ∧ max_context_size st' = max_context_size st.
Proof.
  intros Hmhi Hclen Holen Hcs Hos.
  unfold cleanup_old_data. step_method.
  rewrite (filter_recent_has_time py cutoff_time _ Hcs).
  destruct (deque_of_items (max_history_items st)
              (List.filter (recent_bool py cutoff_time) (dq_items (command_history st))) Hmhi)
    as (dc & -> & Hdcm & Hdci).
  simpl. rewrite (filter_recent_has_time py cutoff_time _ Hos).
  destruct (deque_of_items (max_history_items st)
              (List.filter (recent_bool py cutoff_time) (dq_items (output_history st))) Hmhi)
    as (do & -> & Hdom & Hdoi).
  simpl. eexists. split; [reflexivity |]. cbn.
  rewrite lastn_all in Hdci by (etrans; [apply filter_length_le' | done]).
  rewrite lastn_all in Hdoi by (etrans; [apply filter_length_le' | done]).
  rewrite Hdci, Hdoi. repeat (split; [done |]). split; [| done].
  apply Forall_app. split; apply Forall_forall; intros e He;
    apply list_elem_of_In, filter_In in He as [_ He]; by apply is_recent_true.
Qed.

Lemma cleanup_old_data_keeps_recent_witness :
  ∃ st',
    cleanup_old_data sample_lib 2000000 three_command_session = (st', Ok tt)
    ∧ dq_items (command_history st')
      = [command_entry sample_lib 2000000 "make" "/tmp";
         command_entry sample_lib 3000000 "pwd" "/tmp"]
    ∧ session_data st' = session_data three_command_session.
Proof.
  destruct (cleanup_old_data_keeps_recent sample_lib 2000000 three_command_session)
    as (st' & Hrun & Hc & _ & _ & _ & _ & Hsd & _).
  - vm_compute. discriminate.
  - vm_compute. lia.
  - vm_compute. lia.
  - vm_compute. repeat (apply Forall_cons_2); try apply Forall_nil_2;
      eexists _, _; split; reflexivity.
  - vm_compute. repeat (apply Forall_cons_2); try apply Forall_nil_2;
      eexists _, _; split; reflexivity.
  - exists st'. split; [exact Hrun |]. split; [| exact Hsd].
    rewrite Hc. reflexivity.
Defined.

(** X5: [cleanup_old_data] is not atomic. When the timestamp of an
    output cannot be read, the exception reaches the caller after the
    command history has already been replaced by its recent entries; the
    output history is left as it was. *)
Theorem cleanup_old_data_not_atomic (py : PyLib) (cutoff_time : Z) (st : monitor) (e : exn) :
  0 <= max_history_items st →
  Forall (has_time py) (dq_items (command_history st)) →
  filter_recent py cutoff_time (dq_items (output_history st)) = Raise e →
  let st' := (cleanup_old_data py cutoff_time st).1 in
  (cleanup_old_data py cutoff_time st).2 = Raise e
  ∧ dq_items (command_history st')
    = lastn (Z.to_nat (max_history_items st))
        (List.filter (recent_bool py cutoff_time) (dq_items (command_history st)))
  ∧ output_history st' = output_history st
  ∧ session_data st' = session_data st.
Proof.
  intros Hmhi Hcs Hos. unfold cleanup_old_data. step_method.
  rewrite (filter_recent_has_time py cutoff_time _ Hcs).
  destruct (deque_of_items (max_history_items st)
              (List.filter (recent_bool py cutoff_time) (dq_items (command_history st))) Hmhi)
    as (dc & -> & Hdcm & Hdci).
  simpl. rewrite Hos. simpl. done.
Qed.

Lemma cleanup_old_data_not_atomic_witness :
  let st' := (cleanup_old_data sample_lib 2000000 broken_session).1 in
  (cleanup_old_data sample_lib 2000000 broken_session).2 = raise KeyError "timestamp"
  ∧ dq_items (command_history st') = [command_entry sample_lib 3000000 "pwd" "/tmp"]
  ∧ output_history st' = output_history broken_session.
Proof.
  destruct (cleanup_old_data_not_atomic sample_lib 2000000 broken_session
              (Exn KeyError "timestamp")) as (Hr & Hc & Ho & _).
  - vm_compute. discriminate.
  - vm_compute. repeat (apply Forall_cons_2); try apply Forall_nil_2;
      eexists _, _; split; reflexivity.
  - reflexivity.
  - split; [exact Hr |]. split; [| exact Ho]. rewrite Hc. reflexivity.
Defined.

(** ** Saving a session and loading it again *)

Lemma deque_eq {A} (d : deque A) (n : nat) (l : list A) :
  dq_maxlen d = n → dq_items d = l → d = Deque n l.
Proof. destruct d. simpl. by intros -> ->. Qed.

(** What [load_session] makes of a file with the four logs. *)
Lemma load_session_shape (sd : pyval) (cs os ds fs : list pyval) (st : monitor) :
  session_shape sd cs os ds fs →
  let st' := (load_session (Ok sd) st).1 in
  session_data st' = sd
  ∧ command_history st'
    = Deque (dq_maxlen (command_history st)) (lastn (dq_maxlen (command_history st)) cs)
  ∧ output_history st'
    = Deque (dq_maxlen (output_history st)) (lastn (dq_maxlen (output_history st)) os)
  ∧ context_buffer st' = context_buffer st
  ∧ current_directory st' = current_directory st
  ∧ session_start st' = session_start st
  ∧ max_history_items st' = max_history_items st
  ∧ max_context_size st' = max_context_size st.
Proof.
  intros [start ->]. unfold load_session, try_log, load_session_body, extend_history.
  step_method.
  destruct (deque_extend_lastn cs (deque_clear (command_history st)) []) as [Hci Hcm].
  { simpl. by destruct (dq_maxlen (command_history st)). }
  destruct (deque_extend_lastn os (deque_clear (output_history st)) []) as [Hoi Hom].
  { simpl. by destruct (dq_maxlen (output_history st)). }
  simpl in *. split; [done |].
  split; [by apply deque_eq |]. split; [by apply deque_eq | done].
Qed.

Lemma save_session_read (stamp : Z → string) (now : Z) (can_open : string → bool)
    (filepath : option string) (st : monitor) (files : json_files) :
  can_open (session_filepath stamp now filepath) = true →
  save_session stamp now can_open filepath st files (session_filepath stamp now filepath)
  = Ok (session_data st).
Proof. intros Hopen. unfold save_session. by rewrite Hopen, String.eqb_refl. Qed.

(** X6: a session that a monitor saves and a new monitor with the same
    [max_history_items] loads gives the new monitor the session data and
    the two histories of the first one. The context buffer and the
    current directory are not part of the file: the new monitor keeps its
    empty buffer and its own directory. *)
Theorem save_load_round_trip (py py2 : PyLib) (t0 t2 now : Z) (cwd cwd2 : string)
    (comp comp2 : comp_start) (mcs mcs2 mhi : Z) (st0 st2 : monitor)
    (ops : list (Z * append_op)) (stamp : Z → string) (can_open : string → bool)
    (filepath : option string) (files : json_files) :
  init py t0 cwd comp mcs mhi = Ok st0 → 0 <= mcs →
  init py2 t2 cwd2 comp2 mcs2 mhi = Ok st2 →
  can_open (session_filepath stamp now filepath) = true →
  let st := final_state py ops st0 in
  let files' := save_session stamp now can_open filepath st files in
  let st' := (load_session (files' (session_filepath stamp now filepath)) st2).1 in
  session_data st' = session_data st
  ∧ command_history st' = command_history st
  ∧ output_history st' = output_history st
  ∧ context_buffer st' = EmptyString
  ∧ current_directory st' = cwd2.
Proof.
  intros Hinit Hmcs Hinit2 Hopen st files' st'.
  destruct (init_inv _ _ _ _ _ _ _ Hinit Hmcs) as [Hinv0 Hmhi].
  destruct (final_state_inv py (fun _ => True) ops mcs mhi st0 [] [] [] [] Hinv0)
    as (cs & os & ds & fs & Hinv & _); [done | |].
  { apply Forall_forall. intros [? []] _; done. }
  fold st in Hinv. unfold st', files'. rewrite save_session_read by done.
  destruct (load_session_shape (session_data st) cs os ds fs st2 (inv_shape _ _ _ _ _ _ _ Hinv))
    as (Hsd & Hc & Ho & Hb & Hd & _).
  unfold init in Hinit2. destruct (mhi <? 0); [done |]. injection Hinit2 as <-.
  simpl in *. rewrite Hsd, Hc, Ho, Hb, Hd. split; [done |].
  split; [| split; [| done]]; symmetry; apply deque_eq;
    first [apply (inv_cmd_maxlen _ _ _ _ _ _ _ Hinv) | apply (inv_cmd_items _ _ _ _ _ _ _ Hinv)
          | apply (inv_out_maxlen _ _ _ _ _ _ _ Hinv) | apply (inv_out_items _ _ _ _ _ _ _ Hinv)].
Qed.

Lemma save_load_round_trip_witness :
  let files' := save_session sample_stamp 5000000 (fun _ => true) None
                  (final_state sample_lib sample_appends (sample_monitor 100 2)) no_files in
  let st' := (load_session (files' "shellm_session_5.json") (sample_monitor 50 2)).1 in
  command_history st' = command_history (final_state sample_lib sample_appends (sample_monitor 100 2))
  ∧ context_buffer st' = EmptyString.
Proof.
  destruct (save_load_round_trip sample_lib sample_lib 0 0 5000000 "/tmp" "/tmp"
              CompUnavailable CompUnavailable 100 50 2 (sample_monitor 100 2) (sample_monitor 50 2)
              sample_appends sample_stamp (fun _ => true) None no_files)
    as (_ & Hc & _ & Hb & _).
  - reflexivity.
  - lia.
  - reflexivity.
  - reflexivity.
  - split; [exact Hc | exact Hb].
Defined.

Lemma cleanup_old_data_Ok (py : PyLib) (cutoff_time : Z) (st st1 : monitor) :
  cleanup_old_data py cutoff_time st = (st1, Ok tt) →
  session_data st1 = session_data st
  ∧ dq_maxlen (command_history st1) = Z.to_nat (max_history_items st)
  ∧ dq_maxlen (output_history st1) = Z.to_nat (max_history_items st).
Proof.
  unfold cleanup_old_data, deque_of. step_method.
  destruct (filter_recent py cutoff_time (dq_items (command_history st))) as [kc|]; [| done].
  simpl. destruct (max_history_items st <? 0); [done |]. simpl.
  destruct (filter_recent py cutoff_time (dq_items (output_history st))) as [ko|]; [| done].
  simpl. intros [= <-]. cbn.
  split; [done |]. split.
  - by destruct (deque_extend_lastn kc (Deque (Z.to_nat (max_history_items st)) []) [])
      as [_ ->]; [by destruct (Z.to_nat (max_history_items st)) |].
  - by destruct (deque_extend_lastn ko (Deque (Z.to_nat (max_history_items st)) []) [])
      as [_ ->]; [by destruct (Z.to_nat (max_history_items st)) |].
Qed.

(** X7: what [cleanup_old_data] removes comes back when the session is
    saved and loaded again: the cleanup leaves the session data as it is,
    and [load_session] rebuilds the histories from the session data. *)
Theorem cleanup_undone_by_reload (py : PyLib) (t0 now cutoff_time : Z) (cwd : string)
    (comp : comp_start) (mcs mhi : Z) (st0 st1 : monitor) (ops : list (Z * append_op))
    (stamp : Z → string) (can_open : string → bool) (filepath : option string)
    (files : json_files) :
  init py t0 cwd comp mcs mhi = Ok st0 → 0 <= mcs →
  cleanup_old_data py cutoff_time (final_state py ops st0) = (st1, Ok tt) →
  can_open (session_filepath stamp now filepath) = true →
  let files' := save_session stamp now can_open filepath st1 files in
  let st' := (load_session (files' (session_filepath stamp now filepath)) st1).1 in
  command_history st' = command_history (final_state py ops st0)
  ∧ output_history st' = output_history (final_state py ops st0).
Proof.
  intros Hinit Hmcs Hclean Hopen files' st'.
  destruct (init_inv _ _ _ _ _ _ _ Hinit Hmcs) as [Hinv0 Hmhi].
  destruct (final_state_inv py (fun _ => True) ops mcs mhi st0 [] [] [] [] Hinv0)
    as (cs & os & ds & fs & Hinv & _); [done | |].
  { apply Forall_forall. intros [? []] _; done. }
  apply cleanup_old_data_Ok in Hclean as (Hsd & Hcm & Hom).
  unfold st', files'. rewrite save_session_read by done.
  rewrite (inv_mhi _ _ _ _ _ _ _ Hinv) in Hcm, Hom.
  destruct (load_session_shape (session_data st1) cs os ds fs st1)
    as (_ & Hc & Ho & _).
  { rewrite Hsd. apply (inv_shape _ _ _ _ _ _ _ Hinv). }
  rewrite Hc, Ho, Hcm, Hom.
  split; symmetry; apply deque_eq;
    first [apply (inv_cmd_maxlen _ _ _ _ _ _ _ Hinv) | apply (inv_cmd_items _ _ _ _ _ _ _ Hinv)
          | apply (inv_out_maxlen _ _ _ _ _ _ _ Hinv) | apply (inv_out_items _ _ _ _ _ _ _ Hinv)].
Qed.

Lemma cleanup_undone_by_reload_witness :
  let cleaned := (cleanup_old_data sample_lib 2000000 three_command_session).1 in
  let files' := save_session sample_stamp 5000000 (fun _ => true) (Some "s.json") cleaned no_files in
  length (dq_items (command_history cleaned)) = 2%nat
  ∧ command_history (load_session (files' "s.json") cleaned).1
    = command_history three_command_session.
Proof.
  split; [vm_compute; reflexivity |].
  refine (proj1 (cleanup_undone_by_reload sample_lib 0 5000000 2000000 "/tmp" CompUnavailable
                   10000 10 (sample_monitor 10000 10)
                   (cleanup_old_data sample_lib 2000000 three_command_session).1
                   three_command_appends sample_stamp (fun _ => true)
                   (Some "s.json") no_files _ _ _ _)).
  - reflexivity.
  - lia.
  - vm_compute. reflexivity.
  - reflexivity.
Defined.

(** ** The history thread of the basic monitor *)

Lemma starts_nonspace_split_ws (c : string) : starts_nonspace c = true → split_ws c ≠ [].
Proof.
  destruct c as [|a c]; [done |]. simpl. intros Ha. apply negb_true_iff in Ha. rewrite Ha.
  destruct (starts_nonspace c); [by destruct (split_ws c) | done].
Qed.

Lemma strip_nonempty_split_ws (s : string) : nonempty (strip s) = true → split_ws (strip s) ≠ [].
Proof.
  intros Hne. apply starts_nonspace_split_ws. unfold strip in *.
  destruct (lstrip_head s) as [Hl | Hl].
  - rewrite Hl in Hne. done.
  - by apply rstrip_head.
Qed.

(** A command read from a history line is stripped and has a first word. *)
Lemma history_line_command_word (raw c : string) :
  history_line_command raw = Some c → strip c = c ∧ split_ws c ≠ [].
Proof.
  unfold history_line_command, _parse_history_line.
  destruct (nonempty (strip raw) && negb (startswith (strip raw) "#")) eqn:Hline; [| done].
  apply andb_true_iff in Hline as [Hne _].
  assert (∀ x, (if nonempty (strip x) then Some (strip x) else None) = Some c →
               strip c = c ∧ split_ws c ≠ []) as Hstrip.
  { intros x. destruct (nonempty (strip x)) eqn:Hx; [| done]. intros [= <-].
    split; [apply strip_idemp | by apply strip_nonempty_split_ws]. }
  destruct (startswith (strip raw) ": ").
  - destruct (split1 semicolon (strip raw)) as [|? [|part ?]]; apply Hstrip.
  - apply Hstrip.
Qed.

Lemma history_appends_have_words (new_lines : list (Z * string)) :
  Forall (fun p => op_has_basename p.2) (history_appends new_lines).
Proof.
  induction new_lines as [|[now raw] l IH]; [constructor |].
  unfold history_appends. simpl.
  destruct (inline_line_command raw) as [c|] eqn:Hc; simpl; [| exact IH].
  constructor; [| exact IH]. simpl. right.
  rewrite inline_line_command_eq in Hc. by apply history_line_command_word in Hc as [_ Hc].
Qed.

Lemma monitor_history_lines_appends (py : PyLib) (new_lines : list (Z * string))
    (mcs mhi : Z) (st : monitor) (cs os ds fs : list pyval) :
  state_inv mcs mhi st cs os ds fs →
  monitor_history_lines py new_lines st
  = (final_state py (history_appends new_lines) st, Ok tt).
Proof.
  revert st cs os ds fs. induction new_lines as [|[now raw] l IH]; intros st cs os ds fs Hinv.
  - reflexivity.
  - unfold history_appends. simpl. step_method.
    destruct (inline_line_command raw) as [c|] eqn:Hc; simpl.
    + destruct (run_append_inv py (fun _ => True) now (LogCommand c (Some now))
                  mcs mhi st cs os ds fs Hinv) as (st' & cs' & os' & ds' & fs' & Hrun & Hinv' & _).
      { by apply Forall_forall. }
      { done. }
      simpl in Hrun. rewrite Hrun. simpl. by eapply IH.
    + by eapply IH.
Qed.


(** Every command the thread logs is stamped with the time of its line
    and has a first word. *)
Lemma history_appends_words (new_lines : list (Z * string)) :
  Forall (fun p => ∃ c, p.2 = LogCommand c (Some p.1) ∧ split_ws c ≠ [])
    (history_appends new_lines).
Proof.
  induction new_lines as [|[now raw] l IH]; [constructor |].
  unfold history_appends. simpl.
  destruct (inline_line_command raw) as [c|] eqn:Hc; simpl; [| exact IH].
  constructor; [| exact IH]. simpl. exists c. split; [done |].
  rewrite inline_line_command_eq in Hc. by apply history_line_command_word in Hc as [_ Hc].
Qed.

Lemma has_first_word_basename (e : pyval) :
  has_first_word e → ∃ b, command_basename e = Ok b.
Proof.
  intros (c & Hc & Hbase). unfold command_basename. rewrite Hc. simpl.
  destruct Hbase as [-> | Hne]; [by exists EmptyString |].
  destruct (String.eqb c EmptyString); simpl; [by eauto |].
  destruct (split_ws c) as [|tok toks]; [done | eauto].
Qed.

Lemma has_basename_first_word (py : PyLib) (op : append_op) :
  op_has_basename op → command_satisfies py has_first_word op.
Proof.
  destruct op as [c t0 | | |]; simpl; [| done ..]. intros Hc t d. by exists c.
Qed.

(** What an append does to the command history, whatever its outcome. *)
Lemma run_append_command_history (py : PyLib) (now : Z) (op : append_op) (st : monitor) :
  command_history (run_append py now op st).1
  = match op with
    | LogCommand c t =>
        deque_append (command_entry py (default now t) c (current_directory st))
          (command_history st)
    | _ => command_history st
    end.
Proof.
  assert (∀ text s, command_history (_update_context_buffer text s).1 = command_history s)
    as Hbuf.
  { intros text s. by destruct (update_context_buffer_fields text s) as [b ->]. }
  assert (∀ key e s, command_history (session_append key e s).1 = command_history s) as Hsess.
  { intros key e s. unfold session_append. destruct (session_data s); try done.
    by destruct (alist_get key _) as [[]|]. }
  destruct op as [c t | o c t | d t | o f t]; simpl run_append.
  - unfold log_command. step_method.
    match goal with |- context [session_append ?k ?e ?s] =>
      pose proof (Hsess k e s) as Hs; destruct (session_append k e s) as [s' [[]|err]]
    end; simpl in *; [by rewrite Hbuf | done].
  - unfold log_output. step_method.
    match goal with |- context [session_append ?k ?e ?s] =>
      pose proof (Hsess k e s) as Hs; destruct (session_append k e s) as [s' [[]|err]]
    end; simpl in *; [| done].
    destruct (String.eqb (strip o) EmptyString); [done | by rewrite Hbuf].
  - unfold log_directory_change. step_method.
    match goal with |- context [session_append ?k ?e ?s] =>
      pose proof (Hsess k e s) as Hs; destruct (session_append k e s) as [s' [[]|err]]
    end; simpl in *; [by rewrite Hbuf | done].
  - unfold log_file_operation. step_method.
    match goal with |- context [session_append ?k ?e ?s] =>
      pose proof (Hsess k e s) as Hs; destruct (session_append k e s) as [s' [[]|err]]
    end; simpl in *; [by rewrite Hbuf | done].
Qed.

(** A property of the entries of the command history is kept by appends
    whose commands give entries with that property: an append only adds
    its own entry and drops the oldest one. *)
Lemma final_state_history (py : PyLib) (P : pyval → Prop) (ops : list (Z * append_op))
    (st : monitor) :
  Forall (fun p => command_satisfies py P p.2) ops →
  Forall P (dq_items (command_history st)) →
  Forall P (dq_items (command_history (final_state py ops st))).
Proof.
  revert st. induction ops as [|[now op] ops IH]; intros st Hops Hst; [done |].
  apply Forall_cons in Hops as [Hop Hops]. unfold final_state. simpl fold_left.
  apply IH; [done |]. rewrite run_append_command_history.
  destruct op; try done. apply Forall_deque_append; [done | apply Hop].
Qed.

Lemma summary_returns_history (py : PyLib) (now : Z) (mcs mhi : Z) (st : monitor)
    (cs os ds fs : list pyval) :
  state_inv mcs mhi st cs os ds fs →
  Forall has_first_word (dq_items (command_history st)) →
  ∃ s, get_session_summary py now st = Ok s.
Proof.
  intros [_ _ _ [start Hsd] _ _ _ _ Hfs _] Hcs.
  unfold get_session_summary, _get_most_used_commands, _get_recent_files.
  rewrite Hsd. simpl.
  destruct (count_commands_ok (dq_items (command_history st)) []) as [r ->];
    [eapply Forall_impl; [exact Hcs | apply has_first_word_basename] |].
  simpl.
  destruct (recent_files_loop_ok py (py_last_n 10 fs) []) as [r' ->];
    [by apply Forall_py_last_n |].
  simpl. eauto.
Qed.

(** X8: the history thread does not break the session summary. When the
    thread of a monitor built by [__init__] with a non-negative
    [max_context_size] works through new history lines, after whatever
    appends, every command among them is logged without an exception and
    [last_size] moves on to the size of the file. Every command it logs
    has a first word. So if each command that the command history holds
    before the turn is empty or has a first word, the same is true after
    the turn, and [get_session_summary] returns. *)
Theorem history_thread_keeps_summary (py : PyLib) (t0 later : Z) (cwd : string)
    (comp : comp_start) (mcs mhi : Z) (st0 : monitor) (ops : list (Z * append_op))
    (new_lines : list (Z * string)) (last_size current_size : Z) :
  init py t0 cwd comp mcs mhi = Ok st0 → 0 <= mcs →
  last_size < current_size →
  let st := final_state py ops st0 in
  let turn := monitor_history_turn py (Ok current_size) (Ok new_lines) st last_size in
  turn = (final_state py (history_appends new_lines) st, current_size)
  ∧ Forall (fun p => ∃ c, p.2 = LogCommand c (Some p.1) ∧ split_ws c ≠ [])
      (history_appends new_lines)
  ∧ (Forall has_first_word (dq_items (command_history st)) →
     Forall has_first_word (dq_items (command_history turn.1))
     ∧ ∃ s, get_session_summary py later turn.1 = Ok s).
Proof.
  intros Hinit Hmcs Hsize st turn.
  destruct (init_inv _ _ _ _ _ _ _ Hinit Hmcs) as [Hinv0 _].
  destruct (final_state_inv py (fun _ => True) ops mcs mhi st0 [] [] [] [] Hinv0)
    as (cs & os & ds & fs & Hinv & _);
    [constructor | apply Forall_forall; by intros [? []] |].
  fold st in Hinv.
  assert (turn = (final_state py (history_appends new_lines) st, current_size)) as Hturn.
  { unfold turn, monitor_history_turn.
    destruct (Z.ltb_spec last_size current_size) as [_ | ?]; [| lia].
    by rewrite (monitor_history_lines_appends py new_lines mcs mhi st cs os ds fs Hinv). }
  split; [exact Hturn |]. split; [apply history_appends_words |].
  intros Hwords. rewrite Hturn. simpl.
  assert (Forall has_first_word
            (dq_items (command_history (final_state py (history_appends new_lines) st))))
    as Hafter.
  { apply final_state_history; [| done].
    eapply Forall_impl; [apply history_appends_have_words |].
    intros p. apply has_basename_first_word. }
  split; [exact Hafter |].
  destruct (final_state_inv py (fun _ => True) (history_appends new_lines) mcs mhi st
              cs os ds fs Hinv) as (cs' & os' & ds' & fs' & Hinv' & _);
    [by apply Forall_forall | apply Forall_forall; by intros [? []] |].
  by eapply summary_returns_history.
Qed.

(** The instance of X8 for a history of two entries that has let go of a
    command of blanks: the thread logs [git status], skips the comment,
    and the summary returns. *)
Lemma history_thread_keeps_summary_witness :
  let st := final_state sample_lib blank_appends (sample_monitor 10000 2) in
  let turn := monitor_history_turn sample_lib (Ok 40) (Ok [(4000000, ": 4:0;git status" +:+ nl);
                                                            (5000000, "# note" +:+ nl)])
                st 20 in
  dq_items (command_history st)
  = [command_entry sample_lib 2000000 "ls" "/tmp"; command_entry sample_lib 3000000 "pwd" "/tmp"]
  ∧ turn.2 = 40
  ∧ dq_items (command_history turn.1)
    = [command_entry sample_lib 3000000 "pwd" "/tmp";
       command_entry sample_lib 4000000 "git status" "/tmp"]
  ∧ ∃ s, get_session_summary sample_lib 9000000 turn.1 = Ok s.
Proof.
  intros st turn.
  assert (dq_items (command_history st)
          = [command_entry sample_lib 2000000 "ls" "/tmp";
             command_entry sample_lib 3000000 "pwd" "/tmp"]) as Hst
    by (vm_compute; reflexivity).
  split; [exact Hst |].
  destruct (history_thread_keeps_summary sample_lib 0 9000000 "/tmp" CompUnavailable 10000 2
              (sample_monitor 10000 2) blank_appends
              [(4000000, ": 4:0;git status" +:+ nl); (5000000, "# note" +:+ nl)] 20 40)
    as (Hturn & _ & Hsum).
  - reflexivity.
  - lia.
  - lia.
  - destruct Hsum as [_ Hs].
    { fold st. rewrite Hst. repeat (apply Forall_cons_2); try apply Forall_nil_2;
        (eexists; split; [reflexivity | right; discriminate]). }
    fold st in Hturn, Hs. fold turn in Hturn, Hs.
    split; [by rewrite Hturn |]. split; [rewrite Hturn; reflexivity | exact Hs].
Defined.

(** ** What a history update queues *)

Lemma process_history_lines_extend (hms : string) (lines : list string) (q : deque cmd_event) :
  process_history_lines hms lines q
  = deque_extend (map (history_event hms) (omap history_line_command lines)) q.
Proof.
  revert q. induction lines as [|raw lines IH]; intros q; [reflexivity |].
  simpl. rewrite IH. by destruct (history_line_command raw).
Qed.

Lemma length_omap_le {A B} (f : A → option B) (l : list A) : (length (omap f l) ≤ length l)%nat.
Proof.
  induction l as [|x l IH]; simpl; [lia |].
  destruct (f x); simpl; [apply le_n_S | apply le_S]; exact IH.
Qed.

Lemma lastn_snoc {A} (n : nat) (l : list A) (x : A) :
  (n ≤ length l)%nat → lastn (S n) (l ++ [x]) = lastn n l ++ [x].
Proof.
  intros Hn. unfold lastn. rewrite length_app. simpl.
  replace (length l + 1 - S n)%nat with (length l - n)%nat by lia.
  by rewrite drop_app_le by lia.
Qed.

(** What a call on a drained queue leaves in it. *)
Lemma history_update_drained (hms : string) (lines : list string) (w : history_watcher) :
  (10 ≤ dq_maxlen (new_commands w))%nat →
  let w' := {| new_commands := (get_new_data (new_commands w)).2 |} in
  commands_of (new_commands (_process_history_update hms (Ok lines) w'))
  = omap history_line_command (lastn 10 lines).
Proof.
  intros Hmax. simpl. rewrite process_history_lines_extend, py_last_n_lastn by lia.
  unfold commands_of.
  destruct (deque_extend_lastn
              (map (history_event hms) (omap history_line_command (lastn 10 lines)))
              (deque_clear (new_commands w)) []) as [-> _].
  { simpl. by destruct (dq_maxlen (new_commands w)). }
  simpl. rewrite lastn_all.
  - rewrite map_map. simpl. apply map_id.
  - rewrite length_map. etrans; [apply length_omap_le |].
    rewrite length_lastn. lia.
Qed.

(** X9: the history watcher of the comprehensive monitor reports the
    last ten lines of the history file at every change, not the lines that
    are new. After one line is added to a file of nine or more lines, the
    call queues again the commands of the nine lines before it, which the
    call before had queued already, and then the command of the new line. *)
Theorem history_update_requeues (hms hms' raw : string) (lines : list string)
    (w w1 : history_watcher) :
  (10 ≤ dq_maxlen (new_commands w))%nat →
  (10 ≤ dq_maxlen (new_commands w1))%nat →
  (9 ≤ length lines)%nat →
  let drained := {| new_commands := (get_new_data (new_commands w)).2 |} in
  let drained1 := {| new_commands := (get_new_data (new_commands w1)).2 |} in
  commands_of (new_commands (_process_history_update hms (Ok lines) drained))
  = omap history_line_command (lastn 10 lines)
  ∧ commands_of (new_commands (_process_history_update hms' (Ok (lines ++ [raw])) drained1))
    = omap history_line_command (lastn 9 lines) ++ omap history_line_command [raw].
Proof.
  intros Hw Hw1 Hlen. split; [by apply history_update_drained |].
  etrans; [by apply history_update_drained |].
  rewrite lastn_snoc by done. apply omap_app.
Qed.

Lemma history_update_requeues_witness :
  let w1 := _process_history_update "12:00:00" (Ok eleven_lines) history_watcher_init in
  let drained1 := {| new_commands := (get_new_data (new_commands w1)).2 |} in
  commands_of (new_commands w1) = ["b"; "c"; "d"; "e"; "f"; "g"; "h"; "i"; "j"; "k"]
  ∧ commands_of (new_commands
      (_process_history_update "12:00:05" (Ok (eleven_lines ++ ["make" +:+ nl])) drained1))
    = ["c"; "d"; "e"; "f"; "g"; "h"; "i"; "j"; "k"; "make"].
Proof.
  destruct (history_update_requeues "12:00:00" "12:00:05" ("make" +:+ nl) eleven_lines
              history_watcher_init
              (_process_history_update "12:00:00" (Ok eleven_lines) history_watcher_init))
    as [_ H2].
  - simpl. lia.
  - simpl. lia.
  - simpl. lia.
  - split; [reflexivity |]. rewrite H2. reflexivity.
Defined.

(** ** Repeated commands in the queue of the history monitor *)

Lemma no_repeats_tail (l : list cmd_event) : no_repeats l → no_repeats (tail l).
Proof. destruct l as [|a l]; [done |]. by intros [_ H]. Qed.

Lemma no_repeats_snoc (l : list cmd_event) (e : cmd_event) :
  no_repeats l →
  match last l with
  | Some a => ce_command a ≠ ce_command e
  | None => True
  end →
  no_repeats (l ++ [e]).
Proof.
  induction l as [|a l IH]; [done |]. intros [Ha Hl] Hlast.
  destruct l as [|b l].
  - simpl in *. done.
  - split; [exact Ha |]. apply IH; [exact Hl | exact Hlast].
Qed.

Lemma read_history_lines_no_repeats (hms : string) (lines : list string) (q : deque cmd_event) :
  no_repeats (dq_items q) → no_repeats (dq_items (read_history_lines hms lines q)).
Proof.
  revert q. induction lines as [|raw lines IH]; intros q Hq; [done |].
  simpl. apply IH.
  destruct (inline_line_command raw) as [c|]; [| done].
  destruct (is_new_command c q) eqn:Hnew; [| done].
  assert (no_repeats (dq_items q ++ [{| ce_timestamp := hms; ce_command := c;
                                        ce_source := "history" |}])) as Happ.
  { apply no_repeats_snoc; [done |]. unfold is_new_command in Hnew.
    destruct (last (dq_items q)) as [a|]; [| done]. simpl.
    apply negb_true_iff, String.eqb_neq in Hnew. done. }
  unfold deque_append. simpl.
  destruct (dq_maxlen q <? _)%nat; [by apply no_repeats_tail | done].
Qed.

(** X10: the queue of the history monitor of [terminal_monitor.py] never
    holds the same command twice in a row: if no two neighbours in the
    queue are equal before [_read_new_history], none are after it,
    whatever the file holds and also when the queue overflows. *)
Theorem read_new_history_no_repeats (hms : string) (file : result (list string))
    (m : history_monitor) :
  no_repeats (dq_items (commands m)) →
  no_repeats (dq_items (commands (_read_new_history hms file m))).
Proof.
  intros Hm. destruct file as [lines | e]; [| done].
  simpl. by apply read_history_lines_no_repeats.
Qed.

Lemma read_new_history_no_repeats_witness :
  no_repeats (dq_items (commands
    (_read_new_history "12:00:00" (Ok ["ls" +:+ nl; "ls" +:+ nl; "pwd" +:+ nl]) history_monitor_init))).
Proof. apply read_new_history_no_repeats. simpl. exact I. Defined.

(** ** Polls of the process monitors *)

Lemma watcher_new_known (known : gset Z) (procs : list proc_info) :
  Forall (fun p => pi_pid p ∈ known) procs → watcher_new known procs = [].
Proof.
  induction procs as [|p procs IH]; [done |]. intros [Hp Hprocs]%Forall_cons.
  unfold watcher_new in *. simpl. rewrite bool_decide_eq_true_2 by done. simpl. by apply IH.
Qed.

Lemma monitor_new_known (known : gset Z) (procs : list proc_info) :
  Forall (fun p => pi_pid p ∈ known) procs → monitor_new known procs = [].
Proof.
  induction procs as [|p procs IH]; [done |]. intros [Hp Hprocs]%Forall_cons.
  unfold monitor_new in *. simpl. rewrite bool_decide_eq_true_2 by done. simpl. by apply IH.
Qed.

Lemma pids_known (known : gset Z) (procs : list proc_info) :
  list_to_set (map pi_pid procs) = known → Forall (fun p => pi_pid p ∈ known) procs.
Proof.
  intros <-. apply Forall_forall. intros p Hp. apply elem_of_list_to_set.
  apply list_elem_of_In, in_map. by apply list_elem_of_In.
Qed.

(** X11: a poll that finds the pids of the poll before changes nothing,
    in either process monitor: no event is queued, whatever the names and
    command lines of the processes are now. Whether a process is reported
    is decided once, when its pid is first seen. *)
Theorem poll_same_pids (hms : string) (procs : list proc_info) (w : process_watcher)
    (m : process_monitor) :
  list_to_set (map pi_pid procs) = known_pids w →
  list_to_set (map pi_pid procs) = pm_known_pids m →
  watcher_poll hms procs w = w ∧ monitor_poll hms procs m = m.
Proof.
  intros Hw Hm. split.
  - pose proof (pids_known _ _ Hw) as Hknown.
    unfold watcher_poll, try_log, watcher_poll_body. unfold mbind, method_bind.
    rewrite watcher_scan_spec
      by (eapply Forall_impl; [exact Hknown |]; intros p Hp; by left).
    rewrite watcher_new_known by done. rewrite Hw. unfold set_self. simpl.
    assert (known_pids w ∖ (known_pids w ∪ ∅) = ∅) as -> by set_solver.
    rewrite elements_empty. simpl.
    assert (known_pids w ∪ ∅ = known_pids w) as -> by set_solver.
    by destruct w.
  - pose proof (pids_known _ _ Hm) as Hknown.
    unfold monitor_poll, try_log, monitor_poll_body. unfold mbind, method_bind.
    rewrite monitor_scan_spec
      by (eapply Forall_impl; [exact Hknown |]; intros p Hp; by left).
    rewrite monitor_new_known by done. rewrite Hm. unfold set_self. simpl.
    assert (pm_known_pids m ∖ (pm_known_pids m ∪ ∅) = ∅) as -> by set_solver.
    rewrite elements_empty. simpl.
    assert (pm_known_pids m ∪ ∅ = pm_known_pids m) as -> by set_solver.
    by destruct m.
Qed.

Lemma poll_same_pids_witness :
  let w := watcher_poll "12:00:00" [proc 1 "sleep"; proc 2 "bar"] process_watcher_init in
  let m := monitor_poll "12:00:00" [proc 1 "sleep"; proc 2 "bar"] process_monitor_init in
  watcher_poll "12:00:02" [proc 1 "bash"; proc 2 "bar"] w = w
  ∧ monitor_poll "12:00:02" [proc 1 "bash"; proc 2 "bar"] m = m
  ∧ dq_items (new_processes w) = [].
Proof.
  destruct (poll_same_pids "12:00:02" [proc 1 "bash"; proc 2 "bar"]
              (watcher_poll "12:00:00" [proc 1 "sleep"; proc 2 "bar"] process_watcher_init)
              (monitor_poll "12:00:00" [proc 1 "sleep"; proc 2 "bar"] process_monitor_init))
    as [Hw Hm].
  - vm_compute. reflexivity.
  - vm_compute. reflexivity.
  - split; [exact Hw |]. split; [exact Hm |]. vm_compute. reflexivity.
Defined.

(** The scan stops at the first new process that cannot be examined. *)
Lemma watcher_scan_abort (hms : string) (pre : list proc_info) (bad : proc_info)
    (post : list proc_info) (current_pids : gset Z) (w : process_watcher) (e : exn) :
  watcher_readable (known_pids w) pre →
  pi_pid bad ∉ known_pids w →
  watcher_is_interesting bad = Raise e →
  watcher_scan hms (pre ++ bad :: post) current_pids w
  = ({| new_processes :=
          deque_extend (map (started_event hms) (watcher_new (known_pids w) pre))
            (new_processes w);
        known_pids := known_pids w;
        process_cache :=
          fold_left (fun c p => <[pi_pid p := p]> c) (watcher_new (known_pids w) pre)
            (process_cache w) |},
     Raise e).
Proof.
  intros Hread Hbad He. revert current_pids w Hread Hbad.
  induction pre as [|p pre IH]; intros cur [q known cache] Hread Hbad.
  - simpl app. simpl watcher_scan.
    unfold mbind at 1, method_bind, get_self. simpl known_pids in *.
    unfold mbind at 1, method_bind.
    destruct (decide (pi_pid bad ∈ known)) as [? | _]; [done |].
    rewrite He. reflexivity.
  - apply Forall_cons in Hread as [Hp Hread]. simpl in Hp, Hread, Hbad.
    change ((p :: pre) ++ bad :: post) with (p :: (pre ++ bad :: post)).
    simpl watcher_scan. unfold watcher_new. simpl List.filter.
    unfold mbind at 1, method_bind, get_self. simpl known_pids.
    unfold mbind at 1, method_bind.
    destruct (decide (pi_pid p ∈ known)) as [Hin | Hnotin].
    + rewrite bool_decide_eq_true_2 by done. simpl. rewrite IH by done. reflexivity.
    + rewrite bool_decide_eq_false_2 by done. simpl negb. simpl andb.
      destruct Hp as [? | [b Hb]]; [done |].
      assert (watcher_interesting_bool p = b) as Hb'
        by (unfold watcher_interesting_bool; by rewrite Hb).
      rewrite !Hb', Hb.
      unfold mbind at 1, method_bind, lift. destruct b; simpl.
      * rewrite IH by done. reflexivity.
      * rewrite IH by done. reflexivity.
Qed.

(** X12: a new process whose name or command line psutil could not read
    ends the poll of the process watcher. The started events of the
    processes before it are queued, but [known_pids] is left as it was and
    no process is reported as terminated; so the next poll of the same
    snapshot queues the same started events once more. *)
Theorem watcher_poll_unreadable (hms hms' : string) (pre : list proc_info) (bad : proc_info)
    (post : list proc_info) (w : process_watcher) (e : exn) :
  watcher_readable (known_pids w) pre →
  pi_pid bad ∉ known_pids w →
  watcher_is_interesting bad = Raise e →
  let evs t := map (started_event t) (watcher_new (known_pids w) pre) in
  let w' := watcher_poll hms (pre ++ bad :: post) w in
  known_pids w' = known_pids w
  ∧ new_processes w' = deque_extend (evs hms) (new_processes w)
  ∧ process_cache w'
    = fold_left (fun c p => <[pi_pid p := p]> c) (watcher_new (known_pids w) pre) (process_cache w)
  ∧ new_processes (watcher_poll hms' (pre ++ bad :: post) w')
    = deque_extend (evs hms') (deque_extend (evs hms) (new_processes w)).
Proof.
  intros Hread Hbad He evs w'.
  assert (∀ t w0, known_pids w0 = known_pids w →
            watcher_poll t (pre ++ bad :: post) w0
            = {| new_processes := deque_extend (evs t) (new_processes w0);
                 known_pids := known_pids w;
                 process_cache :=
                   fold_left (fun c p => <[pi_pid p := p]> c) (watcher_new (known_pids w) pre)
                     (process_cache w0) |}) as Hpoll.
  { intros t w0 Hk. unfold watcher_poll, try_log, watcher_poll_body. unfold mbind, method_bind.
    rewrite (watcher_scan_abort t pre bad post ∅ w0 e) by (rewrite ?Hk; done).
    simpl. by rewrite Hk. }
  unfold w'. rewrite (Hpoll hms' _) by (by rewrite Hpoll).
  rewrite (Hpoll hms w) by done. simpl. done.
Qed.

Lemma watcher_poll_unreadable_witness :
  let snapshot := [proc 1 "vim"; denied 2 "launchd"; proc 3 "bash"] in
  let w' := watcher_poll "12:00:00" snapshot process_watcher_init in
  known_pids w' = ∅
  ∧ map event_summary (dq_items (new_processes w')) = [(started, 1)]
  ∧ map event_summary (dq_items (new_processes (watcher_poll "12:00:02" snapshot w')))
    = [(started, 1); (started, 1)].
Proof.
  destruct (watcher_poll_unreadable "12:00:00" "12:00:02" [proc 1 "vim"] (denied 2 "launchd")
              [proc 3 "bash"] process_watcher_init (Exn TypeError "can only join an iterable"))
    as (Hk & Hq & _ & Hq2).
  - repeat (apply Forall_cons_2); try apply Forall_nil_2. right. eexists. reflexivity.
  - vm_compute. set_solver.
  - reflexivity.
  - split; [exact Hk |]. simpl app in *. split; [rewrite Hq | rewrite Hq2]; vm_compute; reflexivity.
Defined.

(** ** The cache of the process watcher *)

Lemma watcher_terminate_cache (hms : string) (pids : list Z) (w : process_watcher) (pid : Z) :
  process_cache (fold_left (watcher_terminate hms) pids w) !! pid
  = if decide (pid ∈ pids) then None else process_cache w !! pid.
Proof.
  revert w. induction pids as [|a pids IH]; intros w.
  - simpl. destruct (decide (pid ∈ [])) as [H | _]; [by apply elem_of_nil in H | done].
  - simpl fold_left. rewrite IH.
    assert (process_cache (watcher_terminate hms w a) !! pid
            = if decide (pid = a) then None else process_cache w !! pid) as Hstep.
    { unfold watcher_terminate. destruct (process_cache w !! a) as [info|] eqn:Ha; simpl.
      - destruct (decide (pid = a)) as [-> | Hne];
          [apply lookup_delete_eq | by apply lookup_delete_ne].
      - by destruct (decide (pid = a)) as [-> | Hne]. }
    rewrite Hstep.
    destruct (decide (pid ∈ pids)) as [Hin | Hnin], (decide (pid = a)) as [-> | Hne],
      (decide (_ ∈ a :: pids)) as [Hin' | Hnin']; try done; set_solver.
Qed.

Lemma fold_insert_lookup (l : list proc_info) (c : gmap Z proc_info) (pid : Z) (p : proc_info) :
  fold_left (fun c p => <[pi_pid p := p]> c) l c !! pid = Some p →
  (p ∈ l ∧ pi_pid p = pid) ∨ c !! pid = Some p.
Proof.
  revert c. induction l as [|x l IH]; intros c; simpl; [by right |].
  intros [[Hin Hpid] | Hc]%IH.
  - left. split; [by right | done].
  - destruct (decide (pi_pid x = pid)) as [Heq | Hne].
    + rewrite <- Heq, lookup_insert_eq in Hc. injection Hc as <-. left. split; [by left | done].
    + rewrite lookup_insert_ne in Hc by done. by right.
Qed.

(** X13: a poll of the process watcher that completes keeps its cache
    tidy: if every cached process is a known pid, cached under its own pid,
    and interesting, the same holds after the poll. The cache then holds
    processes of the latest snapshot only, so it cannot outgrow the process
    table. *)
Theorem watcher_cache_live (hms : string) (procs : list proc_info) (w : process_watcher) :
  watcher_readable (known_pids w) procs →
  cache_inv w →
  cache_inv (watcher_poll hms procs w)
  ∧ known_pids (watcher_poll hms procs w) = list_to_set (map pi_pid procs).
Proof.
  intros Hread Hinv.
  unfold watcher_poll, try_log, watcher_poll_body. unfold mbind, method_bind.
  rewrite watcher_scan_spec by done. unfold set_self. simpl.
  split; [| set_solver].
  intros pid p. simpl. rewrite watcher_terminate_cache. simpl.
  destruct (decide (pid ∈ elements _)) as [? | Hnt]; [done |].
  rewrite elem_of_elements in Hnt.
  intros [[Hin Hpid] | Hc]%fold_insert_lookup.
  - apply list_elem_of_In, filter_In in Hin as [Hin Hp].
    apply andb_true_iff in Hp as [_ Hi]. unfold watcher_interesting_bool in Hi.
    split; [| split; [done |]].
    + apply elem_of_union_l, elem_of_list_to_set. rewrite <- Hpid.
      apply list_elem_of_In, in_map, Hin.
    + by destruct (watcher_is_interesting p) as [[]|].
  - destruct (Hinv pid p Hc) as (Hk & Hpid & Hi). split; [| done].
    destruct (decide (pid ∈ (list_to_set (map pi_pid procs) ∪ ∅ : gset Z))) as [? | Hn]; [done |].
    exfalso. apply Hnt. by apply elem_of_difference.
Qed.

Lemma watcher_cache_live_witness :
  cache_inv (watcher_poll "12:00:00" (snapshot_12 "vim") process_watcher_init)
  ∧ known_pids (watcher_poll "12:00:00" (snapshot_12 "vim") process_watcher_init) = {[1; 2]}.
Proof.
  destruct (watcher_cache_live "12:00:00" (snapshot_12 "vim") process_watcher_init) as [Hc Hk].
  - repeat (apply Forall_cons_2); try apply Forall_nil_2; right; eexists; reflexivity.
  - intros pid p H. simpl in H. by rewrite lookup_empty in H.
  - split; [exact Hc |]. rewrite Hk. vm_compute. reflexivity.
Defined.

(** ** Changes of the environment *)

Lemma fold_append_filter {A B} (P : A → bool) (mk : A → B) (l : list A) (q : deque B) :
  fold_left (fun q x => if P x then deque_append (mk x) q else q) l q
  = deque_extend (map mk (List.filter P l)) q.
Proof.
  revert q. induction l as [|x l IH]; intros q; [done |].
  simpl. rewrite IH. by destruct (P x).
Qed.

Lemma alist_get_NoDup {V} (k : string) (v : V) (d : list (string * V)) :
  NoDup (map fst d) → alist_get k d = Some v ↔ (k, v) ∈ d.
Proof.
  induction d as [|[k' v'] d IH]; simpl.
  - intros _. split; [done | by intros ?%elem_of_nil].
  - intros [Hk' Hd]%NoDup_cons. destruct (String.eqb_spec k' k) as [-> | Hne].
    + split.
      * intros [= ->]. by left.
      * intros [[= ->] | Hin]%elem_of_cons; [done |].
        exfalso. apply Hk'. apply list_elem_of_In, in_map_iff. exists (k, v).
        split; [done | by apply list_elem_of_In].
    + rewrite IH by done. split.
      * intros Hin. by right.
      * intros [[= -> ->] | Hin]%elem_of_cons; [done | done].
Qed.

Lemma env_changed_true (last_env : list (string * string)) (k v : string) :
  env_changed last_env k v = true ↔ alist_get k last_env ≠ Some v.
Proof.
  unfold env_changed. destruct (alist_get k last_env) as [v'|]; [| done].
  destruct (String.eqb_spec v' v) as [-> | Hne]; simpl; split; try done.
  intros _ [= ?]. done.
Qed.

(** X14: a turn of the environment monitor queues an event for a
    variable and a value exactly when the variable has that value now and
    did not have it at the turn before. A variable that was removed is
    not reported, and a second turn on the same environment changes
    nothing. *)
Theorem environment_poll_reports (hms hms' : string) (current_env : list (string * string))
    (m : environment_monitor) :
  NoDup (map fst current_env) →
  let m' := environment_poll hms current_env m in
  ∃ evs,
    new_changes m' = deque_extend evs (new_changes m)
    ∧ last_env m' = current_env
    ∧ (∀ k v, (k, v) ∈ map env_pair evs ↔
              alist_get k current_env = Some v ∧ alist_get k (last_env m) ≠ Some v)
    ∧ (∀ k, alist_get k current_env = None → k ∉ map ee_variable evs)
    ∧ environment_poll hms' current_env m' = m'.
Proof.
  intros Hnd m'. unfold m', environment_poll. simpl.
  set (mk t := fun kv : string * string =>
                 {| ee_variable := kv.1; ee_value := kv.2; ee_timestamp := t;
                    ee_action := "changed" |}).
  rewrite (fold_append_filter (fun kv => env_changed (last_env m) kv.1 kv.2) (mk hms)).
  set (changed := List.filter (fun kv => env_changed (last_env m) kv.1 kv.2) current_env).
  assert (map env_pair (map (mk hms) changed) = changed) as Hpairs.
  { rewrite map_map. unfold env_pair. simpl. rewrite <- (map_id changed) at 2.
    apply map_ext. by intros []. }
  exists (map (mk hms) changed). split; [done |]. split; [done |]. split; [| split].
  - intros k v. rewrite Hpairs. unfold changed.
    rewrite list_elem_of_In, filter_In, <- list_elem_of_In. simpl.
    rewrite env_changed_true, <- (alist_get_NoDup k v current_env Hnd). done.
  - intros k Hk Hin.
    assert (map ee_variable (map (mk hms) changed) = map fst changed) as Hvars
      by (rewrite map_map; by apply map_ext).
    rewrite Hvars in Hin. apply list_elem_of_In, in_map_iff in Hin as ([k' v] & <- & Hin).
    apply filter_In in Hin as [Hin _]. apply list_elem_of_In in Hin.
    apply alist_get_NoDup in Hin; [| done]. simpl in Hk. congruence.
  - rewrite (fold_append_filter (fun kv => env_changed current_env kv.1 kv.2) (mk hms')).
    assert (List.filter (fun kv => env_changed current_env kv.1 kv.2) current_env = []) as ->; [| done].
    assert (∀ l, (∀ kv, kv ∈ l → env_changed current_env kv.1 kv.2 = false) →
                 List.filter (fun kv => env_changed current_env kv.1 kv.2) l = []) as Hnone.
    { induction l as [|kv l IHl]; [done |]. intros Hl. simpl.
      rewrite Hl by (by left). apply IHl. intros kv' Hkv'. apply Hl. by right. }
    apply Hnone. intros [k v] Hin. simpl.
    apply alist_get_NoDup in Hin; [| done].
    destruct (env_changed current_env k v) eqn:Hc; [| done].
    apply env_changed_true in Hc. done.
Qed.

Lemma environment_poll_reports_witness :
  let m' := environment_poll "12:00:00" later_environ (environment_monitor_init sample_environ) in
  map env_pair (dq_items (new_changes m')) = [("PWD", "/srv"); ("LANG", "C")]
  ∧ environment_poll "12:00:10" later_environ m' = m'.
Proof.
  destruct (environment_poll_reports "12:00:00" "12:00:10" later_environ
              (environment_monitor_init sample_environ)) as (evs & _ & _ & _ & _ & Hsame).
  - vm_compute. repeat (apply NoDup_cons_2; [set_solver |]). apply NoDup_nil_2.
  - split; [reflexivity | exact Hsame].
Defined.

(** ** The coordination loop *)

Lemma process_history_data_spec (data : list cmd_event) (cm : comp_monitor) :
  process_history_data data cm
  = {| is_monitoring := is_monitoring cm;
       terminal_buffer := deque_extend (map history_entry data) (terminal_buffer cm);
       comp_session_data :=
         {| cs_commands := cs_commands (comp_session_data cm) ++ data;
            cs_outputs := cs_outputs (comp_session_data cm);
            cs_processes := cs_processes (comp_session_data cm);
            cs_files_accessed := cs_files_accessed (comp_session_data cm) |} |}.
Proof.
  revert cm. induction data as [|item data IH]; intros [mon buf [cs os ps fs]].
  - simpl. by rewrite app_nil_r.
  - unfold process_history_data in *. simpl fold_left. rewrite IH. simpl.
    by rewrite <- app_assoc.
Qed.

Lemma process_watcher_data_spec (data : list proc_event) (cm : comp_monitor) :
  process_watcher_data data cm
  = {| is_monitoring := is_monitoring cm;
       terminal_buffer := deque_extend (map process_entry data) (terminal_buffer cm);
       comp_session_data :=
         {| cs_commands := cs_commands (comp_session_data cm);
            cs_outputs := cs_outputs (comp_session_data cm);
            cs_processes := cs_processes (comp_session_data cm) ++ data;
            cs_files_accessed := cs_files_accessed (comp_session_data cm) |} |}.
Proof.
  revert cm. induction data as [|item data IH]; intros [mon buf [cs os ps fs]].
  - simpl. by rewrite app_nil_r.
  - unfold process_watcher_data in *. simpl fold_left. rewrite IH. simpl.
    by rewrite <- app_assoc.
Qed.

Lemma process_environment_data_spec (data : list env_event) (cm : comp_monitor) :
  process_environment_data data cm = cm.
Proof. unfold process_environment_data. induction data as [|item data IH]; [done | exact IH]. Qed.

(** X15: a turn of the coordination loop empties the queues of the three
    source monitors. The commands go to the terminal buffer and the
    session data first, then the process events, whatever their
    timestamps are; the changes of the environment are taken from their
    queue and dropped, so they reach neither the buffer nor the session
    data. *)
Theorem coordination_turn_merges (c : coordinator) :
  let cmds := dq_items (new_commands (co_shell_history c)) in
  let procs := dq_items (new_processes (co_process_watcher c)) in
  let cm := co_monitor c in
  let c' := coordination_turn c in
  terminal_buffer (co_monitor c')
  = deque_extend (map history_entry cmds ++ map process_entry procs) (terminal_buffer cm)
  ∧ cs_commands (comp_session_data (co_monitor c')) = cs_commands (comp_session_data cm) ++ cmds
  ∧ cs_processes (comp_session_data (co_monitor c')) = cs_processes (comp_session_data cm) ++ procs
  ∧ cs_outputs (comp_session_data (co_monitor c')) = cs_outputs (comp_session_data cm)
  ∧ cs_files_accessed (comp_session_data (co_monitor c')) = cs_files_accessed (comp_session_data cm)
  ∧ dq_items (new_commands (co_shell_history c')) = []
  ∧ dq_items (new_processes (co_process_watcher c')) = []
  ∧ dq_items (new_changes (co_environment_monitor c')) = []
  ∧ ∀ em, co_monitor (coordination_turn
                         {| co_monitor := co_monitor c;
                            co_shell_history := co_shell_history c;
                            co_process_watcher := co_process_watcher c;
                            co_environment_monitor := em |}) = co_monitor c'.
Proof.
  unfold coordination_turn. simpl.
  rewrite !process_environment_data_spec, process_watcher_data_spec, process_history_data_spec.
  simpl. rewrite deque_extend_app. repeat (split; [done |]).
  intros em. by rewrite !process_environment_data_spec.
Qed.

(** ** The session summary of the comprehensive monitor *)

Lemma process_history_lines_words (hms : string) (lines : list string) (q : deque cmd_event) :
  Forall has_word (dq_items q) → Forall has_word (dq_items (process_history_lines hms lines q)).
Proof.
  revert q. induction lines as [|raw lines IH]; intros q Hq; [done |].
  simpl. apply IH. destruct (history_line_command raw) as [c|] eqn:Hc; [| done].
  apply Forall_deque_append; [done |]. unfold has_word. simpl.
  by apply history_line_command_word in Hc as [_ Hc].
Qed.

Lemma deque_extend_length {A} (xs : list A) (d : deque A) :
  (length (dq_items d) ≤ dq_maxlen d)%nat →
  (length (dq_items (deque_extend xs d)) ≤ dq_maxlen d)%nat
  ∧ dq_maxlen (deque_extend xs d) = dq_maxlen d.
Proof.
  revert d. induction xs as [|x xs IH]; intros d Hd; [done |].
  unfold deque_extend in *. simpl fold_left.
  destruct (IH (deque_append x d)) as [Hl Hm].
  { rewrite deque_append_maxlen. by apply deque_append_length. }
  rewrite deque_append_maxlen in Hl, Hm. done.
Qed.

Lemma start_monitoring_buffer (existing : option string) (cm : comp_monitor) :
  (length (dq_items (terminal_buffer cm)) ≤ dq_maxlen (terminal_buffer cm))%nat →
  comp_session_data (start_monitoring existing cm) = comp_session_data cm
  ∧ dq_maxlen (terminal_buffer (start_monitoring existing cm)) = dq_maxlen (terminal_buffer cm)
  ∧ (length (dq_items (terminal_buffer (start_monitoring existing cm)))
     ≤ dq_maxlen (terminal_buffer cm))%nat.
Proof.
  intros Hlen. unfold start_monitoring. destruct (is_monitoring cm); [done |].
  destruct existing as [content|]; [| done].
  destruct (String.eqb content EmptyString); [done |].
  cbn [comp_session_data terminal_buffer]. rewrite deque_append_maxlen.
  split; [done |]. split; [done |]. by apply deque_append_length.
Qed.

Lemma run_activity_inv (a : activity) (c : coordinator) :
  coordinator_inv c → coordinator_inv (run_activity a c).
Proof.
  intros [Hcs Hq Hfs Hm Hb]. destruct a as [existing | hms file | hms procs | hms env |].
  - destruct (start_monitoring_buffer existing (co_monitor c)) as (Hsd & Hm' & Hb');
      [by rewrite Hm |].
    split; cbn [run_activity co_monitor co_shell_history]; rewrite ?Hsd, ?Hm'; try done.
    by rewrite <- Hm.
  - split; simpl; try done. destruct file as [lines | e]; [| done].
    simpl. by apply process_history_lines_words.
  - by split.
  - by split.
  - simpl. unfold coordination_turn. simpl.
    rewrite !process_environment_data_spec, process_watcher_data_spec, process_history_data_spec.
    destruct (deque_extend_length (map history_entry (dq_items (new_commands (co_shell_history c))))
                (terminal_buffer (co_monitor c))) as [Hl1 Hm1]; [by rewrite Hm |].
    destruct (deque_extend_length (map process_entry (dq_items (new_processes (co_process_watcher c))))
                (deque_extend (map history_entry (dq_items (new_commands (co_shell_history c))))
                   (terminal_buffer (co_monitor c)))) as [Hl2 Hm2]; [by rewrite Hm1 |].
    split; simpl.
    + apply Forall_app. by split.
    + constructor.
    + done.
    + by rewrite Hm2, Hm1.
    + by rewrite Hm1, Hm in Hl2.
Qed.

Lemma run_activities_inv (l : list activity) (c : coordinator) :
  coordinator_inv c → coordinator_inv (run_activities l c).
Proof.
  revert c. induction l as [|a l IH]; intros c Hc; [done |].
  apply IH. by apply run_activity_inv.
Qed.

Lemma count_command_sum (b : string) (d : list (string * nat)) :
  list_sum (map snd (count_command b d)) = S (list_sum (map snd d)).
Proof.
  unfold count_command. induction d as [|[k n] d IH]; [done |].
  simpl. destruct (String.eqb k b); simpl; [lia |].
  simpl in IH. rewrite IH. lia.
Qed.

Lemma command_frequency_loop_words (cmds : list cmd_event) (acc : list (string * nat)) :
  Forall has_word cmds →
  ∃ r, command_frequency_loop cmds acc = Ok r
       ∧ list_sum (map snd r) = (list_sum (map snd acc) + length cmds)%nat.
Proof.
  revert acc. induction cmds as [|e cmds IH]; intros acc Hcmds.
  - exists acc. split; [done |]. simpl. lia.
  - apply Forall_cons in Hcmds as [He Hcmds]. unfold has_word in He. simpl.
    unfold base_cmd. destruct (ce_command e) as [|ch s] eqn:Hce; [done |]. simpl nonempty. cbv iota.
    destruct (split_ws (String ch s)) as [|t ts]; [done |]. simpl.
    destruct (IH (count_command t acc) Hcmds) as (r & Hr & Hsum).
    exists r. split; [done |]. rewrite Hsum, count_command_sum. simpl. lia.
Qed.

Lemma list_sum_perm (l k : list nat) : l ≡ₚ k → list_sum l = list_sum k.
Proof. induction 1; simpl; lia. Qed.

(** X16: the session summary of the comprehensive monitor cannot fail on
    what the monitor collects. Whatever the history file, the process
    table and the environment show, and in whatever order the threads
    take their turns, [get_session_summary] returns; it counts every
    command taken from the history queue, the frequencies it lists add up
    to that count and are in descending order, and the buffer holds at
    most 2000 lines. *)
Theorem comprehensive_summary_returns (py : PyLib) (now start_time : Z)
    (environ : list (string * string)) (l : list activity) :
  let cm := co_monitor (run_activities l (coordinator_init environ)) in
  ∃ s, comp_get_session_summary py now start_time cm = Ok s
       ∧ csum_total_commands s = length (cs_commands (comp_session_data cm))
       ∧ list_sum (map snd (csum_command_frequency s)) = csum_total_commands s
       ∧ StronglySorted (fun x y => (y.2 ≤ x.2)%nat) (csum_command_frequency s)
       ∧ csum_total_file_access s = 0%nat
       ∧ (csum_buffer_size s ≤ 2000)%nat.
Proof.
  intros cm.
  assert (coordinator_inv (run_activities l (coordinator_init environ))) as [Hcs _ Hfs _ Hb].
  { apply run_activities_inv. split; simpl; try done; lia. }
  fold cm in Hcs, Hfs, Hb.
  destruct (command_frequency_loop_words _ [] Hcs) as (r & Hr & Hsum).
  unfold comp_get_session_summary. rewrite Hr, Hfs. simpl.
  eexists. split; [reflexivity |]. simpl. split; [done |]. split.
  { rewrite (list_sum_perm _ (map snd r)); [done |].
    apply Permutation_map, sort_by_count_desc_perm. }
  split; [apply sort_by_count_desc_sorted |]. done.
Qed.

(** ** The keys of the file references *)

Lemma alist_set_keys {V} (k : string) (v : V) (d : list (string * V)) :
  map fst (alist_set k v d)
  = if existsb (fun k' => String.eqb k' k) (map fst d) then map fst d else map fst d ++ [k].
Proof.
  induction d as [|[k' v'] d IH]; [done |].
  simpl. destruct (String.eqb_spec k' k) as [-> | Hne]; simpl; [done |].
  rewrite IH. by destruct (existsb _ (map fst d)).
Qed.

Lemma filter_filter_and {A} (p q : A → bool) (l : list A) :
  List.filter q (List.filter p l) = List.filter (fun y => p y && q y) l.
Proof.
  induction l as [|x l IH]; [done |]. simpl. destruct (p x); simpl; [| done].
  destruct (q x); by rewrite IH.
Qed.

Lemma fold_alist_set_keys {V} (f : string → V) (l : list string) (d : list (string * V)) :
  map fst (fold_left (fun d m => alist_set m (f m) d) l d)
  = map fst d
    ++ List.filter (fun y => negb (existsb (fun k' => String.eqb k' y) (map fst d)))
         (first_occurrences l).
Proof.
  revert d. induction l as [|x l IH]; intros d.
  - simpl. by rewrite app_nil_r.
  - simpl fold_left. rewrite IH, alist_set_keys. simpl first_occurrences. simpl List.filter.
    rewrite filter_filter_and.
    destruct (existsb (fun k' => String.eqb k' x) (map fst d)) eqn:Hx; simpl.
    + f_equal. apply filter_ext_in. intros y _.
      destruct (String.eqb_spec y x) as [-> | Hne]; simpl; [by rewrite Hx | done].
    + rewrite <- app_assoc. simpl. do 2 f_equal. apply filter_ext_in. intros y _.
      rewrite existsb_app. simpl. rewrite orb_false_r, negb_orb, andb_comm.
      by rewrite (String.eqb_sym x y).
Qed.

Lemma filter_all {A} (l : list A) : List.filter (fun _ => true) l = l.
Proof. induction l as [|x l IH]; [done |]. simpl. by rewrite IH. Qed.

(** X17: the mapping [parse_file_references] returns has one key for
    every distinct reference of the message, in the order in which the
    references first appear; a reference that is repeated gets no second
    key, and its value is what the last reading of the path gave. *)
Theorem parse_file_references_keys (fs : filesystem) (cwd message : string) :
  ∃ file_contents,
    parse_file_references fs cwd message = Ok file_contents
    ∧ map fst file_contents = first_occurrences (findall_references message)
    ∧ NoDup (map fst file_contents)
    ∧ ∀ m, m ∈ findall_references message →
           alist_get m file_contents = Some (reference_value fs cwd m).
Proof.
  unfold parse_file_references. rewrite store_references_spec.
  eexists. split; [reflexivity |].
  assert (map fst (fold_left (fun d m => alist_set m (reference_value fs cwd m) d)
                     (findall_references message) [])
          = first_occurrences (findall_references message)) as Hkeys.
  { rewrite fold_alist_set_keys. simpl. apply filter_all. }
  split; [exact Hkeys |]. split.
  - rewrite Hkeys. generalize (findall_references message) as l.
    induction l as [|x l IH]; simpl; [constructor |].
    apply NoDup_cons. split.
    + intros [_ Hx]%list_elem_of_In%filter_In. by rewrite String.eqb_refl in Hx.
    + by apply NoDup_list_filter.
  - intros m Hm. by apply fold_alist_set_in.
Qed.

(** ** The shape of a reference *)

Lemma forallb_snoc {A} (p : A → bool) (l : list A) (x : A) :
  forallb p (l ++ [x]) = forallb p l && p x.
Proof. rewrite forallb_app. simpl. by rewrite andb_true_r. Qed.

Lemma list_ascii_app (a b : string) :
  list_ascii_of_string (a +:+ b) = list_ascii_of_string a ++ list_ascii_of_string b.
Proof. induction a as [|c a IH]; [done |]. simpl. by rewrite IH. Qed.

Lemma findall_from_tokens (group : option string) (message : string) :
  (∀ t, group = Some t → forallb token_char (list_ascii_of_string t) = true) →
  Forall (fun t => is_token t = true) (findall_from group message).
Proof.
  revert group. induction message as [|c rest IH]; intros group Hgroup.
  - simpl. destruct group as [t|]; simpl; [| constructor].
    destruct (nonempty t) eqn:Ht; [| constructor].
    constructor; [| constructor]. unfold is_token. by rewrite Ht, Hgroup.
  - assert (Forall (fun t => is_token t = true)
              (findall_from (if Ascii.eqb c at_sign then Some EmptyString else None) rest)) as Hnext.
    { apply IH. intros t. destruct (Ascii.eqb c at_sign); [| done]. by intros [= <-]. }
    simpl. destruct group as [t|]; [| exact Hnext].
    destruct (token_char c) eqn:Hc.
    + apply IH. intros t' [= <-]. rewrite list_ascii_app, forallb_app. simpl.
      by rewrite (Hgroup t eq_refl), Hc.
    + apply Forall_app. split; [| exact Hnext].
      simpl. destruct (nonempty t) eqn:Ht; [| constructor].
      constructor; [| constructor]. unfold is_token. by rewrite Ht, (Hgroup t eq_refl).
Qed.

Lemma findall_from_no_at (message : string) :
  forallb (fun c => negb (Ascii.eqb c at_sign)) (list_ascii_of_string message) = true →
  findall_from None message = [].
Proof.
  induction message as [|c rest IH]; [done |]. simpl.
  intros [Hc Hrest]%andb_true_iff. apply negb_true_iff in Hc. rewrite Hc. by apply IH.
Qed.

Lemma parse_file_references_keys_witness :
  ∃ file_contents,
    parse_file_references tmp_fs "/tmp" "diff @a.txt @src @a.txt" = Ok file_contents
    ∧ map fst file_contents = ["a.txt"; "src"]
    ∧ alist_get "src" file_contents = Some ("Directory contents:" +:+ nl +:+ "x.py" +:+ nl +:+ "y.py").
Proof.
  destruct (parse_file_references_keys tmp_fs "/tmp" "diff @a.txt @src @a.txt")
    as (d & Hd & Hkeys & _ & Hval).
  exists d. split; [exact Hd |]. split; [rewrite Hkeys; reflexivity |].
  rewrite (Hval "src"); [reflexivity |].
  vm_compute. set_solver.
Defined.

Lemma findall_from_referenced (whole : string) (message : string) (group : option string)
    (consumed : string) :
  whole = consumed +:+ message →
  (∀ t, group = Some t → ∃ p, consumed = p +:+ String at_sign t) →
  Forall (referenced_in whole) (findall_from group message).
Proof.
  revert group consumed. induction message as [|c rest IH]; intros group consumed Hwhole Hgroup.
  - simpl. destruct group as [t|]; simpl; [| constructor].
    destruct (nonempty t); [| constructor]. constructor; [| constructor].
    destruct (Hgroup t eq_refl) as [p Hp]. exists p, EmptyString.
    split; [| done]. by rewrite Hwhole, Hp, !str_app_nil_r.
  - assert (whole = (consumed +:+ String c EmptyString) +:+ rest) as Hwhole'
      by (by rewrite Hwhole, str_app_assoc).
    assert (Forall (referenced_in whole)
              (findall_from (if Ascii.eqb c at_sign then Some EmptyString else None) rest)) as Hnext.
    { apply (IH _ _ Hwhole'). intros t.
      destruct (Ascii.eqb_spec c at_sign) as [-> | _]; [| done].
      intros [= <-]. by exists consumed. }
    simpl. destruct group as [t|]; [| exact Hnext].
    destruct (Hgroup t eq_refl) as [p Hp].
    destruct (token_char c) eqn:Hc.
    + apply (IH _ _ Hwhole'). intros t' [= <-]. exists p.
      by rewrite Hp, str_app_assoc.
    + apply Forall_app. split; [| exact Hnext].
      simpl. destruct (nonempty t); [| constructor]. constructor; [| constructor].
      exists p, (String c rest). split; [| exact Hc].
      by rewrite Hwhole, Hp, str_app_assoc.
Qed.

(** X18: what [parse_file_references] takes for a reference. Every
    reference is a non-empty run of characters that are neither whitespace
    nor [@]; it stands in the message directly after an [@] and ends where
    the message ends or such a character follows. A message without [@]
    has no reference and gets the empty mapping, whatever the files are. *)
Theorem references_are_tokens (message : string) :
  Forall (fun t => is_token t = true ∧ referenced_in message t) (findall_references message)
  ∧ (forallb (fun c => negb (Ascii.eqb c at_sign)) (list_ascii_of_string message) = true →
     ∀ fs cwd, parse_file_references fs cwd message = Ok []).
Proof.
  split.
  - apply Forall_and. split.
    + by apply findall_from_tokens.
    + by apply (findall_from_referenced message message None EmptyString).
  - intros Hno fs cwd. unfold parse_file_references, findall_references.
    by rewrite findall_from_no_at.
Qed.

Lemma references_are_tokens_witness :
  findall_references "mail bob@example.com about @src/main.py, @ and @@x" = ["example.com"; "src/main.py,"; "x"]
  ∧ Forall (fun t => is_token t = true
                     ∧ referenced_in "mail bob@example.com about @src/main.py, @ and @@x" t)
      ["example.com"; "src/main.py,"; "x"]
  ∧ parse_file_references empty_fs "/tmp" "no reference here" = Ok [].
Proof.
  split; [reflexivity |]. split.
  - exact (proj1 (references_are_tokens "mail bob@example.com about @src/main.py, @ and @@x")).
  - apply (proj2 (references_are_tokens "no reference here")). reflexivity.
Defined.

(** ** The history file the monitors watch *)

Lemma nonempty_app_r (a b : string) : nonempty b = true → nonempty (a +:+ b) = true.
Proof. destruct a; [done | reflexivity]. Qed.

Lemma path_join_nonempty (a b : string) : nonempty b = true → nonempty (path_join a b) = true.
Proof.
  intros Hb. unfold path_join. destruct (startswith b "/"); [done |].
  destruct (negb (nonempty a) || endswith_slash a); by repeat apply nonempty_app_r.
Qed.

(** X19: the history thread of the basic monitor and the one of the
    comprehensive monitor agree whenever the basic one finds a file to
    watch, and the comprehensive one watches existing files only. They
    differ when the file of the login shell is missing: with [bash] as
    shell and only [~/.zsh_history] on the disk the basic thread gives up
    while the comprehensive one watches [~/.zsh_history]. *)
Theorem history_file_choice (path_exists : string → bool) (shell home : string) :
  (∀ p, basic_watched_file path_exists shell home = Some p →
        comprehensive_watched_file path_exists shell home = Some p)
  ∧ (∀ p, comprehensive_watched_file path_exists shell home = Some p → path_exists p = true)
  ∧ (contains shell "bash" = true →
     path_exists (path_join home ".bash_history") = false →
     path_exists (path_join home ".zsh_history") = true →
     basic_watched_file path_exists shell home = None
     ∧ comprehensive_watched_file path_exists shell home
       = Some (path_join home ".zsh_history")).
Proof.
  unfold basic_watched_file, comprehensive_watched_file, _get_shell_history_file,
    _find_history_file.
  split; [| split].
  - intros p.
    assert (∀ p0 rest, (if nonempty p0 && path_exists p0 then Some p0 else None) = Some p →
              match find path_exists ([p0] ++ rest) with
              | Some h => if nonempty h then Some h else None
              | None => None
              end = Some p) as Hfirst.
    { intros p0 rest. destruct (nonempty p0) eqn:Hne; [| done].
      destruct (path_exists p0) eqn:Hex; [| done]. simpl. intros [= <-]. by rewrite Hex, Hne. }
    destruct (contains shell "bash"); [apply Hfirst |].
    destruct (contains shell "zsh"); [apply Hfirst |].
    destruct (contains shell "fish"); [apply Hfirst |].
    simpl app. destruct (find path_exists (common_history_files home)) as [h|]; [| done].
    destruct (nonempty h); [| done]. by destruct (path_exists h).
  - intros p. destruct (find path_exists _) as [h|] eqn:Hfind; [| done].
    destruct (nonempty h); [| done]. intros [= <-]. by apply find_some in Hfind as [_ ?].
  - intros -> Hbash Hzsh. rewrite Hbash, andb_false_r. split; [done |].
    simpl. rewrite Hbash, Hzsh. by rewrite path_join_nonempty.
Qed.

Lemma history_file_choice_witness :
  basic_watched_file only_zsh_history "/bin/bash" "/home/dev" = None
  ∧ comprehensive_watched_file only_zsh_history "/bin/bash" "/home/dev"
    = Some "/home/dev/.zsh_history".
Proof.
  apply (proj2 (proj2 (history_file_choice only_zsh_history "/bin/bash" "/home/dev")));
    reflexivity.
Defined.

(** ** The active processes of the terminal context *)

Lemma length_py_last_n {A} (n : nat) (l : list A) : (0 < n)%nat → (length (py_last_n n l) ≤ n)%nat.
Proof. intros Hn. rewrite py_last_n_lastn by done. rewrite length_lastn. lia. Qed.

Lemma active_process_lines_unreadable (own_pid : Z) (procs : list proc_info) (p : proc_info) :
  p ∈ procs → pi_pid p ≠ own_pid → display_cmdline p = None →
  active_process_lines own_pid procs = raise TypeError "object of type 'NoneType' has no len()".
Proof.
  intros Hin Hpid Hnone. induction procs as [|x procs IH]; [by apply elem_of_nil in Hin |].
  simpl. apply elem_of_cons in Hin as [<- | Hin].
  - unfold active_process_line. destruct (Z.eqb_spec (pi_pid p) own_pid); [done |].
    by rewrite Hnone.
  - rewrite (IH Hin). unfold active_process_line.
    destruct (pi_pid x =? own_pid); [done |]. by destruct (display_cmdline x).
Qed.

Lemma active_process_lines_Ok (own_pid : Z) (procs : list proc_info) (current : list string) :
  active_process_lines own_pid procs = Ok current →
  Forall (fun line => ∃ p cmdline,
            p ∈ procs ∧ pi_pid p ≠ own_pid ∧ display_cmdline p = Some cmdline
            ∧ line = "PID " +:+ str_of_Z (pi_pid p) +:+ ": " +:+ shown_cmdline cmdline) current.
Proof.
  revert current. induction procs as [|x procs IH]; intros current; simpl.
  - intros [= <-]. constructor.
  - destruct (active_process_line own_pid x) as [l|] eqn:Hx; [| done]. simpl.
    destruct (active_process_lines own_pid procs) as [r|]; [| done]. simpl. intros [= <-].
    apply Forall_app. split.
    + unfold active_process_line in Hx. destruct (Z.eqb_spec (pi_pid x) own_pid) as [|Hne].
      { injection Hx as <-. constructor. }
      destruct (display_cmdline x) as [cmdline|] eqn:Hc; [| done]. injection Hx as <-.
      constructor; [| constructor]. exists x, cmdline. split; [by left | done].
    + eapply Forall_impl; [by apply IH |]. intros line (p & c & Hin & Hrest).
      exists p, c. split; [by right | done].
Qed.

(** X20: [get_terminal_context] ends with the header of the active
    processes and their block, which has at most ten lines. When every
    process can be shown, each line is that of a process of the snapshot
    other than the monitor itself, with its command line cut at 100
    characters. One process that has neither a command line nor a name
    replaces the whole block by a single error line, and the context is
    returned all the same. *)
Theorem active_processes_block (env : os_env) (lines : Z) (include_history : bool)
    (tm : terminal_monitor) (procs : list proc_info) :
  let own_pid := current_session_pid tm in
  let block := active_processes own_pid (Ok procs) in
  str_suffix (join nl ("=== Active Processes ===" :: block))
    (get_terminal_context env (Ok procs) lines include_history tm)
  ∧ (length block ≤ 10)%nat
  ∧ (∀ current, active_process_lines own_pid procs = Ok current →
       block = lastn 10 current
       ∧ Forall (fun line => ∃ p cmdline,
                   p ∈ procs ∧ pi_pid p ≠ own_pid ∧ display_cmdline p = Some cmdline
                   ∧ line = "PID " +:+ str_of_Z (pi_pid p) +:+ ": " +:+ shown_cmdline cmdline)
           block)
  ∧ (∀ p, p ∈ procs → pi_pid p ≠ own_pid → display_cmdline p = None →
       block = ["Error getting processes: object of type 'NoneType' has no len()"]).
Proof.
  intros own_pid block. split; [| unfold block, active_processes; simpl; split; [| split]].
  - unfold get_terminal_context. fold own_pid. fold block.
    rewrite !app_assoc. rewrite <- (app_assoc _ ["=== Active Processes ==="] block).
    rewrite join_app_nl; [| done | done].
    eexists. rewrite str_app_assoc. reflexivity.
  - destruct (active_process_lines own_pid procs); [| simpl; lia].
    apply length_py_last_n. lia.
  - intros current Hcur. rewrite Hcur, py_last_n_lastn by lia. split; [done |].
    apply Forall_drop. by apply active_process_lines_Ok.
  - intros p Hin Hpid Hnone. by rewrite (active_process_lines_unreadable own_pid procs p).
Qed.

Lemma active_processes_block_witness :
  active_processes 4242 (Ok [proc 1 "init"; proc 4242 "python"; proc 7 "vim"])
  = ["PID 1: init"; "PID 7: vim"]
  ∧ active_processes 4242
      (Ok [proc 1 "init"; {| pi_pid := 2; pi_name := None; pi_cmdline := None |}; proc 7 "vim"])
    = ["Error getting processes: object of type 'NoneType' has no len()"].
Proof.
  split; [reflexivity |].
  apply (proj2 (proj2 (proj2 (active_processes_block sample_env 50 true
           (terminal_monitor_init 4242 1)
           [proc 1 "init"; {| pi_pid := 2; pi_name := None; pi_cmdline := None |}; proc 7 "vim"])))
           {| pi_pid := 2; pi_name := None; pi_cmdline := None |}).
  - set_solver.
  - done.
  - reflexivity.
Defined.

(** ** The current directory *)

Lemma session_append_directory (key : string) (entry : pyval) (st : monitor) :
  current_directory (session_append key entry st).1 = current_directory st.
Proof.
  unfold session_append. destruct (session_data st) as [| | | | | |d]; try reflexivity.
  destruct (alist_get key d) as [[]|]; reflexivity.
Qed.

Lemma update_context_buffer_directory (text : string) (st : monitor) :
  current_directory (_update_context_buffer text st).1 = current_directory st.
Proof. destruct (update_context_buffer_fields text st) as [b ->]. reflexivity. Qed.

Lemma run_append_directory (py : PyLib) (now : Z) (op : append_op) (st : monitor) :
  current_directory (run_append py now op st).1
  = match op with
    | LogDirectoryChange d _ => d
    | _ => current_directory st
    end.
Proof.
  destruct op as [c t | o c t | d t | o f t]; simpl run_append.
  - unfold log_command. step_method.
    match goal with |- context [session_append ?k ?e ?s] =>
      pose proof (session_append_directory k e s) as Hd;
      destruct (session_append k e s) as [s1 [[]|err]]
    end; simpl in *; [rewrite update_context_buffer_directory |]; exact Hd.
  - unfold log_output. step_method.
    match goal with |- context [session_append ?k ?e ?s] =>
      pose proof (session_append_directory k e s) as Hd;
      destruct (session_append k e s) as [s1 [[]|err]]
    end; simpl in *; [| exact Hd].
    destruct (String.eqb (strip o) EmptyString); simpl;
      [| rewrite update_context_buffer_directory]; exact Hd.
  - unfold log_directory_change. step_method.
    match goal with |- context [session_append ?k ?e ?s] =>
      pose proof (session_append_directory k e s) as Hd;
      destruct (session_append k e s) as [s1 [[]|err]]
    end; simpl in *; [rewrite update_context_buffer_directory |]; exact Hd.
  - unfold log_file_operation. step_method.
    match goal with |- context [session_append ?k ?e ?s] =>
      pose proof (session_append_directory k e s) as Hd;
      destruct (session_append k e s) as [s1 [[]|err]]
    end; simpl in *; [rewrite update_context_buffer_directory |]; exact Hd.
Qed.

(** X21: the monitor follows the directory changes it is told, and
    nothing else moves it. After any sequence of appends - also ones that
    raise - [current_directory] is the directory of the last
    [log_directory_change], or the starting directory when there was
    none; the directory is taken as given, without a look at the file
    system. *)
Theorem current_directory_follows (py : PyLib) (ops : list (Z * append_op)) (st : monitor) :
  current_directory (final_state py ops st) = last_directory (current_directory st) ops.
Proof.
  revert st. induction ops as [|[now op] ops IH]; intros st; [done |].
  unfold final_state, last_directory in *. simpl fold_left.
  rewrite IH, run_append_directory. by destruct op.
Qed.

(** ** The recent files of the session summary *)

(** The file operations an append adds to the log. *)
Lemma run_append_files (py : PyLib) (now : Z) (op : append_op)
    (mcs mhi : Z) (st : monitor) (cs os ds fs : list pyval) :
  state_inv mcs mhi st cs os ds fs →
  ∃ st' cs' os' ds',
    run_append py now op st = (st', Ok tt)
    ∧ state_inv mcs mhi st' cs' os' ds'
        (fs ++ file_entries py now (current_directory st) op).
Proof.
  intros [Hmcs Hmhi Hpos [start Hsd] Hcm Hom Hci Hoi Hfs Hbuf].
  destruct op as [c t | o c t | d t | o f t]; simpl run_append; simpl file_entries;
    rewrite ?app_nil_r.
  - unfold log_command. step_method. unfold session_append. simpl. rewrite Hsd. simpl.
    set (e := command_entry py (default now t) c (current_directory st)).
    match goal with |- context [_update_context_buffer ?txt ?s] =>
      destruct (update_context_buffer_spec txt s) as (b & -> & Hb & _); [simpl; lia |]
    end.
    simpl in Hb. eexists _, (cs ++ [e]), os, ds.
    split; [reflexivity |].
    split; cbn; rewrite ?deque_append_maxlen; try done; try lia; [eexists; reflexivity |].
    rewrite <- Hcm. apply deque_append_lastn. by rewrite Hcm.
  - unfold log_output. step_method. unfold session_append. simpl. rewrite Hsd. simpl.
    set (e := output_entry py (default now t) c o (current_directory st)).
    assert (∀ b, Z.of_nat (String.length b) <= mcs →
              state_inv mcs mhi
                (set_context_buffer b
                   (set_session_data
                      (PDict [("start_time", start); ("commands", PList cs);
                              ("outputs", PList (os ++ [e])); ("directory_changes", PList ds);
                              ("file_operations", PList fs)])
                      (set_output_history (deque_append e) st))) cs (os ++ [e]) ds fs) as Hst.
    { intros b Hb. split; cbn; rewrite ?deque_append_maxlen; try done; [eexists; reflexivity |].
      rewrite <- Hom. apply deque_append_lastn. by rewrite Hom. }
    destruct (String.eqb (strip o) EmptyString).
    + eexists _, cs, (os ++ [e]), ds. split; [reflexivity |].
      exact (Hst (context_buffer st) Hbuf).
    + match goal with |- context [_update_context_buffer ?txt ?s] =>
        destruct (update_context_buffer_spec txt s) as (b & -> & Hb & _); [simpl; lia |]
      end.
      simpl in Hb. eexists _, cs, (os ++ [e]), ds. split; [reflexivity |].
      apply (Hst b). lia.
  - unfold log_directory_change. step_method. unfold session_append. simpl. rewrite Hsd. simpl.
    match goal with |- context [_update_context_buffer ?txt ?s] =>
      destruct (update_context_buffer_spec txt s) as (b & -> & Hb & _); [simpl; lia |]
    end.
    simpl in Hb. eexists _, cs, os, (ds ++ [_]). split; [reflexivity |].
    split; cbn; rewrite ?deque_append_maxlen; try done; try lia. eexists; reflexivity.
  - unfold log_file_operation. step_method. unfold session_append. simpl. rewrite Hsd. simpl.
    match goal with |- context [_update_context_buffer ?txt ?s] =>
      destruct (update_context_buffer_spec txt s) as (b & -> & Hb & _); [simpl; lia |]
    end.
    simpl in Hb. eexists _, cs, os, ds. split; [reflexivity |].
    split; cbn; rewrite ?deque_append_maxlen; try done; try lia; [eexists; reflexivity |].
    apply Forall_app. split; [done |]. constructor; [| done]. eexists; reflexivity.
Qed.

(** The entries of the log of file operations carry the paths of the
    file operations, in their order. *)
Lemma final_state_files (py : PyLib) (ops : list (Z * append_op)) (mcs mhi : Z)
    (st : monitor) (cs os ds fs : list pyval) (files : list string) :
  state_inv mcs mhi st cs os ds fs →
  Forall2 (fun e f => subscript e "filepath" = Ok (PStr f)) fs files →
  ∃ cs' os' ds' fs',
    state_inv mcs mhi (final_state py ops st) cs' os' ds' fs'
    ∧ Forall2 (fun e f => subscript e "filepath" = Ok (PStr f)) fs' (files ++ logged_files ops).
Proof.
  revert st cs os ds fs files.
  induction ops as [|[now op] ops IH]; intros st cs os ds fs files Hinv Hfiles.
  - exists cs, os, ds, fs. unfold logged_files. simpl. by rewrite app_nil_r.
  - destruct (run_append_files py now op mcs mhi st cs os ds fs Hinv)
      as (st' & cs' & os' & ds' & Hrun & Hinv').
    unfold final_state. simpl fold_left. rewrite Hrun. simpl fst.
    destruct (IH st' cs' os' ds' _ (files ++ logged_files [(now, op)]) Hinv')
      as (cs2 & os2 & ds2 & fs2 & Hinv2 & Hfiles2).
    { apply Forall2_app; [done |]. destruct op; unfold logged_files; simpl; constructor.
      - reflexivity.
      - constructor. }
    exists cs2, os2, ds2, fs2. split; [exact Hinv2 |].
    rewrite <- app_assoc in Hfiles2.
    replace (logged_files ((now, op) :: ops)) with (logged_files [(now, op)] ++ logged_files ops);
      [done |].
    unfold logged_files. simpl. by destruct op.
Qed.

Lemma recent_files_loop_paths (py : PyLib) (file_ops : list pyval) (files acc : list string) :
  (∀ s t, py_eq py (PStr s) (PStr t) = String.eqb s t) →
  Forall2 (fun e f => subscript e "filepath" = Ok (PStr f)) file_ops files →
  recent_files_loop py file_ops (map PStr acc)
  = Ok (map PStr (acc ++ List.filter (fun y => negb (existsb (fun k' => String.eqb k' y) acc))
                           (first_occurrences files))).
Proof.
  intros Heq Hfiles. revert acc. induction Hfiles as [|e f file_ops files He Hfiles IH]; intros acc.
  - simpl. by rewrite app_nil_r.
  - simpl recent_files_loop. rewrite He. simpl.
    assert (existsb (py_eq py (PStr f)) (map PStr acc) = existsb (fun k' => String.eqb k' f) acc)
      as ->.
    { induction acc as [|a acc IHa]; [done |]. simpl.
      by rewrite Heq, IHa, (String.eqb_sym f a). }
    simpl first_occurrences. simpl List.filter. rewrite filter_filter_and.
    destruct (existsb (fun k' => String.eqb k' f) acc) eqn:Hf; simpl.
    + rewrite IH. do 3 f_equal. apply filter_ext_in. intros y _.
      destruct (String.eqb_spec y f) as [-> | Hne]; simpl; [by rewrite Hf | done].
    + replace (map PStr acc ++ [PStr f]) with (map PStr (acc ++ [f])) by (by rewrite map_app).
      rewrite IH, <- app_assoc. simpl. do 4 f_equal. apply filter_ext_in. intros y _.
      rewrite existsb_app. simpl. rewrite orb_false_r, negb_orb, andb_comm.
      by rewrite (String.eqb_sym f y).
Qed.

Lemma Forall2_lastn {A B} (R : A → B → Prop) (n : nat) (l : list A) (k : list B) :
  Forall2 R l k → Forall2 R (lastn n l) (lastn n k).
Proof.
  intros H. unfold lastn. rewrite (Forall2_length _ _ _ H). by apply Forall2_drop.
Qed.

(** X22: in a session of a monitor built by [__init__] with a
    non-negative [max_context_size], where [==] on strings is equality,
    [_get_recent_files] returns the paths of the last ten logged file
    operations, each path once, in the order in which the paths first
    occur among those ten. Whenever [get_session_summary] returns,
    [recent_files] is that list and [file_operations] is the number of
    all logged file operations; and it returns whenever each command
    that the command history holds is empty or has a first word. *)
Theorem summary_recent_files (py : PyLib) (t0 later : Z) (cwd : string) (comp : comp_start)
    (mcs mhi : Z) (st0 : monitor) (ops : list (Z * append_op)) :
  init py t0 cwd comp mcs mhi = Ok st0 → 0 <= mcs →
  (∀ s t, py_eq py (PStr s) (PStr t) = String.eqb s t) →
  let st := final_state py ops st0 in
  let files := map PStr (first_occurrences (lastn 10 (logged_files ops))) in
  _get_recent_files py st = Ok files
  ∧ (∀ s, get_session_summary py later st = Ok s →
          recent_files s = files ∧ file_operations s = length (logged_files ops))
  ∧ (Forall has_first_word (dq_items (command_history st)) →
     ∃ s, get_session_summary py later st = Ok s).
Proof.
  intros Hinit Hmcs Heq st files.
  destruct (init_inv _ _ _ _ _ _ _ Hinit Hmcs) as [Hinv0 _].
  destruct (final_state_files py ops mcs mhi st0 [] [] [] [] [] Hinv0)
    as (cs & os & ds & fs & Hinv & Hfiles); [constructor |].
  simpl in Hfiles. fold st in Hinv.
  destruct (inv_shape _ _ _ _ _ _ _ Hinv) as [start Hsd].
  assert (_get_recent_files py st = Ok files) as Hrf.
  { unfold _get_recent_files. rewrite Hsd. simpl.
    rewrite (py_last_n_lastn 10 fs) by lia.
    pose proof (recent_files_loop_paths py (lastn 10 fs) (lastn 10 (logged_files ops)) [] Heq
                  (Forall2_lastn _ 10 _ _ Hfiles)) as Hloop.
    simpl in Hloop. by rewrite filter_all in Hloop. }
  split; [exact Hrf |]. split.
  - intros s Hs. unfold get_session_summary in Hs. rewrite Hsd in Hs. simpl in Hs.
    destruct (_get_most_used_commands st) as [muc|]; [| done]. simpl in Hs.
    rewrite Hrf in Hs. simpl in Hs. injection Hs as <-. simpl.
    split; [done |]. by apply Forall2_length in Hfiles.
  - intros Hwords. by eapply summary_returns_history.
Qed.

(** The instance of X22 for a history of one entry that has let go of a
    command of blanks. *)
Lemma summary_recent_files_witness :
  let st := final_state sample_lib file_appends (sample_monitor 10000 1) in
  dq_items (command_history st) = [command_entry sample_lib 3000000 "make" "/tmp"]
  ∧ _get_recent_files sample_lib st = Ok [PStr "a.txt"; PStr "b.txt"]
  ∧ ∃ s, get_session_summary sample_lib 9000000 st = Ok s
         ∧ recent_files s = [PStr "a.txt"; PStr "b.txt"]
         ∧ file_operations s = 3%nat.
Proof.
  intros st.
  assert (dq_items (command_history st) = [command_entry sample_lib 3000000 "make" "/tmp"])
    as Hst by (vm_compute; reflexivity).
  split; [exact Hst |].
  destruct (summary_recent_files sample_lib 0 9000000 "/tmp" CompUnavailable 10000 1
              (sample_monitor 10000 1) file_appends) as (Hrf & Hsum & Hreturns).
  - reflexivity.
  - lia.
  - reflexivity.
  - fold st in Hrf, Hsum, Hreturns. split; [rewrite Hrf; reflexivity |].
    destruct Hreturns as [s Hs].
    { rewrite Hst. repeat (apply Forall_cons_2); try apply Forall_nil_2;
        (eexists; split; [reflexivity | right; discriminate]). }
    exists s. split; [exact Hs |].
    destruct (Hsum s Hs) as [Hr Hn]. split; [rewrite Hr | rewrite Hn]; reflexivity.
Defined.

(** ** The counts of the most used commands *)

Lemma count_commands_fold (entries : list pyval) (acc r : list (string * nat)) :
  count_commands entries acc = Ok r →
  ∃ bs, Forall2 (fun e b => command_basename e = Ok b) entries bs
        ∧ r = fold_left (fun d b => count_command b d) bs acc.
Proof.
  revert acc. induction entries as [|e entries IH]; intros acc; simpl.
  - intros [= <-]. exists []. split; [constructor | done].
  - destruct (command_basename e) as [b|] eqn:Hb; [| done]. simpl.
    intros (bs & Hbs & ->)%IH. exists (b :: bs). split; [by constructor | done].
Qed.

Lemma fold_count_get (bs : list string) (acc : list (string * nat)) (b : string) :
  default 0%nat (alist_get b (fold_left (fun d b => count_command b d) bs acc))
  = (default 0%nat (alist_get b acc) + occurrences b bs)%nat.
Proof.
  revert acc. induction bs as [|x bs IH]; intros acc.
  - unfold occurrences. simpl. lia.
  - simpl fold_left. rewrite IH. unfold count_command at 1, occurrences. simpl.
    destruct (String.eqb_spec b x) as [-> | Hne].
    + rewrite alist_get_set_eq. simpl. lia.
    + rewrite alist_get_set_ne by done. lia.
Qed.

Lemma Forall_alist_set {V} (P : string * V → Prop) (k : string) (v : V) (d : list (string * V)) :
  Forall P d → P (k, v) → Forall P (alist_set k v d).
Proof.
  intros Hd Hk. induction d as [|[k' v'] d IH]; simpl; [by constructor |].
  apply Forall_cons in Hd as [Hx Hd].
  destruct (String.eqb k' k); constructor; auto.
Qed.

Lemma fold_count_pos (bs : list string) (acc : list (string * nat)) :
  Forall (fun x => (0 < x.2)%nat) acc →
  Forall (fun x => (0 < x.2)%nat) (fold_left (fun d b => count_command b d) bs acc).
Proof.
  revert acc. induction bs as [|x bs IH]; intros acc Hacc; [done |].
  simpl. apply IH. apply Forall_alist_set; [done | simpl; lia].
Qed.

Lemma NoDup_alist_set {V} (k : string) (v : V) (d : list (string * V)) :
  NoDup (map fst d) → NoDup (map fst (alist_set k v d)).
Proof.
  intros Hd. rewrite alist_set_keys.
  destruct (existsb (fun k' => String.eqb k' k) (map fst d)) eqn:Hk; [done |].
  apply NoDup_app. split; [done |]. split; [| apply NoDup_singleton].
  intros x Hx ->%list_elem_of_singleton.
  assert (existsb (fun k' => String.eqb k' k) (map fst d) = true) as Hk'; [| congruence].
  apply existsb_exists. exists k. split; [by apply list_elem_of_In | apply String.eqb_refl].
Qed.

Lemma fold_count_NoDup (bs : list string) (acc : list (string * nat)) :
  NoDup (map fst acc) → NoDup (map fst (fold_left (fun d b => count_command b d) bs acc)).
Proof.
  revert acc. induction bs as [|x bs IH]; intros acc Hacc; [done |].
  simpl. apply IH. by apply NoDup_alist_set.
Qed.

(** X23: the counts of [_get_most_used_commands] are right. Every pair
    it returns gives a first word of a command of the history with the
    number of commands of the history that start with that word; no word
    is listed twice, and no word that is left out starts more commands
    than a listed one. *)
Theorem most_used_commands_counts (st : monitor) (r : list (string * nat)) :
  _get_most_used_commands st = Ok r →
  ∃ bs, Forall2 (fun e b => command_basename e = Ok b) (dq_items (command_history st)) bs
        ∧ NoDup (map fst r)
        ∧ (∀ b n, (b, n) ∈ r → n = occurrences b bs ∧ (0 < n)%nat)
        ∧ (∀ b n b', (b, n) ∈ r → b' ∉ map fst r → (occurrences b' bs ≤ n)%nat).
Proof.
  unfold _get_most_used_commands.
  destruct (count_commands _ _) as [counts|] eqn:Hcounts; simpl; [| done].
  intros [= <-]. apply count_commands_fold in Hcounts as (bs & Hbs & ->).
  set (counts := fold_left (fun d b => count_command b d) bs []).
  assert (NoDup (map fst counts)) as Hnd by (apply fold_count_NoDup; constructor).
  assert (∀ b n, (b, n) ∈ counts → n = occurrences b bs ∧ (0 < n)%nat) as Hcount.
  { intros b n Hin. split.
    - pose proof (fold_count_get bs [] b) as Hget. fold counts in Hget.
      apply alist_get_NoDup in Hin; [| done]. rewrite Hin in Hget. simpl in Hget. lia.
    - pose proof (fold_count_pos bs [] ltac:(constructor)) as Hpos. fold counts in Hpos.
      rewrite Forall_forall in Hpos. apply (Hpos (b, n) Hin). }
  assert (∀ x, x ∈ take 10 (sort_by_count_desc counts) → x ∈ counts) as Htake.
  { intros x Hx. rewrite <- (sort_by_count_desc_perm counts).
    rewrite <- (take_drop 10 (sort_by_count_desc counts)). apply elem_of_app. by left. }
  exists bs. split; [exact Hbs |]. split; [| split].
  - rewrite <- firstn_map. eapply sublist_NoDup; [| apply sublist_take].
    by rewrite (Permutation_map fst (sort_by_count_desc_perm counts)).
  - intros b n Hin. apply Hcount, Htake, Hin.
  - intros b n b' Hin Hb'.
    destruct (occurrences b' bs) as [|m] eqn:Hocc; [lia |].
    pose proof (fold_count_get bs [] b') as Hget. fold counts in Hget.
    rewrite Hocc in Hget. simpl in Hget.
    destruct (alist_get b' counts) as [n'|] eqn:Hn'; simpl in Hget; [| lia]. subst n'.
    apply alist_get_NoDup in Hn'; [| done].
    rewrite <- (sort_by_count_desc_perm counts) in Hn'.
    rewrite <- (take_drop 10 (sort_by_count_desc counts)) in Hn'.
    apply elem_of_app in Hn' as [Hn' | Hn'].
    + exfalso. apply Hb'. apply list_elem_of_In, in_map_iff. exists (b', S m).
      split; [done | by apply list_elem_of_In].
    + pose proof (sort_by_count_desc_sorted counts) as Hsorted.
      rewrite <- (take_drop 10 (sort_by_count_desc counts)) in Hsorted.
      apply (StronglySorted_app_1_elem_of _ _ _ _ _ Hsorted Hin Hn').
Qed.

Lemma most_used_commands_counts_witness :
  ∃ bs, Forall2 (fun e b => command_basename e = Ok b) (dq_items (command_history git_session)) bs
        ∧ NoDup (map fst [("git", 2%nat); ("ls", 1%nat)])
        ∧ (∀ b n, (b, n) ∈ [("git", 2%nat); ("ls", 1%nat)] → n = occurrences b bs ∧ (0 < n)%nat)
        ∧ (∀ b n b', (b, n) ∈ [("git", 2%nat); ("ls", 1%nat)] →
                     b' ∉ map fst [("git", 2%nat); ("ls", 1%nat)] → (occurrences b' bs ≤ n)%nat).
Proof. apply (most_used_commands_counts git_session). vm_compute. reflexivity. Defined.

(** ** The history monitor of terminal_monitor.py reads the file again *)

Lemma length_compress_after (prev : option string) (l : list string) :
  (length (compress_after prev l) ≤ length l)%nat.
Proof.
  revert prev. induction l as [|c l IH]; intros prev; simpl; [lia |].
  destruct (bool_decide (prev = Some c)); simpl.
  - specialize (IH prev). lia.
  - specialize (IH (Some c)). lia.
Qed.

Lemma read_history_lines_compress (hms : string) (lines : list string) (q : deque cmd_event) :
  (length (dq_items q) + length lines ≤ dq_maxlen q)%nat →
  dq_items (read_history_lines hms lines q)
  = dq_items q
    ++ map (read_event hms)
         (compress_after (ce_command <$> last (dq_items q)) (omap inline_line_command lines)).
Proof.
  revert q. induction lines as [|raw lines IH]; intros q Hroom.
  - simpl. by rewrite app_nil_r.
  - simpl in Hroom. simpl read_history_lines. simpl omap.
    destruct (inline_line_command raw) as [c|]; [| apply IH; lia].
    unfold is_new_command.
    destruct (last (dq_items q)) as [e|] eqn:Hlast; simpl.
    + destruct (String.eqb_spec (ce_command e) c) as [Heq | Hne]; simpl.
      * subst c. rewrite bool_decide_eq_true_2 by done. rewrite IH by lia. rewrite Hlast. reflexivity.
      * rewrite bool_decide_eq_false_2 by congruence.
        rewrite IH by (rewrite deque_append_maxlen, deque_append_room by lia;
                       rewrite length_app; simpl; lia).
        rewrite deque_append_room by lia. rewrite last_snoc. simpl.
        by rewrite <- app_assoc.
    + rewrite IH by (rewrite deque_append_maxlen, deque_append_room by lia;
                     rewrite length_app; simpl; lia).
      rewrite deque_append_room by lia. rewrite last_snoc. simpl.
      by rewrite <- app_assoc.
Qed.

Lemma monitor_loop_turn_history (new_commands : list cmd_event) (new_processes : list proc_event)
    (new_content : list string) (tm : terminal_monitor) :
  tm_command_history (monitor_loop_turn new_commands new_processes new_content tm)
  = deque_extend new_commands (tm_command_history tm)
  ∧ tm_terminal_buffer (monitor_loop_turn new_commands new_processes new_content tm)
    = deque_extend (map terminal_entry new_commands ++ new_content) (tm_terminal_buffer tm)
  ∧ tm_process_history (monitor_loop_turn new_commands new_processes new_content tm)
    = deque_extend new_processes (tm_process_history tm).
Proof.
  unfold monitor_loop_turn. simpl. rewrite deque_extend_app.
  revert tm. induction new_commands as [|cmd cmds IH]; intros tm; [done |].
  simpl fold_left. destruct (IH {|
    tm_terminal_buffer := deque_append ("[" +:+ ce_timestamp cmd +:+ "] $ " +:+ ce_command cmd)
                            (tm_terminal_buffer tm);
    tm_command_history := deque_append cmd (tm_command_history tm);
    tm_process_history := tm_process_history tm;
    current_session_pid := current_session_pid tm;
    parent_shell_pid := parent_shell_pid tm |}) as (H1 & H2 & H3).
  rewrite H1, H2, H3. done.
Qed.

(** X24: the history monitor of [terminal_monitor.py] reads the last 50
    lines of the history file at every change of its size, not the lines
    that are new. On a queue that was just drained it queues the commands
    of those lines once more, leaving out only a command that repeats the
    one before it; the next turn of the monitor loop appends them all to
    the command history of the terminal monitor. *)
Theorem read_new_history_rereads (hms : string) (lines : list string) (m : history_monitor)
    (new_processes : list proc_event) (new_content : list string) (tm : terminal_monitor) :
  (50 ≤ dq_maxlen (commands m))%nat →
  let drained := {| commands := (get_new_data (commands m)).2 |} in
  let m' := _read_new_history hms (Ok lines) drained in
  let cmds := compress (omap inline_line_command (lastn 50 lines)) in
  commands_of (commands m') = cmds
  ∧ tm_command_history
      (monitor_loop_turn (get_new_data (commands m')).1 new_processes new_content tm)
    = deque_extend (map (read_event hms) cmds) (tm_command_history tm).
Proof.
  intros Hmax drained m' cmds.
  assert ((if (50 <? length lines)%nat then py_last_n 50 lines else lines) = lastn 50 lines) as Hlast.
  { destruct (Nat.ltb_spec 50 (length lines)); [by apply py_last_n_lastn; lia |].
    by rewrite lastn_all. }
  assert (dq_items (commands m') = map (read_event hms) cmds) as Hitems.
  { unfold m', _read_new_history. rewrite Hlast. simpl commands.
    rewrite read_history_lines_compress; [done |].
    simpl. rewrite length_lastn. lia. }
  split.
  - unfold commands_of. rewrite Hitems, map_map. simpl. apply map_id.
  - destruct (monitor_loop_turn_history (get_new_data (commands m')).1 new_processes
                new_content tm) as [-> _].
    change ((get_new_data (commands m')).1) with (dq_items (commands m')).
    by rewrite Hitems.
Qed.

Lemma read_new_history_rereads_witness :
  let m1 := _read_new_history "12:00:00" (Ok ["ls" +:+ nl; "ls" +:+ nl; "pwd" +:+ nl])
              history_monitor_init in
  let drained := {| commands := (get_new_data (commands m1)).2 |} in
  commands_of (commands m1) = ["ls"; "pwd"]
  ∧ commands_of (commands (_read_new_history "12:00:05"
       (Ok ["ls" +:+ nl; "ls" +:+ nl; "pwd" +:+ nl; "make" +:+ nl]) drained))
    = ["ls"; "pwd"; "make"].
Proof.
  split; [reflexivity |].
  destruct (read_new_history_rereads "12:00:05" ["ls" +:+ nl; "ls" +:+ nl; "pwd" +:+ nl; "make" +:+ nl]
              (_read_new_history "12:00:00" (Ok ["ls" +:+ nl; "ls" +:+ nl; "pwd" +:+ nl])
                 history_monitor_init)
              [] [] (terminal_monitor_init 1 0)) as [H _].
  - simpl. lia.
  - rewrite H. reflexivity.
Defined.

(** ** A negative bound of the context buffer *)

Lemma trim_lines_negative (max : Z) (lines : list string) :
  max < 0 → trim_lines max lines = raise IndexError "pop from empty list".
Proof.
  intros Hmax.
  assert (∀ n, over_target n max = true) as Hover by (intros n; apply over_target_true; lia).
  induction lines as [|l rest IH].
  - simpl. by rewrite Hover.
  - rewrite trim_lines_cons. by rewrite Hover.
Qed.

Lemma update_context_buffer_negative (text : string) (st : monitor) :
  max_context_size st < 0 →
  _update_context_buffer text st
  = (set_context_buffer (context_buffer st +:+ text +:+ nl) st,
     raise IndexError "pop from empty list").
Proof.
  intros Hmax. unfold _update_context_buffer.
  change (max_context_size (set_context_buffer (context_buffer st +:+ text +:+ nl) st))
    with (max_context_size st).
  destruct (Z.ltb_spec (max_context_size st)
              (Z.of_nat (String.length
                 (context_buffer (set_context_buffer (context_buffer st +:+ text +:+ nl) st)))))
    as [_ | Hge]; [| lia].
  by rewrite trim_lines_negative.
Qed.

(** X25: with a negative [max_context_size] nothing bounds the context
    buffer. Every update appends the text and raises [IndexError] from
    the trimming loop, so [log_command] raises too, after the command has
    entered the history and the session data; the buffer keeps every
    line. *)
Theorem negative_bound_raises (py : PyLib) (now : Z) (c : string) (timestamp : option Z)
    (st : monitor) (cs os ds fs : list pyval) :
  max_context_size st < 0 →
  session_shape (session_data st) cs os ds fs →
  let entry := command_entry py (default now timestamp) c (current_directory st) in
  let line := "[" +:+ strftime_HMS py (default now timestamp) +:+ "] $ " +:+ c in
  let r := log_command py now c timestamp st in
  r.2 = raise IndexError "pop from empty list"
  ∧ context_buffer r.1 = context_buffer st +:+ line +:+ nl
  ∧ command_history r.1 = deque_append entry (command_history st)
  ∧ session_shape (session_data r.1) (cs ++ [entry]) os ds fs
  ∧ ∀ text, _update_context_buffer text r.1
            = (set_context_buffer (context_buffer r.1 +:+ text +:+ nl) r.1,
               raise IndexError "pop from empty list").
Proof.
  intros Hmax [start Hsd] entry line r.
  assert (r = (set_context_buffer (context_buffer st +:+ line +:+ nl)
                 (set_session_data
                    (PDict [("start_time", start); ("commands", PList (cs ++ [entry]));
                            ("outputs", PList os); ("directory_changes", PList ds);
                            ("file_operations", PList fs)])
                    (set_command_history (deque_append entry) st)),
               raise IndexError "pop from empty list")) as ->.
  { unfold r, log_command. step_method. unfold session_append. simpl. rewrite Hsd. simpl.
    by rewrite update_context_buffer_negative. }
  cbn. split; [done |]. split; [done |]. split; [done |]. split; [by eexists |].
  intros text. by rewrite update_context_buffer_negative.
Qed.

Lemma negative_bound_raises_witness :
  let r := log_command sample_lib 1000000 "ls" None (sample_monitor (-1) 10) in
  r.2 = raise IndexError "pop from empty list"
  ∧ context_buffer r.1 = "[1] $ ls" +:+ nl.
Proof.
  destruct (negative_bound_raises sample_lib 1000000 "ls" None (sample_monitor (-1) 10)
              [] [] [] []) as (Hr & Hb & _).
  - simpl. lia.
  - eexists. reflexivity.
  - split; [exact Hr |]. rewrite Hb. reflexivity.
Defined.

(** ** A session file that holds no object *)

Lemma session_append_not_dict (key : string) (entry : pyval) (st : monitor) :
  (∀ d, session_data st ≠ PDict d) →
  session_append key entry st = (st, raise TypeError "object is not subscriptable by a string").
Proof.
  intros Hnd. unfold session_append. destruct (session_data st) as [| | | | | |d]; try done.
  by destruct (Hnd d).
Qed.

(** X26: a session file whose JSON value is not an object leaves the
    monitor unusable. [load_session] logs the error, but by then it has
    stored the value as session data and emptied both histories; after
    that every append raises [TypeError] before it reaches the context
    buffer, and the session summary raises as well. *)
Theorem load_session_not_an_object (py : PyLib) (data : pyval) (st : monitor) :
  (∀ d, data ≠ PDict d) →
  let st' := (load_session (Ok data) st).1 in
  (load_session (Ok data) st).2 = Ok tt
  ∧ session_data st' = data
  ∧ dq_items (command_history st') = []
  ∧ dq_items (output_history st') = []
  ∧ context_buffer st' = context_buffer st
  ∧ (∀ now op,
       (run_append py now op st').2 = raise TypeError "object is not subscriptable by a string"
       ∧ context_buffer (run_append py now op st').1 = context_buffer st)
  ∧ ∀ now, get_session_summary py now st'
           = raise TypeError "object is not subscriptable by a string".
Proof.
  intros Hnd st'.
  assert (load_session (Ok data) st
          = (set_output_history deque_clear
               (set_command_history deque_clear (set_session_data data st)), Ok tt)) as Hload.
  { unfold load_session, try_log, load_session_body. step_method.
    destruct data as [| | | | | |d]; try reflexivity. by destruct (Hnd d). }
  unfold st'. rewrite Hload. cbn. repeat (split; [done |]).
  set (s := set_output_history deque_clear
              (set_command_history deque_clear (set_session_data data st))).
  assert (∀ d, session_data s ≠ PDict d) as Hs by exact Hnd.
  split.
  - intros now op. destruct op as [c t | o c t | d t | o f t]; simpl run_append.
    + unfold log_command. step_method. rewrite session_append_not_dict by exact Hnd. done.
    + unfold log_output. step_method. rewrite session_append_not_dict by exact Hnd. done.
    + unfold log_directory_change. step_method.
      rewrite session_append_not_dict by exact Hnd. done.
    + unfold log_file_operation. step_method.
      rewrite session_append_not_dict by exact Hnd. done.
  - intros now. unfold get_session_summary. simpl.
    destruct data as [| | | | | |d]; try reflexivity. by destruct (Hnd d).
Qed.

Lemma load_session_not_an_object_witness :
  let st' := (load_session (Ok (PList [])) three_command_session).1 in
  dq_items (command_history st') = []
  ∧ (run_append sample_lib 9000000 (LogCommand "ls" None) st').2
    = raise TypeError "object is not subscriptable by a string".
Proof.
  destruct (load_session_not_an_object sample_lib (PList []) three_command_session)
    as (_ & _ & Hc & _ & _ & Hrun & _).
  - done.
  - split; [exact Hc |]. apply Hrun.
Defined.

(** ** A run of the comprehensive monitor *)

(** Three commands were typed and five are counted: the second change
    of the history file queues the first two again. *)
Example comprehensive_sample_run :
  let cm := co_monitor (run_activities sample_activities (coordinator_init sample_environ)) in
  map ce_command (cs_commands (comp_session_data cm))
  = ["git status"; "git pull"; "git status"; "git pull"; "ls"]
  ∧ ∃ s, comp_get_session_summary sample_lib 9000000 0 cm = Ok s
         ∧ csum_command_frequency s = [("git", 4%nat); ("ls", 1%nat)]
         ∧ csum_total_processes s = 1%nat
         ∧ csum_buffer_size s = 6%nat.
Proof. split; [reflexivity |]. eexists. split; [vm_compute; reflexivity |]. done. Qed.
